(** * Air-quality dashboard: the data normalisation pipeline of [analysis.py]

    A shallow embedding of [load_data], [clean_data], [get_data_summary],
    [filter_by_date_range] and [get_daily_averages] over a small model of the
    pandas objects they manipulate.

    - A [DataFrame] is an index length together with an ordered list of
      named columns; a column ([Series]) carries its dtype and its cells.
    - A cell is a Python scalar: [nan], [None], [NaT], an int, a float, a
      str, a [Timestamp] or a [datetime.time].
    - Python variables hold references to frames; the functions that take and
      return frames are written in a state-and-error monad over a store of
      frames, so that copying, rebinding and in-place assignment are told
      apart.  Their effect on the frame itself is a pure function of the
      frame, which most statements below are about.
    - A float is written as the finite decimal it prints as.  A decimal of
      at most 15 significant digits, in the range that [repr] prints without
      an exponent, stands for exactly one double, which prints as that
      decimal and reads back from it; the statements that print a float and
      read it again carry this as a hypothesis ([exact_cell]).  A longer
      decimal stands for the double nearest to it.  The two infinities are
      values of their own.
    - What the source leaves to pandas is a parameter of the development,
      the record [pandas]: what [pd.to_datetime(column, errors='coerce',
      infer_datetime_format=True)] makes of a value, given the whole column
      it is called on; what [pd.to_datetime] makes of one string; what
      [format='%H:%M:%S'] makes of a seconds field of 60 or 61; and what
      [pd.to_numeric] reads from a text that is no plain decimal literal. *)

From Stdlib Require Import ZArith Ascii String List Lia Bool.
From stdpp Require Import base option list strings gmap pretty.

Local Open Scope string_scope.
Local Open Scope Z_scope.

(** ** Python scalars *)

(** A float, as the decimal [mant * 10^-scale]; kept normalised (no trailing
    zero in the fraction) so that numerically equal floats are equal terms. *)
Record float := Float { mant : Z; scale : nat }.

(** [datetime.time]: time of day, microsecond resolution. *)
Record time := Time { t_hour : nat; t_minute : nat; t_second : nat; t_micro : nat }.

(** [pd.Timestamp] without time zone: civil date and time of day. *)
Record timestamp := Timestamp { year : nat; month : nat; day : nat; tod : time }.

Inductive value :=
| VNaN                      (* np.nan *)
| VNone                     (* None *)
| VNaT                      (* pd.NaT *)
| VInt (n : Z)
| VFloat (f : float)
| VInf (negative : bool)    (* float('inf'), float('-inf') *)
| VStr (s : string)
| VTimestamp (ts : timestamp)
| VTime (t : time).

Global Instance float_eq_dec : EqDecision float.
Proof. solve_decision. Defined.
Global Instance time_eq_dec : EqDecision time.
Proof. solve_decision. Defined.
Global Instance timestamp_eq_dec : EqDecision timestamp.
Proof. solve_decision. Defined.
Global Instance value_eq_dec : EqDecision value.
Proof. solve_decision. Defined.

(** ** Decimal floats *)

(** Drop trailing zeros of the fraction. *)
Fixpoint normalize (m : Z) (k : nat) : float :=
  match k with
  | O => Float m O
  | S k' => if (m mod 10 =? 0) then normalize (m / 10) k' else Float m k
  end.

Definition float_of_Z (n : Z) : float := Float n 0.

(** Python's [==] between an int and a float. *)
Definition float_eq_Z (f : float) (n : Z) : bool :=
  bool_decide (normalize (mant f) (scale f) = float_of_Z n).

(** [isnull]/[isna] on a cell. *)
Definition isna (v : value) : bool :=
  match v with VNaN | VNone | VNaT => true | _ => false end.

Definition notna (v : value) : bool := negb (isna v).

(** ** Strings *)

Fixpoint str_map (f : ascii -> ascii) (s : string) : string :=
  match s with
  | EmptyString => EmptyString
  | String c s' => String (f c) (str_map f s')
  end.

(** [s.replace(old, new)] for one-character [old] and [new]. *)
Definition str_replace (old new : ascii) (s : string) : string :=
  str_map (fun c => if Ascii.eqb c old then new else c) s.

(** Python's [str.isspace] on an ASCII character. *)
Definition py_isspace (c : ascii) : bool :=
  let n := nat_of_ascii c in
  ((9 <=? n) && (n <=? 13) || (28 <=? n) && (n <=? 32))%nat.

Fixpoint lstrip (s : string) : string :=
  match s with
  | EmptyString => EmptyString
  | String c s' => if py_isspace c then lstrip s' else s
  end.

(** [s.strip()] *)
Definition strip (s : string) : string :=
  String.rev (lstrip (String.rev (lstrip s))).

Definition is_digit (c : ascii) : bool :=
  let n := nat_of_ascii c in ((48 <=? n) && (n <=? 57))%nat.

Definition digit_val (c : ascii) : Z := Z.of_nat (nat_of_ascii c) - 48.

(** Value of a non-empty run of ASCII digits, most significant first. *)
Fixpoint digits_acc (acc : Z) (s : string) : option Z :=
  match s with
  | EmptyString => Some acc
  | String c s' => if is_digit c then digits_acc (10 * acc + digit_val c) s' else None
  end.

Definition parse_digits (s : string) : option Z :=
  match s with
  | EmptyString => None
  | _ => digits_acc 0 s
  end.

(** Split at every occurrence of the separator, as [s.split(sep)]. *)
Fixpoint split_on (sep : ascii) (s : string) : list string :=
  match s with
  | EmptyString => [EmptyString]
  | String c s' =>
      if Ascii.eqb c sep then EmptyString :: split_on sep s'
      else match split_on sep s' with
           | [] => [String c EmptyString]
           | w :: ws => String c w :: ws
           end
  end.

(** Zero-padded decimal of width [w] (as ["%0wd"]). *)
Fixpoint zero_pad (w : nat) (s : string) : string :=
  if (w <=? String.length s)%nat then s
  else match w with
       | O => s
       | S w' => String "0"%char (zero_pad w' s)
       end.

Definition pad_nat (w : nat) (n : nat) : string := zero_pad w (pretty n).

(** ** Numbers as text *)

(** What [pd.to_numeric] reads from one cell: an integer, a finite float
    or an infinity. *)
Inductive numeral := NumInt (n : Z) | NumFloat (f : float) | NumInf (negative : bool).

(** The cell of a float64 column that holds a numeral. *)
Definition numeral_cell (x : numeral) : value :=
  match x with
  | NumInt n => VFloat (float_of_Z n)
  | NumFloat f => VFloat f
  | NumInf b => VInf b
  end.

Definition numeral_neg (x : numeral) : numeral :=
  match x with
  | NumInt n => NumInt (- n)
  | NumFloat f => NumFloat (Float (- mant f) (scale f))
  | NumInf b => NumInf (negb b)
  end.

(** A float numeral in normal form. *)
Definition normal_numeral (x : numeral) : numeral :=
  match x with
  | NumFloat f => NumFloat (normalize (mant f) (scale f))
  | _ => x
  end.

(** An unsigned literal: [digits], [digits.digits], [digits.] or [.digits]. *)
Definition parse_unsigned (s : string) : option numeral :=
  match split_on "." s with
  | [i] => NumInt <$> parse_digits i
  | [i; f] =>
      match i, f with
      | EmptyString, EmptyString => None
      | _, _ =>
          m ← digits_acc 0 (i +:+ f);
          Some (NumFloat (normalize m (String.length f)))
      end
  | _ => None
  end.

(** A plain decimal literal: an optional sign and an unsigned literal. *)
Definition plain_number (s : string) : option numeral :=
  match s with
  | String "-" s' => numeral_neg <$> parse_unsigned s'
  | String "+" s' => parse_unsigned s'
  | _ => parse_unsigned s
  end.

(** The texts that [str] gives for the infinities. *)
Definition infinity_text (s : string) : option bool :=
  if String.eqb s "inf" then Some false
  else if String.eqb s "-inf" then Some true
  else None.

(** The texts that [str] gives for the nulls. *)
Definition null_text (s : string) : bool :=
  String.eqb s "nan" || String.eqb s "None" || String.eqb s "NaT".

(** [repr] of a float: at least one digit after the point. *)
Definition float_repr (f : float) : string :=
  let g := normalize (mant f) (scale f) in
  let a := Z.abs (mant g) in
  let p := 10 ^ Z.of_nat (scale g) in
  (if mant g <? 0 then "-" else "") +:+
  pretty (a / p) +:+ "." +:+
  match scale g with
  | O => "0"
  | k => zero_pad k (pretty (a mod p))
  end.

(** ** Dates and times as text *)

(** [str(t)] for a [datetime.time]. *)
Definition time_str (t : time) : string :=
  pad_nat 2 (t_hour t) +:+ ":" +:+ pad_nat 2 (t_minute t) +:+ ":" +:+
  pad_nat 2 (t_second t) +:+
  match t_micro t with
  | O => ""
  | us => "." +:+ pad_nat 6 us
  end.

(** [ts.strftime('%Y-%m-%d')] *)
Definition strftime_ymd (ts : timestamp) : string :=
  pad_nat 4 (year ts) +:+ "-" +:+ pad_nat 2 (month ts) +:+ "-" +:+ pad_nat 2 (day ts).

(** [str(ts)] for a [Timestamp]. *)
Definition timestamp_str (ts : timestamp) : string :=
  strftime_ymd ts +:+ " " +:+ time_str (tod ts).

(** [str(v)], the cell-wise effect of [astype(str)]. *)
Definition py_str (v : value) : string :=
  match v with
  | VNaN => "nan"
  | VNone => "None"
  | VNaT => "NaT"
  | VInt n => pretty n
  | VFloat f => float_repr f
  | VInf b => if b then "-inf" else "inf"
  | VStr s => s
  | VTimestamp ts => timestamp_str ts
  | VTime t => time_str t
  end.

(** A field of [%H], [%M] or [%S]: one or two digits, at most [bound]. *)
Definition parse_field (bound : Z) (s : string) : option nat :=
  if (String.length s <=? 2)%nat then
    n ← parse_digits s;
    if n <=? bound then Some (Z.to_nat n) else None
  else None.

(** The date [strptime] fills in when the format has none. *)
Definition strptime_date (t : time) : timestamp := Timestamp 1900 1 1 t.

(** ** What is left to pandas

    The library calls whose result the source does not determine. *)
Record pandas := Pandas {
  (** [pd.to_datetime(column, errors='coerce', infer_datetime_format=True)]
      at one value of the column it is given, a value that is neither null
      nor a timestamp already: the formats tried are chosen from the whole
      column, so the result may depend on the other values.  [None] is the
      NaT of a failed conversion. *)
  infer_datetime : list value -> value -> option timestamp;
  (** [pd.to_datetime(s)] on one string; [None] when it raises. *)
  scalar_datetime : string -> option timestamp;
  (** [format='%H:%M:%S'] on the hour, the minute and a seconds field of 60
      or 61. *)
  leap_second : nat -> nat -> nat -> option timestamp;
  (** [pd.to_numeric(..., errors='coerce')] on a text that is neither a
      plain decimal literal nor the [str] of an infinity or of a null:
      exponent notation, a number between blanks, another spelling of
      infinity, ...; [None] for what does not read as a number. *)
  read_number : string -> option numeral
}.

(** ** Numbers as text, read *)

(** One string cell under [pd.to_numeric(..., errors='coerce')]: [None] is
    the NaN that the cell becomes when it does not read as a number, as the
    text of a null does not. *)
Definition parse_number (pd : pandas) (s : string) : option numeral :=
  match plain_number s with
  | Some x => Some x
  | None =>
      match infinity_text s with
      | Some b => Some (NumInf b)
      | None =>
          if null_text s then None else normal_numeral <$> read_number pd s
      end
  end.

(** The fields of a text that matches [%H:%M:%S] as a whole; [%S] admits
    the values 60 and 61. *)
Definition hms_fields (s : string) : option (nat * nat * nat) :=
  match split_on ":" s with
  | [h; m; sec] =>
      h' ← parse_field 23 h;
      m' ← parse_field 59 m;
      s' ← parse_field 61 sec;
      Some (h', m', s')
  | _ => None
  end.

(** Strict parse with [format='%H:%M:%S', errors='coerce']. *)
Definition strptime_HMS (pd : pandas) (s : string) : option timestamp :=
  '(h, m, sec) ← hms_fields s;
  if (sec <? 60)%nat then Some (strptime_date (Time h m sec 0))
  else leap_second pd h m sec.

(** Strict parse with [format='%H:%M']. *)
Definition strptime_HM (s : string) : option timestamp :=
  match split_on ":" s with
  | [h; m] =>
      h' ← parse_field 23 h;
      m' ← parse_field 59 m;
      Some (strptime_date (Time h' m' 0 0))
  | _ => None
  end.

(** ** Series and frames *)

Inductive dtype := int64 | float64 | datetime64 | object.

Global Instance dtype_eq_dec : EqDecision dtype.
Proof. solve_decision. Defined.

(** A column: its dtype and its cells, in index order. *)
Record Series := mkSeries { dtype_of : dtype; cells : list value }.

Global Instance Series_eq_dec : EqDecision Series.
Proof. solve_decision. Defined.

(** A frame: the length of its (default, positional) index and its named
    columns in order.  [read_csv] never yields two columns of one name. *)
Record DataFrame := mkFrame { nrows : nat; columns : list (string * Series) }.

Global Instance DataFrame_eq_dec : EqDecision DataFrame.
Proof. solve_decision. Defined.

Fixpoint assoc (name : string) (cols : list (string * Series)) : option Series :=
  match cols with
  | [] => None
  | (n, s) :: rest => if decide (n = name) then Some s else assoc name rest
  end.

(** An existing column is replaced where it stands, a new one is appended. *)
Fixpoint assoc_set (name : string) (s : Series) (cols : list (string * Series))
  : list (string * Series) :=
  match cols with
  | [] => [(name, s)]
  | (n, x) :: rest =>
      if decide (n = name) then (name, s) :: rest
      else (n, x) :: assoc_set name s rest
  end.

(** [df[name]] ([None] stands for the [KeyError]) and [name in df.columns]. *)
Definition getitem (df : DataFrame) (name : string) : option Series :=
  assoc name (columns df).

Definition has_column (df : DataFrame) (name : string) : bool :=
  bool_decide (is_Some (getitem df name)).

(** [df[name] = s] *)
Definition setitem (name : string) (s : Series) (df : DataFrame) : DataFrame :=
  mkFrame (nrows df) (assoc_set name s (columns df)).

(** [df[name] = v] for a scalar [v]: broadcast along the index. *)
Definition scalar_series (d : dtype) (v : value) (n : nat) : Series :=
  mkSeries d (replicate n v).

(** *** Cell-wise pandas operations *)

(** [v == n] for a number [n]; a str never equals a number. *)
Definition eq_num (n : Z) (v : value) : bool :=
  match v with
  | VInt m => m =? n
  | VFloat f => float_eq_Z f n
  | _ => false
  end.

Definition int_to_float (v : value) : value :=
  match v with VInt n => VFloat (float_of_Z n) | _ => v end.

(** [s.replace(n, np.nan)]: cells equal to the number [n] become NaN.  An
    int64 column that is hit turns float64; a datetime column holds no
    number. *)
Definition series_replace (n : Z) (s : Series) : Series :=
  match dtype_of s with
  | int64 =>
      if existsb (eq_num n) (cells s)
      then mkSeries float64
             (map (fun v => if eq_num n v then VNaN else int_to_float v) (cells s))
      else s
  | datetime64 => s
  | d => mkSeries d (map (fun v => if eq_num n v then VNaN else v) (cells s))
  end.

(** [df.replace(n, np.nan)] *)
Definition df_replace (n : Z) (df : DataFrame) : DataFrame :=
  mkFrame (nrows df) (map (fun c => (c.1, series_replace n c.2)) (columns df)).

(** [s.astype(str)], as the list of strings it holds. *)
Definition astype_str (s : Series) : list string := map py_str (cells s).

(** A column of strings. *)
Definition str_series (l : list string) : Series := mkSeries object (map VStr l).

(** A datetime64 column from parse results. *)
Definition datetime_cell (o : option timestamp) : value :=
  match o with Some ts => VTimestamp ts | None => VNaT end.

Definition datetime_series (l : list (option timestamp)) : Series :=
  mkSeries datetime64 (map datetime_cell l).

(** [a.combine_first(b)] on two columns over the same index. *)
Definition combine_first {A} (a b : list (option A)) : list (option A) :=
  zip_with (fun x y => match x with Some _ => x | None => y end) a b.

(** [s.dt.time]: the time of day of each timestamp, NaT where there is none. *)
Definition dt_time (l : list (option timestamp)) : Series :=
  mkSeries object
    (map (fun o => match o with Some ts => VTime (tod ts) | None => VNaT end) l).

(** [s.dt.strftime('%Y-%m-%d')]: NaN where there is no timestamp. *)
Definition dt_strftime (v : value) : value :=
  match v with VTimestamp ts => VStr (strftime_ymd ts) | _ => VNaN end.

(** [a + b] on cells of two string columns; NaN propagates. *)
Definition str_add (a b : value) : value :=
  match a, b with
  | VStr x, VStr y => VStr (x +:+ y)
  | _, _ => VNaN
  end.

(** The numeral of a cell under [pd.to_numeric(..., errors='coerce')]. *)
Definition numeral_of (pd : pandas) (v : value) : option numeral :=
  match v with
  | VInt n => Some (NumInt n)
  | VFloat f => Some (NumFloat f)
  | VInf b => Some (NumInf b)
  | VStr s => parse_number pd s
  | _ => None
  end.

Definition is_int_numeral (o : option numeral) : bool :=
  match o with Some (NumInt _) => true | _ => false end.

Definition int_cell (o : option numeral) : value :=
  match o with Some (NumInt n) => VInt n | _ => VNaN end.

Definition float_cell (o : option numeral) : value :=
  match o with Some x => numeral_cell x | None => VNaN end.

(** [pd.to_numeric(s, errors='coerce')]: int64 when every cell reads as an
    integer, float64 (with NaN for what does not read) otherwise. *)
Definition to_numeric (pd : pandas) (s : Series) : Series :=
  let ps := map (numeral_of pd) (cells s) in
  if forallb is_int_numeral ps
  then mkSeries int64 (map int_cell ps)
  else mkSeries float64 (map float_cell ps).

(** [df.loc[mask, col]]: the cells where the mask holds, each with its index
    (counted from [k] for the first cell). *)
Fixpoint loc_get_from (k : nat) (mask : list bool) (l : list value)
  : list (nat * value) :=
  match mask, l with
  | b :: mask', v :: l' =>
      if b then (k, v) :: loc_get_from (S k) mask' l'
      else loc_get_from (S k) mask' l'
  | _, _ => []
  end.

Definition loc_get (mask : list bool) (l : list value) : list (nat * value) :=
  loc_get_from 0 mask l.

Fixpoint index_lookup (i : nat) (l : list (nat * value)) : option value :=
  match l with
  | [] => None
  | (j, v) :: rest => if decide (j = i) then Some v else index_lookup i rest
  end.

(** [df.loc[mask, col] = new]: under the mask a cell takes the value that
    [new] has at the same index (NaT where [new] has none). *)
Definition loc_set (mask : list bool) (l : list value) (new : list (nat * value))
  : list value :=
  imap (fun i v =>
          if default false (mask !! i)
          then default VNaT (index_lookup i new)
          else v) l.

(** ** The cleaning pipeline on a frame *)

(** The sentinel that marks a missing reading. *)
Definition sentinel : Z := -200.

Definition numeric_columns : list string :=
  ["CO(GT)"; "PT08.S1(CO)"; "NMHC(GT)"; "C6H6(GT)";
   "PT08.S2(NMHC)"; "NOx(GT)"; "PT08.S3(NOx)"; "NO2(GT)";
   "PT08.S4(NO2)"; "PT08.S5(O3)"; "T"; "RH"; "AH"].

(** Replace comma with dot for decimal separator, then read the numbers:
    the body of the loop over [numeric_columns]. *)
Definition coerce_column (pd : pandas) (df : DataFrame) (col : string)
  : DataFrame :=
  match getitem df col with
  | Some s =>
      let df := setitem col (str_series (map (str_replace "," ".") (astype_str s))) df in
      match getitem df col with
      | Some s' => setitem col (to_numeric pd s') df
      | None => df
      end
  | None => df
  end.

(** [for col in numeric_columns: if col in df_clean.columns: ...] *)
Definition coerce_numeric (pd : pandas) (df : DataFrame) : DataFrame :=
  fold_left (coerce_column pd) numeric_columns df.

(** [df_clean['Datetime'] = df_clean['DateTime']] *)
Definition alias_datetime (df : DataFrame) : DataFrame :=
  match getitem df "DateTime" with
  | Some s => setitem "Datetime" s df
  | None => df
  end.

(** One cell under [pd.to_datetime(..., errors='coerce')]: a timestamp is
    kept, a null is NaT, anything else is parsed. *)
Definition to_datetime_cell (parse : value -> option timestamp) (v : value)
  : option timestamp :=
  match v with
  | VTimestamp ts => Some ts
  | VNaN | VNone | VNaT => None
  | _ => parse v
  end.

Section Pipeline.

Variable pd : pandas.

(** [pd.to_datetime(s, errors='coerce', infer_datetime_format=True)]: the
    whole column is handed to pandas. *)
Definition to_datetime (l : list value) : list (option timestamp) :=
  map (to_datetime_cell (infer_datetime pd l)) l.

(** Robust Date parsing. *)
Definition parse_date (df : DataFrame) : DataFrame :=
  match getitem df "Date" with
  | Some s => setitem "Date" (datetime_series (to_datetime (cells s))) df
  | None => df
  end.

(** The three parses of the Time column, merged by [combine_first]. *)
Definition parse_time_strings (time_series : list string) : list (option timestamp) :=
  let time_norm := map (str_replace "." ":") time_series in
  let parsed := map (strptime_HMS pd) time_norm in
  let parsed := combine_first parsed (map strptime_HM time_norm) in
  combine_first parsed (to_datetime (map VStr time_series)).

(** Robust Time parsing. *)
Definition parse_time (df : DataFrame) : DataFrame :=
  match getitem df "Time" with
  | Some s =>
      let time_series := map strip (astype_str s) in
      setitem "Time" (dt_time (parse_time_strings time_series)) df
  | None => df
  end.

(** The strings handed to the combined parse: one per row under the mask,
    [strftime('%Y-%m-%d') + ' ' + astype(str)], with the row's index. *)
Definition combined_strings (mask : list bool) (date time : Series)
  : list (nat * value) :=
  zip_with (fun d t => (d.1, str_add (str_add (dt_strftime d.2) (VStr " "))
                                     (VStr (py_str t.2))))
           (loc_get mask (cells date)) (loc_get mask (cells time)).

(** Create the DateTime column. *)
Definition derive_datetime (df : DataFrame) : DataFrame :=
  let df := setitem "DateTime" (scalar_series datetime64 VNaT (nrows df)) df in
  match getitem df "Date", getitem df "Time", getitem df "DateTime" with
  | Some date, Some time, Some dt =>
      let valid_datetime_mask :=
        zip_with andb (map notna (cells date)) (map notna (cells time)) in
      if existsb id valid_datetime_mask then
        let texts := combined_strings valid_datetime_mask date time in
        let parsed :=
          map (fun p => (p.1, datetime_cell
                                (to_datetime_cell (infer_datetime pd texts.*2) p.2)))
              texts in
        setitem "DateTime"
          (mkSeries datetime64 (loc_set valid_datetime_mask (cells dt) parsed)) df
      else df
  | _, _, _ => df
  end.

(** The frame [clean_data] returns, as a function of the frame it is given. *)
Definition clean_frame (df : DataFrame) : DataFrame :=
  let df_clean := df_replace sentinel df in
  let df_clean := parse_date df_clean in
  let df_clean := parse_time df_clean in
  let df_clean := derive_datetime df_clean in
  let df_clean := alias_datetime df_clean in
  coerce_numeric pd df_clean.

End Pipeline.

(** ** The interpreter's state: frames behind references, and what was printed *)

Inductive exn_class :=
| FileNotFoundError
| KeyError
| TypeError
| ValueError
| ParserError         (* [pandas.errors.ParserError], a [ValueError]: a record
                         with more fields than the header has *)
| OtherException      (* any other class derived from [Exception] *)
| BaseExceptionOnly   (* [KeyboardInterrupt], [SystemExit]: not an [Exception] *)
| DanglingReference.  (* a reference outside the store: no program holds one *)

Record exn := Exn { exn_cls : exn_class; exn_msg : string }.

(** [isinstance(e, Exception)] *)
Definition is_Exception (e : exn) : bool :=
  match exn_cls e with
  | BaseExceptionOnly | DanglingReference => false
  | _ => true
  end.

Definition is_FileNotFoundError (e : exn) : bool :=
  match exn_cls e with FileNotFoundError => true | _ => false end.

(** An error about one record of the file, not about the file as a whole. *)
Definition record_level (e : exn) : bool :=
  match exn_cls e with ParserError => true | _ => false end.

(** What [pd.read_csv], with its default [on_bad_lines='error'], raises on a
    file whose third line has 17 fields under a header of 15. *)
Definition malformed_record : exn :=
  Exn ParserError
      "Error tokenizing data. C error: Expected 15 fields in line 3, saw 17".

Inductive result (A : Type) := Ok (a : A) | Raise (e : exn).
Arguments Ok {A} a.
Arguments Raise {A} e.

Definition ref := positive.

Record world := World { frames : gmap ref DataFrame; stdout : list string }.

(** Computations that read and write the world and may raise. *)
Definition M (A : Type) : Type := world -> result A * world.

Definition ret {A} (a : A) : M A := fun w => (Ok a, w).

Definition bind {A B} (m : M A) (k : A -> M B) : M B :=
  fun w => match m w with
           | (Ok a, w') => k a w'
           | (Raise e, w') => (Raise e, w')
           end.

Definition raise {A} (e : exn) : M A := fun w => (Raise e, w).

(** [try: body  except ...: handler] *)
Definition try_except {A} (body : M A) (handler : exn -> M A) : M A :=
  fun w => match body w with
           | (Ok a, w') => (Ok a, w')
           | (Raise e, w') => handler e w'
           end.

Global Instance M_ret : MRet M := @ret.
Global Instance M_bind : MBind M := fun A B k m => bind m k.

(** A new object holding [df]; its reference is not in use. *)
Definition alloc (df : DataFrame) : M ref :=
  fun w => let r := fresh (dom (frames w)) in
           (Ok r, World (<[r := df]> (frames w)) (stdout w)).

Definition deref (r : ref) : M DataFrame :=
  fun w => match frames w !! r with
           | Some df => (Ok df, w)
           | None => (Raise (Exn DanglingReference ""), w)
           end.

(** Overwrite the object behind [r]: what an item assignment does. *)
Definition store (r : ref) (df : DataFrame) : M unit :=
  fun w => (Ok tt, World (<[r := df]> (frames w)) (stdout w)).

Definition print (line : string) : M unit :=
  fun w => (Ok tt, World (frames w) (stdout w ++ [line])).

(** [df.copy()] *)
Definition copy (r : ref) : M ref := df ← deref r; alloc df.

(** A method that returns a new frame, such as [df.replace(...)] or
    [df[mask]]: the receiver is left as it is. *)
Definition method (f : DataFrame -> DataFrame) (r : ref) : M ref :=
  df ← deref r; alloc (f df).

(** Statements that assign into the frame behind [r]. *)
Definition inplace (f : DataFrame -> DataFrame) (r : ref) : M unit :=
  df ← deref r; store r (f df).

(** ** [clean_data] *)

Definition clean_data (pd : pandas) (df : option ref)
  : M (option ref) :=
  match df with
  | None => ret None
  | Some df =>
      (* Create a copy to avoid modifying the original *)
      df_clean ← copy df;
      (* Replace -200 values (missing data indicator) with NaN *)
      df_clean ← method (df_replace sentinel) df_clean;
      inplace (parse_date pd) df_clean;;
      inplace (parse_time pd) df_clean;;
      inplace (derive_datetime pd) df_clean;;
      inplace alias_datetime df_clean;;
      inplace (coerce_numeric pd) df_clean;;
      ret (Some df_clean)
  end.

(** ** Order on timestamps *)

Definition lex (c d : comparison) : comparison :=
  match c with Eq => d | _ => c end.

Definition time_compare (a b : time) : comparison :=
  lex (t_hour a ?= t_hour b)%nat
   (lex (t_minute a ?= t_minute b)%nat
     (lex (t_second a ?= t_second b)%nat (t_micro a ?= t_micro b)%nat)).

Definition ts_compare (a b : timestamp) : comparison :=
  lex (year a ?= year b)%nat
   (lex (month a ?= month b)%nat
     (lex (day a ?= day b)%nat (time_compare (tod a) (tod b)))).

(** [a <= b] on timestamps. *)
Definition ts_leb (a b : timestamp) : bool :=
  match ts_compare a b with Gt => false | _ => true end.

(** ** Row selection *)

(** The items whose mask bit is set. *)
Fixpoint select {A} (mask : list bool) (l : list A) : list A :=
  match mask, l with
  | b :: mask', x :: l' => if b then x :: select mask' l' else select mask' l'
  | _, _ => []
  end.

(** [df[mask]]: a new frame with the rows where the mask holds. *)
Definition boolean_index (mask : list bool) (df : DataFrame) : DataFrame :=
  mkFrame (length (select mask (replicate (nrows df) tt)))
          (map (fun c => (c.1, mkSeries (dtype_of c.2) (select mask (cells c.2))))
               (columns df)).

(** One cell of the Date column against a timestamp: NaT compares false,
    what is no timestamp cannot be compared. *)
Definition compare_cell (test : timestamp -> bool) (v : value) : option bool :=
  match v with
  | VTimestamp ts => Some (test ts)
  | VNaT => Some false
  | _ => None
  end.

(** [s >= bound] or [s <= bound], by the test given. *)
Definition compare_series (test : timestamp -> bool) (s : Series) : result (list bool) :=
  match mapM (compare_cell test) (cells s) with
  | Some mask => Ok mask
  | None => Raise (Exn TypeError "invalid comparison with Timestamp")
  end.

(** [df.dropna(axis=1, how='all')]: drop the columns with no value at all. *)
Definition dropna_columns (df : DataFrame) : DataFrame :=
  mkFrame (nrows df)
          (filter (fun c => negb (forallb isna (cells c.2)) = true) (columns df)).

(** [df.select_dtypes(include=[np.number]).columns.tolist()] *)
Definition number_columns (df : DataFrame) : list string :=
  omap (fun c => match dtype_of c.2 with
                 | int64 | float64 => Some c.1
                 | _ => None
                 end) (columns df).

(** [df.isnull().sum()] for one column. *)
Definition null_count (s : Series) : nat := length (filter (fun v => isna v = true) (cells s)).

(** Truth value of an optional string argument: [None] and [''] are false. *)
Definition truthy (s : option string) : option string :=
  match s with
  | Some (String c s') => Some (String c s')
  | _ => None
  end.

Definition lift {A} (r : result A) : M A := fun w => (r, w).

(** [df[name]] on the frame behind a reference. *)
Definition getitem_ref (r : ref) (name : string) : M Series :=
  df ← deref r;
  match getitem df name with
  | Some s => ret s
  | None => raise (Exn KeyError name)
  end.

(** What [get_data_summary] puts in its dict. *)
Inductive summary_value :=
| SCount (n : nat)
| SDateRange (start finish : value)
| SPercent (per_column : list (string * value))
| SNames (names : list string).

Section Analysis.

Variable pd : pandas.

(** [pd.read_csv(path, sep=...)]: the frame read, or the exception raised. *)
Variable read_csv : string -> string -> result DataFrame.

(** [s.min()] and [s.max()] of a column. *)
Variable series_min series_max : Series -> result value.

(** [(count / total * 100).round(2)] in floating point. *)
Variable percentage : nat -> nat -> value.

(** [df.groupby(key)[cols].mean().reset_index()] *)
Variable groupby_mean : string -> list string -> DataFrame -> result DataFrame.

Definition load_data (file_path : string) : M (option ref) :=
  try_except
    ((* Load data with semicolon separator *)
     df ← (d ← lift (read_csv file_path ";"); alloc d);
     (* Remove empty columns (the dataset has trailing semicolons) *)
     df ← method dropna_columns df;
     ret (Some df))
    (fun e =>
       if is_FileNotFoundError e then
         print ("Error: Could not find file " +:+ file_path);; ret None
       else if is_Exception e then
         print ("Error loading data: " +:+ exn_msg e);; ret None
       else raise e).

Definition get_data_summary (df : option ref) : M (gmap string summary_value) :=
  match df with
  | None => ret ∅
  | Some df =>
      d ← deref df;
      date ← getitem_ref df "Date";
      start ← lift (series_min date);
      finish ← lift (series_max date);
      ret (<["total_records" := SCount (nrows d)]>
           (<["date_range" := SDateRange start finish]>
           (<["missing_data_percentage" :=
                SPercent (map (fun c => (c.1, percentage (null_count c.2) (nrows d)))
                              (columns d))]>
           (<["numeric_columns" := SNames (number_columns d)]> ∅))))
  end.

(** [pd.to_datetime(s)] on one string, errors raised. *)
Definition to_datetime_scalar (s : string) : M timestamp :=
  match scalar_datetime pd s with
  | Some ts => ret ts
  | None => raise (Exn ValueError ("Unknown datetime string format: " +:+ s))
  end.

(** [df_filtered = df_filtered[test(df_filtered['Date'], pd.to_datetime(bound))]] *)
Definition filter_rows (test : timestamp -> timestamp -> bool) (bound : string)
    (df_filtered : ref) : M ref :=
  date ← getitem_ref df_filtered "Date";
  b ← to_datetime_scalar bound;
  mask ← lift (compare_series (test b) date);
  method (boolean_index mask) df_filtered.

Definition filter_by_date_range (df : option ref) (start_date end_date : option string)
  : M (option ref) :=
  match df with
  | None => ret None
  | Some df =>
      df_filtered ← copy df;
      df_filtered ← match truthy start_date with
                    | Some s => filter_rows (fun b ts => ts_leb b ts) s df_filtered
                    | None => ret df_filtered
                    end;
      df_filtered ← match truthy end_date with
                    | Some s => filter_rows (fun b ts => ts_leb ts b) s df_filtered
                    | None => ret df_filtered
                    end;
      ret (Some df_filtered)
  end.

Definition get_daily_averages (df : option ref) : M (option ref) :=
  match df with
  | None => ret None
  | Some df =>
      d ← deref df;
      let numeric_cols := number_columns d in
      daily_avg ← (g ← lift (groupby_mean "Date" numeric_cols d); alloc g);
      ret (Some daily_avg)
  end.

End Analysis.

(** ** A reference library

    A small, concrete stand-in for the format inference: ISO dates
    [YYYY-MM-DD], optionally followed by [HH:MM:SS], and month-first
    [MM/DD/YYYY].  It is used to run the statements below on examples. *)

Definition parse_in (lo hi : Z) (s : string) : option nat :=
  n ← parse_digits s;
  if (lo <=? n) && (n <=? hi) then Some (Z.to_nat n) else None.

Definition reference_date (s : string) : option (nat * nat * nat) :=
  match split_on "-" s, split_on "/" s with
  | [y; m; d], _ =>
      y' ← parse_in 1 9999 y; m' ← parse_in 1 12 m; d' ← parse_in 1 31 d;
      Some (y', m', d')
  | _, [m; d; y] =>
      y' ← parse_in 1 9999 y; m' ← parse_in 1 12 m; d' ← parse_in 1 31 d;
      Some (y', m', d')
  | _, _ => None
  end.

Definition reference_infer (v : value) : option timestamp :=
  match v with
  | VStr s =>
      match split_on " " s with
      | [d] => '(y, m, dd) ← reference_date d; Some (Timestamp y m dd (Time 0 0 0 0))
      | [d; t] =>
          '(y, m, dd) ← reference_date d;
          '(h, mi, sec) ← hms_fields t;
          if (sec <? 60)%nat then Some (Timestamp y m dd (Time h mi sec 0))
          else None
      | _ => None
      end
  | _ => None
  end.

(** A library that infers with [reference_infer] value by value, rejects
    leap seconds and reads no number beyond the plain literals. *)
Definition reference_pd : pandas :=
  Pandas (fun _ => reference_infer)
         (fun s => reference_infer (VStr s))
         (fun _ _ _ => None)
         (fun _ => None).

(** ** Spec-side definitions, for comparison with the code *)

(** Time parsing as the specification words it: normalise the separators,
    then the first stage that succeeds wins. *)
Definition fallback_chain (pd : pandas) (column : list value) (s : string)
  : option timestamp :=
  let normalized := str_replace "." ":" s in
  match strptime_HMS pd normalized with
  | Some ts => Some ts
  | None =>
      match strptime_HM normalized with
      | Some ts => Some ts
      | None => infer_datetime pd column (VStr s)
      end
  end.

(** The time of day kept from a parse, or absent. *)
Definition time_cell (o : option timestamp) : value :=
  match o with Some ts => VTime (tod ts) | None => VNaT end.

(** The cell of a column at a row; [None] where the frame has no such
    column or row. *)
Definition cell_at (df : DataFrame) (name : string) (i : nat) : option value :=
  s ← getitem df name; cells s !! i.

(** A record has a value in a column. *)
Definition present_at (df : DataFrame) (name : string) (i : nat) : bool :=
  match cell_at df name i with Some v => notna v | None => false end.

(** The text of the combined timestamp of a record. *)
Definition combined_text (ts : timestamp) (t : time) : string :=
  (strftime_ymd ts +:+ " ") +:+ time_str t.

(** Datetime as the specification derives it from the parsed Date and Time
    of one record. *)
Definition derived_datetime (parse : value -> option timestamp)
    (date time : option value) : value :=
  match date, time with
  | Some (VTimestamp ts), Some (VTime t) =>
      datetime_cell (parse (VStr (combined_text ts t)))
  | _, _ => VNaT
  end.

(** A record is kept by the date-range filter: an absent bound does not
    constrain, a present one is inclusive and needs a date to compare. *)
Definition within (bound : option timestamp) (test : timestamp -> timestamp -> bool)
    (v : value) : bool :=
  match bound, v with
  | None, _ => true
  | Some b, VTimestamp ts => test b ts
  | Some _, _ => false
  end.

Definition in_range (lo hi : option timestamp) (v : value) : bool :=
  within lo (fun b ts => ts_leb b ts) v && within hi (fun b ts => ts_leb ts b) v.

(** The DateTime cell that the masked assignment leaves in a row, from the
    row's Date and Time cells as they stand after parsing. *)
Definition row_datetime (parse : value -> option timestamp)
    (date time : option value) : value :=
  match date, time with
  | Some d, Some t =>
      if notna d && notna t
      then datetime_cell
             (to_datetime_cell parse
                (str_add (str_add (dt_strftime d) (VStr " ")) (VStr (py_str t))))
      else VNaT
  | _, _ => VNaT
  end.

(** What the loop over [numeric_columns] does to one column. *)
Definition coerced (pd : pandas) (s : Series) : Series :=
  to_numeric pd (str_series (map (str_replace "," ".") (astype_str s))).

(** The frame on which the DateTime column is derived. *)
Definition parsed_frame (pd : pandas) (df : DataFrame)
  : DataFrame :=
  parse_time pd (parse_date pd (df_replace sentinel df)).

(** A named measurement column still holds the sentinel. *)
Definition holds_sentinel (df : DataFrame) (name : string) : bool :=
  match getitem df name with
  | Some s => existsb (eq_num sentinel) (cells s)
  | None => false
  end.

(** No measurement column holds the sentinel. *)
Definition sentinel_free (df : DataFrame) : bool :=
  forallb (fun name => negb (holds_sentinel df name)) numeric_columns.

(** A coerced cell against what its text reads as: the number read, or NaN
    when the text does not read as a number. *)
Definition number_read (v' : value) (o : option numeral) : Prop :=
  match o with
  | Some x => int_to_float v' = numeral_cell x
  | None => v' = VNaN
  end.

(** A raw export in miniature: decimal commas, and the sentinel written as
    text, as the semicolon-separated source has it. *)
Definition sentinel_frame : DataFrame :=
  mkFrame 3 [("CO(GT)", mkSeries object [VStr "2,6"; VStr "-200"; VStr "-200,0"])].

Definition times_frame : DataFrame :=
  mkFrame 4 [("Time", mkSeries object
                [VStr "18:00:00"; VStr "18.00.00"; VStr "18:00"; VStr "not-a-time"])].

Definition comma_frame : DataFrame :=
  mkFrame 2 [("CO(GT)", mkSeries object [VStr "9,4"; VStr "n/a"]);
             ("Station", mkSeries object [VStr "Roma, Centro"; VStr "9,4"])].

Definition dated_frame : DataFrame :=
  mkFrame 3
    [("Date", mkSeries object [VStr "3/10/2004"; VStr "3/11/2004"; VStr "bad"]);
     ("Time", mkSeries object [VStr "18.00.00"; VStr "not-a-time"; VStr "19:00"]);
     ("T", mkSeries object [VStr "13,6"; VStr "13,3"; VStr "11,9"])].

Definition six_pm : time := Time 18 0 0 0.

(** The texts that deriving the DateTime column hands to the combined
    parse, each with the index of its row. *)
Definition datetime_requests (df : DataFrame) : list (nat * value) :=
  match getitem df "Date", getitem df "Time" with
  | Some date, Some time =>
      combined_strings
        (zip_with andb (map notna (cells date)) (map notna (cells time))) date time
  | _, _ => []
  end.

(** The column of texts that is handed to the combined parse. *)
Definition combined_column (df : DataFrame) : list value :=
  (datetime_requests df).*2.

(** A bound argument as the filter reads it: no constraint for [None] and
    for the empty string, the timestamp parsed otherwise; [None] when the
    parse raises. *)
Definition parsed_bound (pd : pandas) (s : option string)
  : option (option timestamp) :=
  match truthy s with
  | None => Some None
  | Some x => Some <$> scalar_datetime pd x
  end.

(** The frame the date-range filter returns, from the Date column. *)
Definition date_filtered (lo hi : option timestamp) (date : Series) (df : DataFrame)
  : DataFrame :=
  match lo, hi with
  | None, None => df
  | _, _ => boolean_index (map (in_range lo hi) (cells date)) df
  end.

(** The cells of a datetime column. *)
Definition datetime_like (v : value) : bool :=
  match v with VNaT | VTimestamp _ => true | _ => false end.

Definition march (d : nat) : timestamp := Timestamp 2004 3 d (Time 0 0 0 0).

(** A cleaned frame in miniature. *)
Definition range_frame : DataFrame :=
  mkFrame 4
    [("Date", mkSeries datetime64
                [VTimestamp (march 10); VTimestamp (march 11); VNaT;
                 VTimestamp (march 12)]);
     ("T", mkSeries float64
             [VFloat (Float 136 1); VFloat (Float 133 1); VNaN;
              VFloat (Float 119 1)])].

(** A step created the object [r] holding [d] and did nothing else. *)
Definition allocates (w : world) (r : ref) (d : DataFrame) (w' : world) : Prop :=
  (r ∉ dom (frames w)) /\ frames w' = <[r := d]> (frames w) /\ stdout w' = stdout w.

(** ** Further definitions: frame invariants and the metrics *)

(** The column names after [df[name] = ...]: a new name goes last. *)
Definition append_name (name : string) (names : list string) : list string :=
  if decide (name ∈ names) then names else (names ++ [name])%list.

(** Every column has one cell per row of the index. *)
Definition well_formed (df : DataFrame) : bool :=
  forallb (fun c => (length (cells c.2) =? nrows df)%nat) (columns df).

(** A cell of a numeric column: a number or NaN. *)
Definition number_or_nan (v : value) : bool :=
  match v with VInt _ | VFloat _ | VInf _ | VNaN => true | _ => false end.

(** A cell of a parsed Time column. *)
Definition time_like (v : value) : bool :=
  match v with VNaT | VTime _ => true | _ => false end.

Definition numeric_dtype (d : dtype) : bool :=
  match d with int64 | float64 => true | _ => false end.

(** A time of day within range and without a fraction of a second. *)
Definition whole_second (t : time) : bool :=
  (t_hour t <? 24)%nat && (t_minute t <? 60)%nat && (t_second t <? 60)%nat &&
  (t_micro t =? 0)%nat.

(** The output schema: what a column of the cleaned frame holds, by name. *)
Definition column_schema (name : string) (s : Series) : bool :=
  if bool_decide (name ∈ ["Date"; "DateTime"; "Datetime"]) then
    bool_decide (dtype_of s = datetime64) && forallb datetime_like (cells s)
  else if bool_decide (name = "Time") then
    bool_decide (dtype_of s = object) && forallb time_like (cells s)
  else if bool_decide (name ∈ numeric_columns) then
    numeric_dtype (dtype_of s) && forallb number_or_nan (cells s)
  else true.

(** What [replace(-200, np.nan)] makes of a cell: NaN for the sentinel;
    otherwise the cell itself, an int possibly turned into the equal float. *)
Definition replaced_cell (v v' : value) : Prop :=
  if eq_num sentinel v then v' = VNaN
  else v' = v \/ exists n, v = VInt n /\ v' = VFloat (float_of_Z n).

(** A cell of the Time column that text round-trips: NaT, or a time of day
    in whole seconds. *)
Definition plain_time_cell (v : value) : bool :=
  match v with
  | VTime t => whole_second t
  | VNaT => true
  | _ => false
  end.

(** A string of ASCII digits. *)
Fixpoint all_digits (s : string) : bool :=
  match s with
  | EmptyString => true
  | String c s' => is_digit c && all_digits s'
  end.

Fixpoint zeros (n : nat) : string :=
  match n with O => EmptyString | S n' => String "0"%char (zeros n') end.

(** A float in normal form: no trailing zero in its fraction. *)
Definition normalized (f : float) : bool :=
  (scale f =? 0)%nat || negb (mant f mod 10 =? 0).

(** A number cell whose float, if any, is in normal form. *)
Definition normal_cell (v : value) : bool :=
  match v with
  | VFloat f => normalized f
  | VInt _ | VInf _ | VNaN => true
  | _ => false
  end.

(** The numerals that the numeric loop reads from the cells of a column:
    the text of each cell, commas turned into dots, under [to_numeric]. *)
Definition reread (pd : pandas) (l : list value) : list (option numeral) :=
  map (fun v => parse_number pd (str_replace "," "." (py_str v))) l.

(** A float on which the decimal model is exact: in normal form, of at most
    15 significant digits, and in the range that [repr] prints without an
    exponent (zero, or at least 1e-4 in magnitude). *)
Definition exact_float (f : float) : bool :=
  normalized f && (Z.abs (mant f) <? 10 ^ 15) && (scale f <=? 15)%nat &&
  ((mant f =? 0) || (10 ^ Z.of_nat (scale f) <=? Z.abs (mant f) * 10 ^ 4)).

(** A cell of a numeric column that prints as a plain literal and reads
    back as itself. *)
Definition exact_cell (v : value) : bool :=
  match v with
  | VFloat f => exact_float f
  | VInt n => Z.abs n <? 10 ^ 15
  | VInf _ | VNaN => true
  | _ => false
  end.

(** The measurement columns hold such cells only. *)
Definition exact_numbers (df : DataFrame) : bool :=
  forallb (fun name => match getitem df name with
                       | Some s => forallb exact_cell (cells s)
                       | None => true
                       end) numeric_columns.

(** The Time column, if any, holds only cells that text round-trips. *)
Definition plain_times (df : DataFrame) : bool :=
  match getitem df "Time" with
  | Some st => forallb plain_time_cell (cells st)
  | None => true
  end.

(** [df.empty]: no rows or no columns. *)
Definition df_empty (df : DataFrame) : bool :=
  (nrows df =? 0)%nat || bool_decide (columns df = []).

(** [s.dropna()] *)
Definition dropna (s : Series) : Series :=
  mkSeries (dtype_of s) (filter (fun v => notna v = true) (cells s)).

(** An entry of the metrics dict: the five statistics, or the marker
    ['No valid data available']. *)
Inductive metric :=
| Stats (mean median max min std : value)
| NoValidData.

Definition columns_to_check : list (string * string) :=
  [("CO(GT)", "co"); ("T", "temperature"); ("RH", "humidity");
   ("AH", "absolute_humidity")].

Definition result_bind {A B} (r : result A) (k : A -> result B) : result B :=
  match r with Ok a => k a | Raise e => Raise e end.

Section Metrics.

(** [data.mean()], [data.median()], [data.max()], [data.min()] and
    [data.std()] on a column without nulls: a value, or the exception raised
    (as on a column of strings). *)
Variable stat_mean stat_median stat_max stat_min stat_std : Series -> result value.

(** The dict of statistics of one column, evaluated in source order. *)
Definition describe (data : Series) : result metric :=
  result_bind (stat_mean data) (fun mean =>
  result_bind (stat_median data) (fun median =>
  result_bind (stat_max data) (fun max =>
  result_bind (stat_min data) (fun min =>
  result_bind (stat_std data) (fun std =>
  Ok (Stats mean median max min std)))))).

(** The body of [for col, name in columns_to_check.items()]. *)
Definition metric_step (df : DataFrame) (metrics : gmap string metric)
    (entry : string * string) : result (gmap string metric) :=
  match getitem df entry.1 with
  | Some s =>
      let data := dropna s in
      match cells data with
      | [] => Ok (<[entry.2 := NoValidData]> metrics)
      | _ => result_bind (describe data) (fun m => Ok (<[entry.2 := m]> metrics))
      end
  | None => Ok metrics
  end.

Fixpoint metric_loop (df : DataFrame) (entries : list (string * string))
    (metrics : gmap string metric) : result (gmap string metric) :=
  match entries with
  | [] => Ok metrics
  | entry :: rest =>
      result_bind (metric_step df metrics entry) (metric_loop df rest)
  end.

Definition calculate_air_quality_metrics (df : option ref)
  : M (gmap string metric) :=
  match df with
  | None => ret ∅
  | Some df =>
      d ← deref df;
      if df_empty d then ret ∅
      else lift (metric_loop d columns_to_check ∅)
  end.

End Metrics.

(** ** Notions used for the analysis functions *)

(** Every frame of [w] is in [w'] as it was: what ran from [w] to [w'] may
    have created objects, and has changed none. *)
Definition keeps_frames (w w' : world) : Prop :=
  forall q x, frames w !! q = Some x -> frames w' !! q = Some x.

(** A column with at least one value. *)
Definition has_value (s : Series) : bool := existsb notna (cells s).

(** What the metrics dict holds under the name of a checked column after
    the loop body ran for it, [before] being what it held: nothing new when
    the frame has no such column, the marker when the column has no value,
    the statistics of its values otherwise. *)
Definition expected_metric (describe : Series -> result metric) (d : DataFrame)
    (col : string) (before after : option metric) : Prop :=
  match getitem d col with
  | None => after = before
  | Some s =>
      if has_value s
      then exists m, describe (dropna s) = Ok m /\ after = Some m
      else after = Some NoValidData
  end.

(** A column on which the statistics are taken: not empty, no null. *)
Definition all_values (s : Series) : bool :=
  match cells s with
  | [] => false
  | _ => forallb notna (cells s)
  end.

(** How many cells of a Date column lie in a range. *)
Definition count_in_range (lo hi : option timestamp) (date : Series) : nat :=
  length (filter (fun v => in_range lo hi v = true) (cells date)).

(** A computation that changes no frame that exists and prints nothing,
    whether it returns or raises; it may create objects. *)
Definition read_only {A} (m : M A) : Prop :=
  forall w, keeps_frames w (m w).2 /\ stdout (m w).2 = stdout w.

(** A number, and a column of numbers: not empty, no null, no text. *)
Definition is_number (v : value) : bool :=
  match v with VInt _ | VFloat _ | VInf _ => true | _ => false end.

Definition numbers_only (s : Series) : bool :=
  match cells s with
  | [] => false
  | _ => forallb is_number (cells s)
  end.

(** ** Frames: reading back what was assigned *)

Lemma assoc_set_eq name s cols : assoc name (assoc_set name s cols) = Some s.
Proof.
  induction cols as [|[n x] rest IH]; simpl.
  - by rewrite decide_True.
  - destruct (decide (n = name)) as [->|Hne]; simpl.
    + by rewrite decide_True.
    + by rewrite decide_False.
Qed.

Lemma assoc_set_ne name name' s cols :
  name <> name' -> assoc name' (assoc_set name s cols) = assoc name' cols.
Proof.
  intros Hne. induction cols as [|[n x] rest IH]; simpl.
  - by rewrite decide_False.
  - destruct (decide (n = name)) as [->|Hn]; simpl.
    + by rewrite !decide_False.
    + destruct (decide (n = name')); [done|apply IH].
Qed.

Lemma assoc_set_names name s cols x :
  assoc name cols = Some x -> (assoc_set name s cols).*1 = cols.*1.
Proof.
  induction cols as [|[n y] rest IH]; simpl; [done|].
  destruct (decide (n = name)) as [->|Hn]; [done|].
  intros H. rewrite !fmap_cons. f_equal. by apply IH.
Qed.

Lemma assoc_map (f : Series -> Series) name cols :
  assoc name (map (fun c => (c.1, f c.2)) cols) = f <$> assoc name cols.
Proof.
  induction cols as [|[n x] rest IH]; simpl; [done|].
  destruct (decide (n = name)); [done|apply IH].
Qed.

Lemma getitem_setitem_eq name s df : getitem (setitem name s df) name = Some s.
Proof. apply assoc_set_eq. Qed.

Lemma getitem_setitem_ne name name' s df :
  name <> name' -> getitem (setitem name s df) name' = getitem df name'.
Proof. apply assoc_set_ne. Qed.

Lemma getitem_setitem name name' s df :
  getitem (setitem name s df) name' =
  if decide (name = name') then Some s else getitem df name'.
Proof.
  case_decide as H; [subst; apply getitem_setitem_eq|by apply getitem_setitem_ne].
Qed.

Lemma getitem_df_replace n df name :
  getitem (df_replace n df) name = series_replace n <$> getitem df name.
Proof. apply assoc_map. Qed.

Lemma getitem_boolean_index mask df name :
  getitem (boolean_index mask df) name =
  (fun s => mkSeries (dtype_of s) (select mask (cells s))) <$> getitem df name.
Proof. apply (assoc_map (fun s => mkSeries (dtype_of s) (select mask (cells s)))). Qed.

(** ** Masked reads and writes *)

Lemma index_lookup_zip_loc_get (h : value -> value -> value) mask : forall k dc tc i,
  index_lookup i (zip_with (fun d t => (d.1, h d.2 t.2))
                           (loc_get_from k mask dc) (loc_get_from k mask tc)) =
  if decide (k <= i)%nat then
    match mask !! (i - k)%nat, dc !! (i - k)%nat, tc !! (i - k)%nat with
    | Some true, Some d, Some t => Some (h d t)
    | _, _, _ => None
    end
  else None.
Proof.
  induction mask as [|b mask IH]; intros k dc tc i.
  - simpl. by case_decide.
  - destruct dc as [|d dc].
    { simpl. case_decide; [|done].
      destruct ((b :: mask) !! (i - k)%nat) as [[]|]; by rewrite ?lookup_nil. }
    destruct tc as [|t tc].
    { assert (forall l : list (nat * value),
                zip_with (fun d t : nat * value => (d.1, h d.2 t.2)) l [] = []) as Hnil
        by (by intros []).
      simpl. destruct b; rewrite Hnil; simpl; (case_decide; [|done]);
        rewrite ?lookup_nil; by repeat case_match. }
    simpl. destruct b; simpl.
    + destruct (decide (k = i)) as [->|Hne].
      * rewrite decide_True by lia. by rewrite Nat.sub_diag.
      * rewrite IH.
        destruct (decide (S k <= i)%nat), (decide (k <= i)%nat); try lia; try done.
        by replace (i - k)%nat with (S (i - S k)) by lia.
    + rewrite IH.
      destruct (decide (S k <= i)%nat), (decide (k <= i)%nat); try lia; try done.
      * by replace (i - k)%nat with (S (i - S k)) by lia.
      * by replace (i - k)%nat with 0%nat by lia.
Qed.

Lemma index_lookup_map (f : value -> value) l i :
  index_lookup i (map (fun p => (p.1, f p.2)) l) = f <$> index_lookup i l.
Proof.
  induction l as [|[j v] l IH]; simpl; [done|].
  destruct (decide (j = i)); [done|apply IH].
Qed.

Lemma existsb_id_false (mask : list bool) i :
  existsb id mask = false -> mask !! i = Some true -> False.
Proof.
  revert i. induction mask as [|b mask IH]; intros i; [done|].
  simpl. intros [Hb Hm]%orb_false_iff. destruct i; simpl.
  - intros [= ->]. done.
  - by apply IH.
Qed.

(** ** The stages, column by column *)

Section StageLemmas.

Variable pd : pandas.

Lemma getitem_parse_date df name :
  getitem (parse_date pd df) name =
  if decide ("Date" = name)
  then (fun s => datetime_series (to_datetime pd (cells s))) <$> getitem df "Date"
  else getitem df name.
Proof.
  unfold parse_date. destruct (getitem df "Date") as [s|] eqn:E.
  - rewrite getitem_setitem. by case_decide.
  - case_decide; by subst.
Qed.

Lemma getitem_parse_time df name :
  getitem (parse_time pd df) name =
  if decide ("Time" = name)
  then (fun s => dt_time (parse_time_strings pd (map strip (astype_str s))))
         <$> getitem df "Time"
  else getitem df name.
Proof.
  unfold parse_time. destruct (getitem df "Time") as [s|] eqn:E.
  - rewrite getitem_setitem. by case_decide.
  - case_decide; by subst.
Qed.

Lemma getitem_derive_datetime_other df name :
  "DateTime" <> name -> getitem (derive_datetime pd df) name = getitem df name.
Proof.
  intros Hne. unfold derive_datetime.
  repeat case_match; rewrite ?getitem_setitem_ne; done.
Qed.

Lemma getitem_alias_datetime df name s :
  getitem df "DateTime" = Some s ->
  getitem (alias_datetime df) name =
  if decide ("Datetime" = name) then Some s else getitem df name.
Proof.
  intros E. unfold alias_datetime. rewrite E. apply getitem_setitem.
Qed.

Lemma nrows_derive_datetime df : nrows (derive_datetime pd df) = nrows df.
Proof. unfold derive_datetime. by repeat case_match. Qed.

Lemma derive_datetime_column df :
  exists s, getitem (derive_datetime pd df) "DateTime" = Some s /\
            dtype_of s = datetime64 /\
            length (cells s) = nrows df /\
            forall i, (i < nrows df)%nat ->
              cells s !! i =
              Some (row_datetime (infer_datetime pd (combined_column df))
                                 (cell_at df "Date" i) (cell_at df "Time" i)).
Proof.
  unfold derive_datetime, cell_at, combined_column, datetime_requests.
  rewrite !getitem_setitem_ne by done. rewrite getitem_setitem_eq.
  destruct (getitem df "Date") as [date|] eqn:Ed; simpl;
    [destruct (getitem df "Time") as [time|] eqn:Et; simpl|].
  - set (mask := zip_with andb (map notna (cells date)) (map notna (cells time))).
    assert (Hmask : forall i, mask !! i =
              d ← cells date !! i; t ← cells time !! i; Some (notna d && notna t)).
    { intros i. unfold mask. rewrite lookup_zip_with, !list_lookup_fmap.
      destruct (cells date !! i); simpl; [|done]. by destruct (cells time !! i). }
    destruct (existsb id mask) eqn:Eany.
    + eexists. rewrite getitem_setitem_eq. split; [done|]. split; [done|]. split.
      { simpl. unfold loc_set. by rewrite length_imap, length_replicate. }
      intros i Hi. simpl. unfold loc_set.
      rewrite list_lookup_imap, lookup_replicate_2 by done. simpl. f_equal.
      rewrite (index_lookup_map
                 (fun v => datetime_cell (to_datetime_cell (infer_datetime pd _) v))).
      unfold combined_strings, loc_get.
      rewrite (index_lookup_zip_loc_get
                 (fun d t => str_add (str_add (dt_strftime d) (VStr " ")) (VStr (py_str t)))).
      rewrite decide_True by lia. rewrite Nat.sub_0_r, Hmask.
      destruct (cells date !! i) as [d|]; simpl; [|done].
      destruct (cells time !! i) as [t|]; simpl; [|done].
      by destruct (notna d && notna t).
    + eexists. rewrite getitem_setitem_eq. split; [done|]. split; [done|]. split.
      { simpl. by rewrite length_replicate. }
      intros i Hi. simpl. rewrite lookup_replicate_2 by done. f_equal.
      destruct (cells date !! i) as [d|] eqn:Edi; simpl; [|done].
      destruct (cells time !! i) as [t|] eqn:Eti; simpl; [|done].
      destruct (notna d && notna t) eqn:Eb; [|done].
      exfalso. apply (existsb_id_false mask i Eany).
      rewrite Hmask, Edi. simpl. rewrite Eti. simpl. by rewrite Eb.
  - eexists. rewrite getitem_setitem_eq. split; [done|]. split; [done|]. split.
    { simpl. by rewrite length_replicate. }
    intros i Hi. simpl. rewrite lookup_replicate_2 by done. f_equal.
    by destruct (cells date !! i).
  - eexists. rewrite getitem_setitem_eq. split; [done|]. split; [done|]. split.
    { simpl. by rewrite length_replicate. }
    intros i Hi. simpl. by rewrite lookup_replicate_2.
Qed.

End StageLemmas.

(** *** The numeric loop *)

Lemma coerce_column_other pd df col name :
  col <> name -> getitem (coerce_column pd df col) name = getitem df name.
Proof.
  intros Hne. unfold coerce_column.
  destruct (getitem df col) as [s|]; [|done].
  rewrite getitem_setitem_eq. by rewrite !getitem_setitem_ne.
Qed.

Lemma coerce_column_same pd df col :
  getitem (coerce_column pd df col) col = coerced pd <$> getitem df col.
Proof.
  unfold coerce_column. destruct (getitem df col) as [s|] eqn:E; simpl.
  - by rewrite !getitem_setitem_eq.
  - by rewrite E.
Qed.

Lemma fold_coerce_other pd l : forall df name,
  name ∉ l -> getitem (fold_left (coerce_column pd) l df) name = getitem df name.
Proof.
  induction l as [|c l IH]; intros df name Hnot; [done|].
  simpl. rewrite IH by set_solver. apply coerce_column_other. set_solver.
Qed.

Lemma fold_coerce_in pd l : forall df name,
  NoDup l -> name ∈ l ->
  getitem (fold_left (coerce_column pd) l df) name = coerced pd <$> getitem df name.
Proof.
  induction l as [|c l IH]; intros df name Hnd Hin; [by apply elem_of_nil in Hin|].
  apply NoDup_cons in Hnd as [Hc Hnd]. simpl.
  destruct (decide (c = name)) as [->|Hne].
  - rewrite fold_coerce_other by done. apply coerce_column_same.
  - apply elem_of_cons in Hin as [->|Hin]; [done|].
    rewrite IH by done. by rewrite coerce_column_other.
Qed.

Lemma numeric_columns_NoDup : NoDup numeric_columns.
Proof. apply (bool_decide_eq_true_1 (NoDup numeric_columns)). by vm_compute. Qed.

Lemma coerce_column_names pd df col :
  (columns (coerce_column pd df col)).*1 = (columns df).*1 /\
  nrows (coerce_column pd df col) = nrows df.
Proof.
  unfold coerce_column. destruct (getitem df col) as [s|] eqn:E; [|done].
  rewrite getitem_setitem_eq. simpl. split; [|done].
  erewrite assoc_set_names by apply assoc_set_eq.
  by erewrite assoc_set_names.
Qed.

Lemma coerce_numeric_names pd df :
  (columns (coerce_numeric pd df)).*1 = (columns df).*1 /\
  nrows (coerce_numeric pd df) = nrows df.
Proof.
  unfold coerce_numeric. generalize numeric_columns. intros l. revert df.
  induction l as [|c l IH]; intros df; [done|].
  simpl. destruct (IH (coerce_column pd df c)) as [-> ->]. apply coerce_column_names.
Qed.


(** *** The whole pipeline, column by column *)

Ltac not_numeric := apply (bool_decide_eq_true_1 (_ ∉ numeric_columns)); by vm_compute.

Section CleanFrameLemmas.

Variable pd : pandas.

Lemma nrows_parsed_frame df : nrows (parsed_frame pd df) = nrows df.
Proof.
  unfold parsed_frame, parse_time, parse_date. by repeat case_match.
Qed.

Lemma nrows_clean_frame df : nrows (clean_frame pd df) = nrows df.
Proof.
  unfold clean_frame. rewrite (proj2 (coerce_numeric_names _ _)).
  etrans; [|apply nrows_parsed_frame]. etrans; [|apply nrows_derive_datetime].
  unfold alias_datetime. by case_match.
Qed.

Lemma getitem_clean_frame_keep df name :
  name ∉ numeric_columns -> "DateTime" <> name -> "Datetime" <> name ->
  getitem (clean_frame pd df) name = getitem (parsed_frame pd df) name.
Proof.
  intros Hnum Hdt Hal. unfold clean_frame, coerce_numeric.
  rewrite fold_coerce_other by done.
  destruct (derive_datetime_column pd (parsed_frame pd df)) as (s & Hs & _).
  unfold parsed_frame in Hs. rewrite (getitem_alias_datetime _ _ _ Hs).
  rewrite decide_False by done. by rewrite getitem_derive_datetime_other.
Qed.

Lemma getitem_clean_frame_Date df :
  getitem (clean_frame pd df) "Date" =
  (fun s => datetime_series (to_datetime pd (cells (series_replace sentinel s))))
    <$> getitem df "Date".
Proof.
  rewrite getitem_clean_frame_keep; [|not_numeric|done..].
  unfold parsed_frame. rewrite getitem_parse_time, decide_False by done.
  rewrite getitem_parse_date, decide_True by done.
  rewrite getitem_df_replace. by destruct (getitem df "Date").
Qed.

Lemma getitem_clean_frame_Time df :
  getitem (clean_frame pd df) "Time" =
  (fun s => dt_time (parse_time_strings pd
                       (map strip (astype_str (series_replace sentinel s)))))
    <$> getitem df "Time".
Proof.
  rewrite getitem_clean_frame_keep; [|not_numeric|done..].
  unfold parsed_frame. rewrite getitem_parse_time, decide_True by done.
  rewrite getitem_parse_date, decide_False by done.
  rewrite getitem_df_replace. by destruct (getitem df "Time").
Qed.

Lemma getitem_clean_frame_DateTime df :
  getitem (clean_frame pd df) "DateTime" =
  getitem (derive_datetime pd (parsed_frame pd df)) "DateTime".
Proof.
  unfold clean_frame, coerce_numeric.
  rewrite fold_coerce_other by not_numeric.
  destruct (derive_datetime_column pd (parsed_frame pd df)) as (s & Hs & _).
  unfold parsed_frame in *. rewrite (getitem_alias_datetime _ _ _ Hs).
  by rewrite decide_False.
Qed.

Lemma getitem_clean_frame_alias df :
  getitem (clean_frame pd df) "Datetime" =
  getitem (derive_datetime pd (parsed_frame pd df)) "DateTime".
Proof.
  unfold clean_frame, coerce_numeric.
  rewrite fold_coerce_other by not_numeric.
  destruct (derive_datetime_column pd (parsed_frame pd df)) as (s & Hs & _).
  unfold parsed_frame in *. rewrite (getitem_alias_datetime _ _ _ Hs).
  by rewrite decide_True.
Qed.

(** Each parsed time is the fallback chain on the text of its own cell. *)
Lemma parse_time_strings_chain l :
  parse_time_strings pd l = map (fallback_chain pd (map VStr l)) l.
Proof.
  unfold parse_time_strings, combine_first, to_datetime, fallback_chain.
  generalize (infer_datetime pd (map VStr l)). intros parse.
  induction l as [|s l IH]; [done|].
  simpl in *. rewrite IH. f_equal.
  by repeat case_match.
Qed.

End CleanFrameLemmas.

(** ** Running the stateful functions *)

Lemma fresh_frame (w : world) : frames w !! fresh (dom (frames w)) = None.
Proof. apply not_elem_of_dom, is_fresh. Qed.

Lemma fresh_insert_notin (m : gmap ref DataFrame) k v :
  fresh (dom (<[k := v]> m)) ∉ dom m.
Proof.
  intros Hin. apply (is_fresh (dom (<[k := v]> m))).
  apply elem_of_dom, lookup_insert_is_Some'. right. by apply elem_of_dom.
Qed.

Lemma copy_run r w df :
  frames w !! r = Some df ->
  copy r w = (Ok (fresh (dom (frames w))),
              World (<[fresh (dom (frames w)) := df]> (frames w)) (stdout w)).
Proof.
  intros H. unfold copy, mbind, M_bind, bind, deref, alloc. by rewrite H.
Qed.

Lemma method_run f r w df :
  frames w !! r = Some df ->
  method f r w = (Ok (fresh (dom (frames w))),
                  World (<[fresh (dom (frames w)) := f df]> (frames w)) (stdout w)).
Proof.
  intros H. unfold method, mbind, M_bind, bind, deref, alloc. by rewrite H.
Qed.

Lemma inplace_run f r w df :
  frames w !! r = Some df ->
  inplace f r w = (Ok tt, World (<[r := f df]> (frames w)) (stdout w)).
Proof.
  intros H. unfold inplace, mbind, M_bind, bind, deref, store. by rewrite H.
Qed.

Lemma bind_run {A B} (m : M A) (k : A -> M B) w a w' :
  m w = (Ok a, w') -> (m ≫= k) w = k a w'.
Proof. intros H. unfold mbind, M_bind, bind. by rewrite H. Qed.

Lemma bind_raise {A B} (m : M A) (k : A -> M B) w e w' :
  m w = (Raise e, w') -> (m ≫= k) w = (Raise e, w').
Proof. intros H. unfold mbind, M_bind, bind. by rewrite H. Qed.

(** [clean_data] on a frame: two objects are created, the copy and the
    frame that [replace] returns; the latter is assigned into and returned. *)
Lemma clean_data_run pd w r df :
  frames w !! r = Some df ->
  let r1 := fresh (dom (frames w)) in
  let fs := <[r1 := df]> (frames w) in
  let r2 := fresh (dom fs) in
  clean_data pd (Some r) w =
  (Ok (Some r2), World (<[r2 := clean_frame pd df]> fs) (stdout w)).
Proof.
  intros H r1 fs r2. unfold clean_data.
  erewrite bind_run by (apply copy_run; exact H).
  erewrite bind_run by (apply method_run; cbn [frames]; apply lookup_insert_eq).
  cbn [frames stdout]. fold r1 fs r2.
  do 5 (erewrite bind_run by (apply inplace_run; cbn [frames]; apply lookup_insert_eq);
        cbn [frames stdout]; rewrite insert_insert_eq).
  unfold ret, clean_frame. reflexivity.
Qed.

(** ** The claims *)

(** C10. Every analysis function tolerates the no-data value of a failed
    load: [clean_data(None)], [filter_by_date_range(None, ...)] and
    [get_daily_averages(None)] return [None], and [get_data_summary(None)]
    returns the empty dict; nothing is raised and nothing else changes. *)
Theorem no_data_is_tolerated pd series_min series_max percentage groupby_mean
    start_date end_date w :
  clean_data pd None w = (Ok None, w) /\
  filter_by_date_range pd None start_date end_date w = (Ok None, w) /\
  get_daily_averages groupby_mean None w = (Ok None, w) /\
  get_data_summary series_min series_max percentage None w = (Ok ∅, w).
Proof. repeat split. Qed.

(** C7. [clean_data] never mutates its argument: the frame behind the
    argument, and every other frame that existed before the call, is
    unchanged afterwards, and the result is a new object (its reference was
    not in use before the call) holding the cleaned frame. *)
Theorem clean_data_leaves_input_alone pd w r df
    (Harg : frames w !! r = Some df) :
  exists r' w',
    clean_data pd (Some r) w = (Ok (Some r'), w') /\
    (r' ∉ dom (frames w)) /\
    r' <> r /\
    frames w' !! r' = Some (clean_frame pd df) /\
    frames w' !! r = Some df /\
    (forall q, q ∈ dom (frames w) -> frames w' !! q = frames w !! q) /\
    stdout w' = stdout w.
Proof.
  pose proof (clean_data_run pd w r df Harg) as Hrun. cbv zeta in Hrun.
  set (r1 := fresh (dom (frames w))) in *.
  set (fs := <[r1 := df]> (frames w)) in *.
  set (r2 := fresh (dom fs)) in *.
  assert (Hr1 : r1 ∉ dom (frames w)) by apply is_fresh.
  assert (Hr2 : r2 ∉ dom fs) by apply is_fresh.
  assert (Hr2' : (r2 ∉ dom (frames w)) /\ r2 <> r1).
  { unfold fs in Hr2. rewrite dom_insert_L in Hr2. set_solver. }
  destruct Hr2' as [Hr2w Hr21].
  assert (Hkeep : forall q, q ∈ dom (frames w) ->
            (<[r2 := clean_frame pd df]> fs) !! q = frames w !! q).
  { intros q Hq. rewrite lookup_insert_ne by (intros ->; done).
    unfold fs. rewrite lookup_insert_ne by (intros ->; done). done. }
  assert (Hr : r ∈ dom (frames w)) by (apply elem_of_dom; eauto).
  exists r2, (World (<[r2 := clean_frame pd df]> fs) (stdout w)).
  split; [exact Hrun|]. split; [done|]. split; [by intros ->|].
  split; [apply lookup_insert_eq|]. split; [|done].
  cbn [frames]. by rewrite Hkeep.
Qed.

Lemma clean_data_leaves_input_alone_witness :
  exists r' w',
    clean_data reference_pd (Some 1%positive)
      (World {[1%positive := dated_frame]} []) = (Ok (Some r'), w') /\
    (r' ∉ dom (frames (World {[1%positive := dated_frame]} []))) /\
    r' <> 1%positive /\
    frames w' !! r' = Some (clean_frame reference_pd dated_frame) /\
    frames w' !! 1%positive = Some dated_frame /\
    (forall q, q ∈ dom (frames (World {[1%positive := dated_frame]} [])) ->
       frames w' !! q = frames (World {[1%positive := dated_frame]} []) !! q) /\
    stdout w' = stdout (World {[1%positive := dated_frame]} []).
Proof.
  apply (clean_data_leaves_input_alone reference_pd
           (World {[1%positive := dated_frame]} []) 1%positive dated_frame).
  reflexivity.
Defined.

(** C1. The claim: after [clean_data], no cell of the thirteen measurement
    columns equals the sentinel -200.  The code replaces the sentinel before
    it reads the decimal-comma text as numbers, so a sentinel written as text
    (["-200"], ["-200,0"]) is read as the number -200.0 afterwards and stays
    in the cleaned frame: on the frame whose CO(GT) column holds ["2,6"],
    ["-200"] and ["-200,0"], the cleaned column is 2.6, -200.0, -200.0. *)
Theorem sentinel_survives_cleaning pd :
  exists r' w',
    clean_data pd (Some 1%positive) (World {[1%positive := sentinel_frame]} [])
      = (Ok (Some r'), w') /\
    frames w' !! r' = Some (clean_frame pd sentinel_frame) /\
    getitem (clean_frame pd sentinel_frame) "CO(GT)" =
      Some (mkSeries float64
              [VFloat (Float 26 1); VFloat (Float (-200) 0); VFloat (Float (-200) 0)]) /\
    eq_num sentinel (VFloat (Float (-200) 0)) = true /\
    sentinel_free (clean_frame pd sentinel_frame) = false.
Proof.
  eexists _, _. split; [by apply clean_data_run|].
  split; [apply lookup_insert_eq|]. by vm_compute.
Qed.

(** C5. The claim: running the pipeline on its own output changes no cell.
    The sentinel that survives the first run as the number -200.0 (see
    [sentinel_survives_cleaning]) is a number on the second run and is
    replaced by NaN then: the second run changes the cell. *)
Theorem second_run_changes_cells pd :
  getitem (clean_frame pd sentinel_frame) "CO(GT)" =
    Some (mkSeries float64
            [VFloat (Float 26 1); VFloat (Float (-200) 0); VFloat (Float (-200) 0)]) /\
  getitem (clean_frame pd (clean_frame pd sentinel_frame)) "CO(GT)" =
    Some (mkSeries float64 [VFloat (Float 26 1); VNaN; VNaN]) /\
  clean_frame pd (clean_frame pd sentinel_frame) <>
    clean_frame pd sentinel_frame.
Proof.
  split; [by vm_compute|]. split; [by vm_compute|].
  intros Heq. apply (f_equal (fun df => cell_at df "CO(GT)" 1)) in Heq.
  vm_compute in Heq. discriminate Heq.
Qed.

Lemma derive_datetime_missing pd df :
  has_column df "Date" && has_column df "Time" = false ->
  getitem (derive_datetime pd df) "DateTime" =
  Some (scalar_series datetime64 VNaT (nrows df)).
Proof.
  unfold has_column, derive_datetime. intros Hmiss.
  rewrite !getitem_setitem_ne by done. rewrite getitem_setitem_eq.
  destruct (getitem df "Date") as [d|]; [destruct (getitem df "Time") as [t|]|].
  - rewrite !bool_decide_eq_true_2 in Hmiss by eauto. done.
  - apply getitem_setitem_eq.
  - apply getitem_setitem_eq.
Qed.

Lemma has_column_parsed_frame pd df name :
  has_column (parsed_frame pd df) name = has_column df name.
Proof.
  unfold has_column, parsed_frame. apply bool_decide_ext.
  rewrite getitem_parse_time. case_decide as Ht.
  - subst name. rewrite getitem_parse_date, decide_False by done.
    by rewrite getitem_df_replace, !fmap_is_Some.
  - rewrite getitem_parse_date. case_decide as Hd.
    + subst name. by rewrite getitem_df_replace, !fmap_is_Some.
    + by rewrite getitem_df_replace, fmap_is_Some.
Qed.

(** C6. After [clean_data] both columns "DateTime" and "Datetime" exist and
    hold the same values in every row, one value per row of the input; when
    the input lacks the Date or the Time column, every value of both is
    absent. *)
Theorem datetime_alias_agrees pd df :
  exists s,
    getitem (clean_frame pd df) "DateTime" = Some s /\
    getitem (clean_frame pd df) "Datetime" = Some s /\
    length (cells s) = nrows df /\
    (if has_column df "Date" && has_column df "Time" then True
     else cells s = replicate (nrows df) VNaT).
Proof.
  destruct (derive_datetime_column pd (parsed_frame pd df))
    as (s & Hs & _ & Hlen & _).
  exists s. rewrite getitem_clean_frame_DateTime, getitem_clean_frame_alias.
  split; [done|]. split; [done|].
  rewrite nrows_parsed_frame in Hlen. split; [done|].
  destruct (has_column df "Date" && has_column df "Time") eqn:Hc; [done|].
  rewrite derive_datetime_missing in Hs
    by (by rewrite !has_column_parsed_frame).
  injection Hs as <-. simpl. by rewrite nrows_parsed_frame.
Qed.

(** C2. Time parsing follows the ordered fallback chain, value by value:
    with every '.' replaced by ':', the strict HH:MM:SS parse is tried
    first, then the strict HH:MM parse, then the format-inferring parse of
    the text before that replacement, and otherwise the value is absent.
    The first two stages depend on the value alone; the third is the call
    of [pd.to_datetime] on the whole column of texts, read at the row.  The
    cleaned Time column holds, row by row, the time of day of that chain on
    the (stripped) text of the row's cell, so only times of day and absent
    values.  A value that one of the strict parses accepts is resolved
    whatever the rest of the column holds; "18:00:00", "18.00.00" and
    "18:00" give 18:00:00 in any column and "not-a-time", which the
    inference rejects, gives absent. *)
Theorem time_parsing_fallback_chain pd df s
    (Hrej : forall column, infer_datetime pd column (VStr "not-a-time") = None)
    (Htime : getitem df "Time" = Some s) :
  (exists st,
     getitem (clean_frame pd df) "Time" = Some st /\
     cells st =
       map (fun x => time_cell
                       (fallback_chain pd
                          (map VStr (map strip (astype_str (series_replace sentinel s))))
                          x))
           (map strip (astype_str (series_replace sentinel s))) /\
     Forall (fun v => v = VNaT \/ exists t, v = VTime t) (cells st)) /\
  (forall column column' x,
     is_Some (strptime_HMS pd (str_replace "." ":" x)) \/
     is_Some (strptime_HM (str_replace "." ":" x)) ->
     fallback_chain pd column x = fallback_chain pd column' x) /\
  (forall column,
     fallback_chain pd column "18:00:00" = Some (strptime_date six_pm) /\
     fallback_chain pd column "18.00.00" = Some (strptime_date six_pm) /\
     fallback_chain pd column "18:00" = Some (strptime_date six_pm) /\
     fallback_chain pd column "not-a-time" = None) /\
  getitem (clean_frame pd times_frame) "Time" =
    Some (mkSeries object [VTime six_pm; VTime six_pm; VTime six_pm; VNaT]).
Proof.
  split; [|split; [|split]].
  - rewrite getitem_clean_frame_Time, Htime. simpl.
    eexists. split; [done|]. simpl.
    rewrite parse_time_strings_chain.
    rewrite !map_map. split; [done|].
    apply List.Forall_map, Forall_true. intros c.
    unfold time_cell. destruct (fallback_chain pd _ _); eauto.
  - intros column column' x Hstrict. unfold fallback_chain.
    destruct (strptime_HMS pd _); [done|].
    destruct (strptime_HM _); [done|].
    by destruct Hstrict as [[? ?]|[? ?]].
  - intros column. repeat split; try reflexivity.
    unfold fallback_chain. cbn. apply Hrej.
  - rewrite getitem_clean_frame_Time. cbn [times_frame getitem columns assoc].
    rewrite decide_True by done. cbn [fmap option_fmap option_map]. f_equal.
    rewrite parse_time_strings_chain. vm_compute. by rewrite Hrej.
Qed.

Lemma time_parsing_fallback_chain_witness :
  exists st,
    getitem (clean_frame reference_pd dated_frame) "Time" = Some st /\
    cells st = [VTime six_pm; VNaT; VTime (Time 19 0 0 0)].
Proof.
  destruct (time_parsing_fallback_chain reference_pd dated_frame
              (mkSeries object [VStr "18.00.00"; VStr "not-a-time"; VStr "19:00"]))
    as [(st & Hst & Hcells & _) _]; [reflexivity..|].
  exists st. split; [exact Hst|]. rewrite Hcells. reflexivity.
Defined.

(** *** Shape of the parsed Date and Time columns *)

Lemma parsed_Date_shape pd df i v :
  cell_at (parsed_frame pd df) "Date" i = Some v ->
  v = VNaT \/ exists ts, v = VTimestamp ts.
Proof.
  unfold cell_at, parsed_frame.
  rewrite getitem_parse_time, decide_False by done.
  rewrite getitem_parse_date, decide_True by done.
  destruct (getitem (df_replace sentinel df) "Date") as [s|]; [|done].
  simpl. unfold to_datetime. rewrite !list_lookup_fmap.
  destruct (cells s !! i) as [c|]; [|done]. simpl. intros [= <-].
  destruct (to_datetime_cell _ c); eauto.
Qed.

Lemma parsed_Time_shape pd df i v :
  cell_at (parsed_frame pd df) "Time" i = Some v ->
  v = VNaT \/ exists t, v = VTime t.
Proof.
  unfold cell_at, parsed_frame.
  rewrite getitem_parse_time, decide_True by done.
  destruct (getitem (parse_date pd (df_replace sentinel df)) "Time") as [s|];
    [|done].
  simpl. rewrite !list_lookup_fmap.
  destruct (parse_time_strings pd _ !! i) as [[ts|]|]; [| |done];
    simpl; intros [= <-]; eauto.
Qed.

Lemma row_datetime_derived (pd : value -> option timestamp) d t :
  (forall v, d = Some v -> v = VNaT \/ exists ts, v = VTimestamp ts) ->
  (forall v, t = Some v -> v = VNaT \/ exists tm, v = VTime tm) ->
  row_datetime pd d t = derived_datetime pd d t.
Proof.
  intros Hd Ht. destruct d as [d|]; [|done].
  destruct (Hd d eq_refl) as [->|[ts ->]]; [by destruct t|].
  destruct t as [t|]; [|done].
  by destruct (Ht t eq_refl) as [->|[tm ->]].
Qed.

Lemma cell_at_clean_frame_keep pd df name i :
  name ∉ numeric_columns -> "DateTime" <> name -> "Datetime" <> name ->
  cell_at (clean_frame pd df) name i = cell_at (parsed_frame pd df) name i.
Proof.
  intros. unfold cell_at. by rewrite getitem_clean_frame_keep.
Qed.

Lemma index_lookup_requests df i :
  index_lookup i (datetime_requests df) =
  match cell_at df "Date" i, cell_at df "Time" i with
  | Some d, Some t =>
      if notna d && notna t
      then Some (str_add (str_add (dt_strftime d) (VStr " ")) (VStr (py_str t)))
      else None
  | _, _ => None
  end.
Proof.
  unfold datetime_requests, cell_at.
  destruct (getitem df "Date") as [date|]; simpl; [|done].
  destruct (getitem df "Time") as [time|]; simpl;
    [|by destruct (cells date !! i)].
  unfold combined_strings, loc_get.
  rewrite (index_lookup_zip_loc_get
             (fun d t => str_add (str_add (dt_strftime d) (VStr " ")) (VStr (py_str t)))).
  rewrite decide_True by lia. rewrite Nat.sub_0_r.
  rewrite lookup_zip_with, !list_lookup_fmap.
  destruct (cells date !! i) as [d|]; simpl; [|done].
  destruct (cells time !! i) as [t|]; simpl; [|done].
  by destruct (notna d && notna t).
Qed.

(** Goals of a record whose Date or Time is absent: the hypotheses that
    name a value for it are contradictory. *)
Ltac absent_case :=
  repeat split; try done; intros;
  repeat match goal with
         | H : _ /\ _ |- _ => destruct H
         | H : ex _ |- _ => destruct H
         end;
  congruence.

Lemma cell_at_clean_frame_DateTime pd df i :
  (i < nrows df)%nat ->
  cell_at (clean_frame pd df) "DateTime" i =
  Some (row_datetime (infer_datetime pd (combined_column (parsed_frame pd df)))
                     (cell_at (parsed_frame pd df) "Date" i)
                     (cell_at (parsed_frame pd df) "Time" i)).
Proof.
  intros Hi.
  destruct (derive_datetime_column pd (parsed_frame pd df))
    as (s & Hs & _ & _ & Hrow).
  unfold cell_at at 1. rewrite getitem_clean_frame_DateTime, Hs.
  etrans; [|apply Hrow; by rewrite nrows_parsed_frame]. reflexivity.
Qed.

(** *** What the coercion leaves in each cell *)

Lemma int_cells_read (f : value -> option numeral) l :
  forallb is_int_numeral (map f l) = true ->
  Forall2 (fun v v' => number_read v' (f v)) l (map (fun v => int_cell (f v)) l).
Proof.
  induction l as [|v l IH]; simpl; [constructor|].
  intros [Hv Hl]%andb_true_iff. constructor; [|by apply IH].
  destruct (f v) as [[n|x|b]|]; done.
Qed.

Lemma float_cells_read (f : value -> option numeral) l :
  Forall2 (fun v v' => number_read v' (f v)) l (map (fun v => float_cell (f v)) l).
Proof.
  induction l as [|v l IH]; simpl; constructor; [|done].
  by destruct (f v) as [[n|x|b]|].
Qed.

Lemma coerced_cells pd s :
  Forall2 (fun v v' => number_read v' (parse_number pd (str_replace "," "." (py_str v))))
          (cells s) (cells (coerced pd s)).
Proof.
  unfold coerced, to_numeric, str_series, astype_str. cbn [cells].
  rewrite !map_map. cbn [numeral_of].
  destruct (forallb _ _) eqn:E; cbn [cells].
  - by apply (int_cells_read
                 (fun v => parse_number pd (str_replace "," "." (py_str v)))).
  - apply (float_cells_read
             (fun v => parse_number pd (str_replace "," "." (py_str v)))).
Qed.

Lemma parse_number_plain pd s x :
  plain_number s = Some x -> parse_number pd s = Some x.
Proof. intros H. unfold parse_number. by rewrite H. Qed.

Lemma getitem_clean_frame_numeric pd df name :
  name ∈ numeric_columns ->
  getitem (clean_frame pd df) name =
  coerced pd <$> (series_replace sentinel <$> getitem df name).
Proof.
  intros Hin.
  assert (Hne : forall other, other ∉ numeric_columns -> other <> name)
    by (by intros other Hnot ->).
  unfold clean_frame, coerce_numeric.
  rewrite fold_coerce_in by (done || apply numeric_columns_NoDup). f_equal.
  destruct (derive_datetime_column pd (parsed_frame pd df)) as (s & Hs & _).
  unfold parsed_frame in Hs. rewrite (getitem_alias_datetime _ _ _ Hs).
  rewrite decide_False by (apply Hne; not_numeric).
  rewrite getitem_derive_datetime_other by (apply Hne; not_numeric).
  rewrite getitem_parse_time, decide_False by (apply Hne; not_numeric).
  rewrite getitem_parse_date, decide_False by (apply Hne; not_numeric).
  apply getitem_df_replace.
Qed.

(** C4. Numeric coercion applies exactly to the thirteen named columns: a
    named column becomes, cell by cell, the number that [pd.to_numeric]
    reads from the cell's text with commas replaced by dots, or NaN where
    that text is no number (so a cell depends on no other cell); every other
    column, the column order and the number of rows are left as they were.
    A plain decimal literal reads as the number it spells, whatever pandas
    does beyond: "9,4" in CO(GT) becomes 9.4, "n/a", which pandas does not
    read, becomes NaN, and a column outside the set keeps its commas. *)
Theorem numeric_coercion pd df name
    (Hna : read_number pd "n/a" = None) :
  length numeric_columns = 13%nat /\
  getitem (coerce_numeric pd df) name =
    (if bool_decide (name ∈ numeric_columns)
     then coerced pd <$> getitem df name
     else getitem df name) /\
  (if bool_decide (name ∈ numeric_columns)
   then getitem (clean_frame pd df) name =
        coerced pd <$> (series_replace sentinel <$> getitem df name)
   else True) /\
  (columns (coerce_numeric pd df)).*1 = (columns df).*1 /\
  nrows (coerce_numeric pd df) = nrows df /\
  (forall s,
     Forall2 (fun v v' =>
                number_read v' (parse_number pd (str_replace "," "." (py_str v))))
             (cells s) (cells (coerced pd s))) /\
  (forall s x, plain_number s = Some x -> parse_number pd s = Some x) /\
  parse_number pd (str_replace "," "." "9,4") = Some (NumFloat (Float 94 1)) /\
  parse_number pd (str_replace "," "." "-200,0") = Some (NumFloat (Float (-200) 0)) /\
  parse_number pd (str_replace "," "." "48") = Some (NumInt 48) /\
  getitem (coerce_numeric pd comma_frame) "CO(GT)" =
    Some (mkSeries float64 [VFloat (Float 94 1); VNaN]) /\
  getitem (coerce_numeric pd comma_frame) "Station" =
    Some (mkSeries object [VStr "Roma, Centro"; VStr "9,4"]).
Proof.
  split; [done|]. split; [|split].
  - unfold coerce_numeric. case_bool_decide.
    + by apply fold_coerce_in; [apply numeric_columns_NoDup|].
    + by apply fold_coerce_other.
  - case_bool_decide; [|done]. by apply getitem_clean_frame_numeric.
  - split; [apply coerce_numeric_names|]. split; [apply coerce_numeric_names|].
    split; [apply coerced_cells|]. split; [apply parse_number_plain|].
    do 3 (split; [reflexivity|]).
    split; [|by vm_compute].
    unfold coerce_numeric. rewrite fold_coerce_in;
      [|apply numeric_columns_NoDup
       |apply (bool_decide_eq_true_1 (_ ∈ _)); by vm_compute].
    revert Hna. vm_compute. by intros ->.
Qed.

Lemma numeric_coercion_witness :
  getitem (coerce_numeric reference_pd comma_frame) "CO(GT)" =
    Some (mkSeries float64 [VFloat (Float 94 1); VNaN]) /\
  getitem (coerce_numeric reference_pd comma_frame) "Station" =
    Some (mkSeries object [VStr "Roma, Centro"; VStr "9,4"]).
Proof.
  destruct (numeric_coercion reference_pd comma_frame "CO(GT)" eq_refl)
    as (_ & _ & _ & _ & _ & _ & _ & _ & _ & _ & Hco & Hst).
  split; [exact Hco|exact Hst].
Defined.

(** *** [load_data] *)

Lemma load_data_ok read_csv path w d :
  read_csv path ";" = Ok d ->
  let r1 := fresh (dom (frames w)) in
  let fs := <[r1 := d]> (frames w) in
  let r2 := fresh (dom fs) in
  load_data read_csv path w =
  (Ok (Some r2), World (<[r2 := dropna_columns d]> fs) (stdout w)).
Proof.
  intros E r1 fs r2. unfold load_data, try_except.
  erewrite bind_run; [|erewrite bind_run; [|unfold lift; by rewrite E]; reflexivity].
  erewrite bind_run by (apply method_run; cbn [frames]; apply lookup_insert_eq).
  reflexivity.
Qed.

Lemma load_data_error read_csv path w e :
  read_csv path ";" = Raise e ->
  is_Exception e = true ->
  load_data read_csv path w =
  (Ok None,
   World (frames w)
         (stdout w ++
          [if is_FileNotFoundError e
           then "Error: Could not find file " +:+ path
           else "Error loading data: " +:+ exn_msg e])%list).
Proof.
  intros E He. unfold load_data, try_except.
  erewrite bind_raise; [|erewrite bind_raise; [|unfold lift; by rewrite E]; reflexivity].
  rewrite He. by destruct (is_FileNotFoundError e).
Qed.

(** What is no [Exception] is not caught. *)
Lemma load_data_reraises read_csv path w e :
  read_csv path ";" = Raise e ->
  is_FileNotFoundError e = false ->
  is_Exception e = false ->
  load_data read_csv path w = (Raise e, w).
Proof.
  intros E Hf He. unfold load_data, try_except.
  erewrite bind_raise; [|erewrite bind_raise; [|unfold lift; by rewrite E]; reflexivity].
  by rewrite Hf, He.
Qed.

(** C8, as the spec words it, fails: the no-table indicator is not kept for
    a failure of the file as a whole.  [except Exception] catches whatever
    [pd.read_csv] raises, so one malformed record, on which [read_csv]
    raises a [ParserError], makes [load_data] print a line and return [None]
    as the missing file does: a per-record problem is surfaced to the
    caller. *)
Lemma load_data_surfaces_record_problem :
  ~ (forall read_csv path w w' e,
       load_data read_csv path w = (Ok None, w') ->
       read_csv path ";" = Raise e ->
       record_level e = false).
Proof.
  intros H.
  specialize (H (fun _ _ => Raise malformed_record) "data/AirQualityUCI.csv"
                (World ∅ [])
                (World ∅ ["Error loading data: " +:+ exn_msg malformed_record])
                malformed_record).
  discriminate H; [|reflexivity].
  by rewrite (load_data_error _ _ _ malformed_record).
Qed.

(** C8, amended. Whatever [Exception] reading the file raises, the missing
    file, a malformed record or any other, never leaves [load_data] as an
    exception: the function returns [None] as a value, having printed one
    line (the file-not-found line for [FileNotFoundError], the message of
    the exception otherwise) and changed no frame, also when the error is
    about one record.  When the file is read, a new frame is returned,
    whatever its cells are, and nothing is printed. *)
Theorem load_data_never_raises read_csv path w
    (Herr : forall e, read_csv path ";" = Raise e -> is_Exception e = true) :
  exists res w',
    load_data read_csv path w = (Ok res, w') /\
    match read_csv path ";" with
    | Raise e =>
        res = None /\ frames w' = frames w /\
        stdout w' =
          (stdout w ++
           [if is_FileNotFoundError e
            then "Error: Could not find file " +:+ path
            else "Error loading data: " +:+ exn_msg e])%list
    | Ok d =>
        exists r, res = Some r /\ (r ∉ dom (frames w)) /\
                  frames w' !! r = Some (dropna_columns d) /\
                  stdout w' = stdout w
    end.
Proof.
  destruct (read_csv path ";") as [d|e] eqn:E.
  - eexists _, _. split; [by apply load_data_ok|].
    eexists. split; [done|]. split; [|split; [apply lookup_insert_eq|done]].
    apply fresh_insert_notin.
  - eexists _, _. split; [apply load_data_error; eauto|]. done.
Qed.

Lemma load_data_never_raises_witness :
  (exists w',
     load_data (fun _ _ => Raise (Exn FileNotFoundError "No such file or directory"))
               "data/AirQualityUCI.csv" (World ∅ []) = (Ok None, w') /\
     stdout w' = ["Error: Could not find file data/AirQualityUCI.csv"]) /\
  (exists w',
     load_data (fun _ _ => Raise malformed_record)
               "data/AirQualityUCI.csv" (World ∅ []) = (Ok None, w') /\
     stdout w' =
       ["Error loading data: Error tokenizing data. C error: Expected 15 fields in line 3, saw 17"]).
Proof.
  split.
  - destruct (load_data_never_raises
                (fun _ _ => Raise (Exn FileNotFoundError "No such file or directory"))
                "data/AirQualityUCI.csv" (World ∅ []))
      as (res & w' & Hrun & -> & _ & Hout).
    + intros e [= <-]. reflexivity.
    + exists w'. split; [exact Hrun|exact Hout].
  - destruct (load_data_never_raises
                (fun _ _ => Raise malformed_record)
                "data/AirQualityUCI.csv" (World ∅ []))
      as (res & w' & Hrun & -> & _ & Hout).
    + intros e [= <-]. reflexivity.
    + exists w'. split; [exact Hrun|exact Hout].
Defined.

(** *** Row selection and the date-range filter *)

Lemma select_nil_r {A} (mask : list bool) : select mask (@nil A) = [].
Proof. by destruct mask. Qed.

Lemma select_select {A} (p q : value -> bool) l : forall xs : list A,
  select (map q (select (map p l) l)) (select (map p l) xs) =
  select (map (fun v => p v && q v) l) xs.
Proof.
  induction l as [|v l IH]; intros xs; [done|].
  destruct xs as [|x xs].
  { simpl. destruct (p v); simpl; by rewrite ?select_nil_r. }
  simpl. destruct (p v); simpl; [|apply IH].
  destruct (q v); by rewrite IH.
Qed.

Lemma replicate_unit (l : list unit) : replicate (length l) tt = l.
Proof. induction l as [|[] l IH]; simpl; by rewrite ?IH. Qed.

Lemma boolean_index_twice (p q : value -> bool) l df :
  boolean_index (map q (select (map p l) l)) (boolean_index (map p l) df) =
  boolean_index (map (fun v => p v && q v) l) df.
Proof.
  unfold boolean_index. cbn [nrows columns]. f_equal.
  - by rewrite replicate_unit, select_select.
  - rewrite map_map. apply map_ext. intros [n c]. cbn [fst snd dtype_of cells].
    by rewrite select_select.
Qed.

Lemma Forall_select {A} (P : A -> Prop) mask : forall l,
  Forall P l -> Forall P (select mask l).
Proof.
  induction mask as [|b mask IH]; intros l Hl; [constructor|].
  destruct Hl as [|x l Hx Hl]; [constructor|].
  simpl. destruct b; [constructor|]; auto.
Qed.

Lemma forallb_Forall_true {A} (f : A -> bool) l :
  forallb f l = true -> Forall (fun x => f x = true) l.
Proof.
  induction l as [|x l IH]; simpl; [constructor|].
  intros [Hx Hl]%andb_true_iff. constructor; auto.
Qed.

Lemma mapM_compare_cell (test : timestamp -> timestamp -> bool) b l :
  Forall (fun v => datetime_like v = true) l ->
  mapM (compare_cell (test b)) l = Some (map (within (Some b) test) l).
Proof.
  intros Hl. apply mapM_Some. induction Hl as [|v l Hv Hl IH]; [constructor|].
  simpl. constructor; [|done].
  by destruct v.
Qed.

Lemma allocates_new w r d w' : allocates w r d w' -> frames w' !! r = Some d.
Proof. intros (_ & -> & _). apply lookup_insert_eq. Qed.

Lemma allocates_old w r d w' q x :
  allocates w r d w' -> frames w !! q = Some x -> frames w' !! q = Some x.
Proof.
  intros (Hr & -> & _) Hq. rewrite lookup_insert_ne; [done|].
  intros ->. apply Hr, elem_of_dom. eauto.
Qed.


Lemma copy_allocates r w df :
  frames w !! r = Some df ->
  exists r' w', copy r w = (Ok r', w') /\ allocates w r' df w'.
Proof.
  intros H. eexists _, _. split; [by apply copy_run|].
  split; [apply is_fresh|done].
Qed.

Lemma filter_rows_allocates pd test bound r w df date b :
  frames w !! r = Some df ->
  getitem df "Date" = Some date ->
  Forall (fun v => datetime_like v = true) (cells date) ->
  scalar_datetime pd bound = Some b ->
  exists r' w',
    filter_rows pd test bound r w = (Ok r', w') /\
    allocates w r' (boolean_index (map (within (Some b) test) (cells date)) df) w'.
Proof.
  intros Hr Hdate Hcells Hb. eexists _, _. split.
  - unfold filter_rows.
    erewrite bind_run.
    2:{ unfold getitem_ref. erewrite bind_run by (unfold deref; by rewrite Hr).
        by rewrite Hdate. }
    erewrite bind_run by (unfold to_datetime_scalar; by rewrite Hb).
    erewrite bind_run.
    2:{ unfold lift, compare_series. by rewrite mapM_compare_cell. }
    by apply method_run.
  - split; [apply is_fresh|done].
Qed.



Lemma parsed_bound_cases pd s b :
  parsed_bound pd s = Some b ->
  (truthy s = None /\ b = None) \/
  (exists x ts, truthy s = Some x /\ scalar_datetime pd x = Some ts /\ b = Some ts).
Proof.
  unfold parsed_bound. destruct (truthy s) as [x|]; [|intros [= <-]; by left].
  destruct (scalar_datetime pd x) as [ts|] eqn:E; [|done].
  intros [= <-]. right. eauto.
Qed.



Example date_range_filter_keeps_bounds :
  date_filtered (Some (march 10)) (Some (march 11))
    (mkSeries datetime64
       [VTimestamp (march 10); VTimestamp (march 11); VNaT; VTimestamp (march 12)])
    range_frame =
  mkFrame 2
    [("Date", mkSeries datetime64 [VTimestamp (march 10); VTimestamp (march 11)]);
     ("T", mkSeries float64 [VFloat (Float 136 1); VFloat (Float 133 1)])].
Proof. reflexivity. Qed.

(** ** Further properties of the code *)

(** *** Shape of the cleaned frame *)

Lemma assoc_None_names name cols : assoc name cols = None <-> name ∉ cols.*1.
Proof.
  induction cols as [|[n x] rest IH]; simpl.
  - split; [intros _; apply not_elem_of_nil|done].
  - rewrite not_elem_of_cons. destruct (decide (n = name)) as [->|Hne].
    + split; [done|]. by intros [? _].
    + rewrite IH. split; [by split|by intros [_ ?]].
Qed.

Lemma names_assoc_set name s cols :
  (assoc_set name s cols).*1 = append_name name cols.*1.
Proof.
  unfold append_name. case_decide as Hin.
  - destruct (assoc name cols) as [x|] eqn:E.
    + by eapply assoc_set_names.
    + by apply assoc_None_names in E.
  - induction cols as [|[n x] rest IH]; [done|].
    apply not_elem_of_cons in Hin as [Hne Hin]. simpl.
    rewrite decide_False by done. rewrite !fmap_cons. simpl. by rewrite IH.
Qed.

Lemma names_setitem name s df :
  (columns (setitem name s df)).*1 = append_name name (columns df).*1.
Proof. apply names_assoc_set. Qed.

Lemma append_name_elem name names : name ∈ append_name name names.
Proof.
  unfold append_name. case_decide; [done|]. apply elem_of_app. right.
  apply list_elem_of_singleton. done.
Qed.

Lemma append_name_idem name names :
  append_name name (append_name name names) = append_name name names.
Proof.
  unfold append_name at 1. rewrite decide_True; [done|apply append_name_elem].
Qed.

Lemma names_df_replace n df : (columns (df_replace n df)).*1 = (columns df).*1.
Proof.
  unfold df_replace. cbn [columns]. induction (columns df) as [|[c x] l IH]; [done|].
  cbn in *. by f_equal.
Qed.

Lemma names_replace_existing name s df x :
  getitem df name = Some x -> (columns (setitem name s df)).*1 = (columns df).*1.
Proof. intros H. by eapply assoc_set_names. Qed.

Lemma names_parsed_frame pd df :
  (columns (parsed_frame pd df)).*1 = (columns df).*1.
Proof.
  unfold parsed_frame, parse_time, parse_date.
  destruct (getitem (df_replace sentinel df) "Date") as [d|] eqn:Ed.
  - destruct (getitem (setitem "Date" _ _) "Time") as [t|] eqn:Et.
    + erewrite names_replace_existing by exact Et.
      erewrite names_replace_existing by exact Ed. apply names_df_replace.
    + erewrite names_replace_existing by exact Ed. apply names_df_replace.
  - destruct (getitem (df_replace sentinel df) "Time") as [t|] eqn:Et.
    + erewrite names_replace_existing by exact Et. apply names_df_replace.
    + apply names_df_replace.
Qed.

Lemma names_derive_datetime pd df :
  (columns (derive_datetime pd df)).*1 = append_name "DateTime" (columns df).*1.
Proof.
  unfold derive_datetime. repeat case_match;
    rewrite ?names_setitem, ?append_name_idem; done.
Qed.

Lemma names_alias_datetime df s :
  getitem df "DateTime" = Some s ->
  (columns (alias_datetime df)).*1 = append_name "Datetime" (columns df).*1.
Proof. intros H. unfold alias_datetime. rewrite H. apply names_setitem. Qed.

(** X1. [clean_data] keeps the rows and the columns of its input in their
    order and adds the columns DateTime and Datetime, each at the end unless
    the input already has a column of that name. *)
Theorem clean_frame_shape pd df :
  nrows (clean_frame pd df) = nrows df /\
  (columns (clean_frame pd df)).*1 =
    append_name "Datetime" (append_name "DateTime" (columns df).*1).
Proof.
  split; [apply nrows_clean_frame|].
  unfold clean_frame. rewrite (proj1 (coerce_numeric_names _ _)).
  destruct (derive_datetime_column pd (parsed_frame pd df)) as (s & Hs & _).
  unfold parsed_frame in Hs. erewrite names_alias_datetime by exact Hs.
  rewrite names_derive_datetime. f_equal. f_equal. apply names_parsed_frame.
Qed.

(** *** Well-formed frames stay well-formed *)

Lemma well_formed_Forall df :
  well_formed df = true <->
  Forall (fun c => length (cells c.2) = nrows df) (columns df).
Proof.
  unfold well_formed. induction (columns df) as [|c l IH]; simpl.
  - split; [constructor|done].
  - rewrite andb_true_iff, Nat.eqb_eq, IH. split.
    + intros [? ?]. by constructor.
    + by inversion 1.
Qed.

Lemma well_formed_getitem df name s :
  well_formed df = true -> getitem df name = Some s ->
  length (cells s) = nrows df.
Proof.
  rewrite well_formed_Forall. unfold getitem.
  induction 1 as [|[n x] l Hx Hl IH]; simpl; [done|].
  destruct (decide (n = name)); [by intros [= <-]|done].
Qed.

Lemma well_formed_setitem name s df :
  well_formed df = true -> length (cells s) = nrows df ->
  well_formed (setitem name s df) = true.
Proof.
  rewrite !well_formed_Forall. unfold setitem. cbn [nrows columns].
  intros Hwf Hs. induction Hwf as [|[n x] l Hx Hl IH]; simpl.
  - by repeat constructor.
  - destruct (decide (n = name)); constructor; done.
Qed.

Lemma length_series_replace n s :
  length (cells (series_replace n s)) = length (cells s).
Proof.
  unfold series_replace. repeat case_match; cbn [cells]; by rewrite ?length_map.
Qed.

Lemma well_formed_df_replace n df :
  well_formed df = true -> well_formed (df_replace n df) = true.
Proof.
  rewrite !well_formed_Forall. unfold df_replace. cbn [nrows columns].
  induction 1 as [|[c x] l Hx Hl IH]; simpl; constructor; [|done].
  cbn. by rewrite length_series_replace.
Qed.

Lemma length_to_numeric pd s : length (cells (to_numeric pd s)) = length (cells s).
Proof.
  unfold to_numeric. case_match; cbn [cells]; by rewrite !length_map.
Qed.

Lemma well_formed_coerce_column pd df col :
  well_formed df = true -> well_formed (coerce_column pd df col) = true.
Proof.
  intros Hwf. unfold coerce_column.
  destruct (getitem df col) as [s|] eqn:E; [|done].
  rewrite getitem_setitem_eq.
  pose proof (well_formed_getitem _ _ _ Hwf E) as Hlen.
  apply well_formed_setitem; [apply well_formed_setitem; [done|]|].
  - unfold str_series, astype_str. cbn [cells]. by rewrite !length_map.
  - rewrite length_to_numeric. unfold str_series, astype_str. cbn [cells nrows].
    by rewrite !length_map.
Qed.

Lemma well_formed_coerce_numeric pd df :
  well_formed df = true -> well_formed (coerce_numeric pd df) = true.
Proof.
  unfold coerce_numeric. generalize numeric_columns. intros l. revert df.
  induction l as [|c l IH]; intros df Hwf; [done|].
  simpl. by apply IH, well_formed_coerce_column.
Qed.

Lemma well_formed_parsed_frame pd df :
  well_formed df = true -> well_formed (parsed_frame pd df) = true.
Proof.
  intros Hwf%(well_formed_df_replace sentinel). unfold parsed_frame.
  assert (Hd : well_formed (parse_date pd (df_replace sentinel df)) = true).
  { unfold parse_date.
    destruct (getitem (df_replace sentinel df) "Date") as [s|] eqn:E; [|done].
    apply well_formed_setitem; [done|]. unfold datetime_series, to_datetime.
    cbn [cells]. rewrite !length_map. by eapply well_formed_getitem. }
  unfold parse_time.
  destruct (getitem (parse_date pd _) "Time") as [s|] eqn:E; [|done].
  apply well_formed_setitem; [done|]. unfold dt_time. cbn [cells].
  rewrite parse_time_strings_chain. unfold astype_str. rewrite !length_map.
  by eapply well_formed_getitem.
Qed.

Lemma well_formed_derive_datetime pd df :
  well_formed df = true -> well_formed (derive_datetime pd df) = true.
Proof.
  intros Hwf. unfold derive_datetime.
  set (df0 := setitem "DateTime" (scalar_series datetime64 VNaT (nrows df)) df).
  assert (H0 : well_formed df0 = true)
    by (apply well_formed_setitem; [done|apply length_replicate]).
  destruct (getitem df0 "Date") as [date|]; [|done].
  destruct (getitem df0 "Time") as [time|]; [|done].
  destruct (getitem df0 "DateTime") as [dt|] eqn:E; [|done].
  destruct (existsb id _); [|done].
  apply well_formed_setitem; [done|]. cbn [cells]. unfold loc_set.
  rewrite length_imap. by eapply well_formed_getitem.
Qed.

(** X2. A frame in which every column has one cell per row is cleaned into
    a frame of the same kind: no stage of [clean_data] changes the length of
    a column, and the columns it adds have one cell per row. *)
Theorem clean_frame_well_formed pd df (Hwf : well_formed df = true) :
  well_formed (clean_frame pd df) = true.
Proof.
  unfold clean_frame. apply well_formed_coerce_numeric.
  pose proof (well_formed_parsed_frame pd df Hwf) as Hp.
  apply (well_formed_derive_datetime pd) in Hp.
  unfold parsed_frame in Hp. unfold alias_datetime.
  destruct (getitem _ "DateTime") as [s|] eqn:Hs; [|done].
  apply well_formed_setitem; [done|]. by eapply well_formed_getitem.
Qed.

Lemma clean_frame_well_formed_witness :
  well_formed dated_frame = true /\
  well_formed (clean_frame reference_pd dated_frame) = true.
Proof.
  split; [reflexivity|]. apply clean_frame_well_formed. reflexivity.
Defined.

(** *** The output schema *)

Lemma forallb_map_true {A B} (f : A -> B) (p : B -> bool) l :
  (forall x, p (f x) = true) -> forallb p (map f l) = true.
Proof. intros H. induction l as [|x l IH]; simpl; [done|]. by rewrite H, IH. Qed.

Lemma forallb_lookup_true {A} (p : A -> bool) (l : list A) :
  (forall i x, l !! i = Some x -> p x = true) -> forallb p l = true.
Proof.
  induction l as [|y l IH]; intros H; simpl; [done|].
  rewrite (H 0%nat y eq_refl). apply IH. intros i x Hi. by apply (H (S i)).
Qed.

Lemma datetime_like_row pd d t : datetime_like (row_datetime pd d t) = true.
Proof.
  unfold row_datetime. repeat case_match; try done.
  unfold datetime_cell. by case_match.
Qed.

Lemma to_numeric_schema pd s :
  numeric_dtype (dtype_of (to_numeric pd s)) = true /\
  forallb number_or_nan (cells (to_numeric pd s)) = true.
Proof.
  unfold to_numeric. case_match; cbn [dtype_of cells]; (split; [done|]);
    apply forallb_map_true; intros [[n|f|b]|]; done.
Qed.

Lemma derived_column_schema pd df s :
  getitem (derive_datetime pd df) "DateTime" = Some s ->
  dtype_of s = datetime64 /\ forallb datetime_like (cells s) = true.
Proof.
  destruct (derive_datetime_column pd df) as (s' & Hs' & Hdt & Hlen & Hrow).
  rewrite Hs'. intros [= <-]. split; [done|].
  apply forallb_lookup_true. intros i x Hi.
  assert (Hlt : (i < nrows df)%nat)
    by (rewrite <- Hlen; by eapply lookup_lt_Some).
  rewrite Hrow in Hi by done. injection Hi as <-. apply datetime_like_row.
Qed.

(** X3. The output schema of [clean_data]: a Date, DateTime or Datetime
    column of the cleaned frame is a datetime column whose cells are
    timestamps or NaT; the Time column holds times of day or NaT; each of
    the thirteen measurement columns has a numeric dtype and holds numbers
    or NaN, never text. *)
Theorem cleaned_column_schema pd df name s
    (Hcol : getitem (clean_frame pd df) name = Some s) :
  column_schema name s = true.
Proof.
  unfold column_schema. case_bool_decide as Hdt.
  - apply andb_true_iff.
    apply elem_of_cons in Hdt as [->|Hdt];
      [|apply elem_of_cons in Hdt as [->|Hdt];
        [|apply list_elem_of_singleton in Hdt as ->]].
    + rewrite getitem_clean_frame_Date in Hcol.
      destruct (getitem df "Date") as [d|]; [|done]. injection Hcol as <-.
      split; [done|]. cbn [cells datetime_series].
      apply forallb_map_true. by intros [ts|].
    + rewrite getitem_clean_frame_DateTime in Hcol.
      apply derived_column_schema in Hcol as [-> ?]. by rewrite bool_decide_eq_true_2.
    + rewrite getitem_clean_frame_alias in Hcol.
      apply derived_column_schema in Hcol as [-> ?]. by rewrite bool_decide_eq_true_2.
  - case_bool_decide as Ht.
    + subst name. rewrite getitem_clean_frame_Time in Hcol.
      destruct (getitem df "Time") as [t|]; [|done]. injection Hcol as <-.
      cbn [cells dtype_of dt_time]. rewrite bool_decide_eq_true_2 by done.
      apply forallb_map_true. by intros [ts|].
    + case_bool_decide as Hn; [|done].
      rewrite getitem_clean_frame_numeric in Hcol by done.
      destruct (getitem df name) as [c|]; [|done]. injection Hcol as <-.
      apply andb_true_iff, to_numeric_schema.
Qed.

Lemma cleaned_column_schema_witness :
  getitem (clean_frame reference_pd dated_frame) "T" =
    Some (mkSeries float64 [VFloat (Float 136 1); VFloat (Float 133 1);
                            VFloat (Float 119 1)]) /\
  column_schema "T"
    (mkSeries float64 [VFloat (Float 136 1); VFloat (Float 133 1);
                       VFloat (Float 119 1)]) = true.
Proof.
  assert (H : getitem (clean_frame reference_pd dated_frame) "T" =
              Some (mkSeries float64 [VFloat (Float 136 1); VFloat (Float 133 1);
                                      VFloat (Float 119 1)]))
    by reflexivity.
  split; [exact H|].
  exact (cleaned_column_schema reference_pd dated_frame "T" _ H).
Defined.

(** *** The sentinel stage on numbers *)

Lemma eq_num_float_of_Z n m : eq_num n (VFloat (float_of_Z m)) = (m =? n).
Proof.
  unfold eq_num, float_eq_Z, float_of_Z. cbn [mant scale normalize].
  destruct (Z.eqb_spec m n) as [->|Hne].
  - by apply bool_decide_eq_true_2.
  - apply bool_decide_eq_false_2. by intros [= ?].
Qed.

Lemma replace_cells_keep l :
  Forall2 replaced_cell l (map (fun v => if eq_num sentinel v then VNaN else v) l) /\
  forallb (fun v => negb (eq_num sentinel v))
    (map (fun v => if eq_num sentinel v then VNaN else v) l) = true.
Proof.
  split.
  - induction l as [|v l IH]; simpl; constructor; [|done].
    unfold replaced_cell. destruct (eq_num sentinel v); auto.
  - induction l as [|v l IH]; simpl; [done|]. rewrite IH, andb_true_r.
    by destruct (eq_num sentinel v) eqn:E; [|rewrite E].
Qed.

Lemma replace_cells_promote l :
  Forall2 replaced_cell l
    (map (fun v => if eq_num sentinel v then VNaN else int_to_float v) l) /\
  forallb (fun v => negb (eq_num sentinel v))
    (map (fun v => if eq_num sentinel v then VNaN else int_to_float v) l) = true.
Proof.
  split.
  - induction l as [|v l IH]; simpl; constructor; [|done].
    unfold replaced_cell. destruct (eq_num sentinel v); [done|].
    destruct v; simpl; eauto.
  - induction l as [|v l IH]; simpl; [done|]. rewrite IH, andb_true_r.
    destruct (eq_num sentinel v) eqn:E; [done|].
    destruct v; cbn [int_to_float]; try (by rewrite E).
    rewrite eq_num_float_of_Z. cbn [eq_num] in E. by rewrite E.
Qed.

Lemma replace_cells_untouched l :
  existsb (eq_num sentinel) l = false ->
  Forall2 replaced_cell l l /\
  forallb (fun v => negb (eq_num sentinel v)) l = true.
Proof.
  induction l as [|v l IH]; simpl; [by split; [constructor|]|].
  intros [Ev El]%orb_false_iff. destruct (IH El) as [H1 H2]. split.
  - constructor; [|done]. unfold replaced_cell. rewrite Ev. auto.
  - by rewrite Ev, H2.
Qed.

(** X4. The sentinel stage, cell by cell: in every column that is not a
    datetime column, a number equal to -200 (the int or the float) becomes
    NaN and every other cell keeps its value, text included (an int may
    become the equal float when its column turns float); afterwards no cell
    of such a column equals -200 as a number. *)
Theorem sentinel_replaced_in_numbers df name s
    (Hcol : getitem df name = Some s)
    (Hdtype : dtype_of s <> datetime64) :
  getitem (df_replace sentinel df) name = Some (series_replace sentinel s) /\
  Forall2 replaced_cell (cells s) (cells (series_replace sentinel s)) /\
  forallb (fun v => negb (eq_num sentinel v)) (cells (series_replace sentinel s)) = true.
Proof.
  split; [by rewrite getitem_df_replace, Hcol|].
  unfold series_replace. destruct (dtype_of s) eqn:Ed; try done.
  - destruct (existsb (eq_num sentinel) (cells s)) eqn:Ehit.
    + apply replace_cells_promote.
    + by apply replace_cells_untouched.
  - apply replace_cells_keep.
  - apply replace_cells_keep.
Qed.

Lemma sentinel_replaced_in_numbers_witness :
  getitem (df_replace sentinel
             (mkFrame 3 [("RH", mkSeries int64 [VInt 48; VInt (-200); VInt 51])]))
          "RH" =
    Some (mkSeries float64 [VFloat (Float 48 0); VNaN; VFloat (Float 51 0)]).
Proof.
  exact (proj1 (sentinel_replaced_in_numbers
                  (mkFrame 3 [("RH", mkSeries int64 [VInt 48; VInt (-200); VInt 51])])
                  "RH" (mkSeries int64 [VInt 48; VInt (-200); VInt 51])
                  eq_refl ltac:(discriminate))).
Defined.

(** *** Numbers survive [str] and [to_numeric] *)

Lemma digits_acc_app s1 : forall acc s2,
  digits_acc acc (s1 +:+ s2) = digits_acc acc s1 ≫= fun a => digits_acc a s2.
Proof.
  induction s1 as [|c s1 IH]; intros acc s2; simpl; [done|].
  destruct (is_digit c); [apply IH|done].
Qed.

Lemma all_digits_app s1 s2 :
  all_digits (s1 +:+ s2) = all_digits s1 && all_digits s2.
Proof.
  induction s1 as [|c s1 IH]; simpl; [done|]. by rewrite IH, andb_assoc.
Qed.

Lemma string_app_cons c (s1 s2 : string) :
  String c s1 +:+ s2 = String c (s1 +:+ s2).
Proof. reflexivity. Qed.

Lemma string_app_assoc (s1 s2 s3 : string) :
  (s1 +:+ s2) +:+ s3 = s1 +:+ (s2 +:+ s3).
Proof.
  induction s1 as [|c s1 IH]; [done|]. rewrite !string_app_cons. by f_equal.
Qed.

Lemma string_app_length (s1 s2 : string) :
  String.length (s1 +:+ s2) = (String.length s1 + String.length s2)%nat.
Proof.
  induction s1 as [|c s1 IH]; [done|]. rewrite string_app_cons. simpl. by f_equal.
Qed.

Lemma pretty_N_char_digit x :
  (x < 10)%N ->
  is_digit (pretty_N_char x) = true /\ digit_val (pretty_N_char x) = Z.of_N x.
Proof.
  intros Hx.
  assert (Hcases : x = 0%N \/ x = 1%N \/ x = 2%N \/ x = 3%N \/ x = 4%N \/
                   x = 5%N \/ x = 6%N \/ x = 7%N \/ x = 8%N \/ x = 9%N) by lia.
  repeat (destruct Hcases as [->|Hcases]; [by vm_compute|]).
  subst. by vm_compute.
Qed.

(** The digits that [pretty] puts in front of its accumulator. *)
Lemma pretty_N_go_digits (x : N) :
  exists d,
    (forall s, pretty_N_go x s = d +:+ s) /\
    all_digits d = true /\
    (forall acc, digits_acc acc d =
                 Some (acc * 10 ^ Z.of_nat (String.length d) + Z.of_N x)) /\
    ((0 < x)%N -> 10 ^ Z.of_nat (String.length d) <= 10 * Z.of_N x) /\
    ((0 < x)%N -> d <> EmptyString).
Proof.
  induction (N.lt_wf_0 x) as [x _ IH].
  destruct (decide (0 < x)%N) as [Hpos|Hzero].
  - destruct (IH (x `div` 10)%N) as (d & Hgo & Hdig & Hval & Hlow & _).
    { apply N.div_lt; lia. }
    destruct (pretty_N_char_digit (x `mod` 10)%N) as [Hc Hv].
    { apply N.mod_lt. lia. }
    exists (d +:+ String (pretty_N_char (x `mod` 10)) EmptyString).
    split; [|split; [|split; [|split]]].
    + intros s. rewrite pretty_N_go_step by done.
      by rewrite Hgo, string_app_assoc.
    + rewrite all_digits_app, Hdig. simpl. by rewrite Hc.
    + intros acc. rewrite digits_acc_app, Hval. simpl. rewrite Hc, Hv. f_equal.
      rewrite string_app_length. simpl.
      replace (Z.of_nat (String.length d + 1)) with (Z.of_nat (String.length d) + 1)
        by lia.
      rewrite Z.pow_add_r by lia.
      pose proof (N.div_mod x 10 ltac:(lia)) as Hdm. lia.
    + intros _. rewrite string_app_length. simpl.
      replace (Z.of_nat (String.length d + 1)) with (Z.of_nat (String.length d) + 1)
        by lia.
      rewrite Z.pow_add_r, Z.pow_1_r by lia.
      destruct (decide (0 < x `div` 10)%N) as [Hq|Hq].
      * specialize (Hlow Hq).
        pose proof (N.div_mod x 10 ltac:(lia)) as Hdm.
        assert (Z.of_N x = 10 * Z.of_N (x `div` 10) + Z.of_N (x `mod` 10)) as Hx
          by (rewrite Hdm at 1; by rewrite N2Z.inj_add, N2Z.inj_mul).
        pose proof (N2Z.is_nonneg (x `mod` 10)) as Hr.
        revert Hx Hlow Hr.
        generalize (10 ^ Z.of_nat (String.length d)) (Z.of_N (x `div` 10))
                   (Z.of_N (x `mod` 10)) (Z.of_N x).
        clear. intros. lia.
      * assert (x `div` 10 = 0)%N as Hq0
          by (destruct (x `div` 10)%N as [|q]; [done|by exfalso; apply Hq]).
        rewrite Hq0 in Hgo.
        assert (d = EmptyString) as ->.
        { specialize (Hgo EmptyString). rewrite pretty_N_go_0 in Hgo.
          destruct d; [done|]. simpl in Hgo. discriminate. }
        clear -Hpos. simpl. lia.
    + intros _. by destruct d.
  - assert (x = 0%N) as -> by lia. exists EmptyString.
    split; [done|]. split; [done|]. split; [|split; [lia|lia]].
    intros acc. simpl. f_equal. lia.
Qed.

Lemma string_app_nil_r (s : string) : s +:+ EmptyString = s.
Proof. induction s as [|c s IH]; [done|]. rewrite string_app_cons. by f_equal. Qed.

Lemma pretty_N_digits (x : N) :
  all_digits (pretty x) = true /\
  pretty x <> EmptyString /\
  (forall acc, digits_acc acc (pretty x) =
               Some (acc * 10 ^ Z.of_nat (String.length (pretty x)) + Z.of_N x)) /\
  (forall k, (0 < k)%nat -> Z.of_N x < 10 ^ Z.of_nat k ->
             (String.length (pretty x) <= k)%nat).
Proof.
  unfold pretty, pretty_N. case_decide as Hx.
  - subst x. split; [done|]. split; [done|]. split.
    + intros acc. change (Some (10 * acc + 0) = Some (acc * 10 + 0)). f_equal. lia.
    + intros k Hk _. change (1 <= k)%nat. lia.
  - destruct (pretty_N_go_digits x) as (d & Hgo & Hdig & Hval & Hlow & Hne).
    rewrite Hgo, string_app_nil_r.
    assert (Hpos : (0 < x)%N) by (by apply N.neq_0_lt_0).
    split; [done|]. split; [by apply Hne|]. split; [done|].
    intros k Hk Hlt. specialize (Hlow Hpos).
    assert (10 ^ Z.of_nat (String.length d) < 10 ^ (Z.of_nat k + 1)) as Hpow.
    { rewrite Z.pow_add_r, Z.pow_1_r by lia. lia. }
    apply Z.pow_lt_mono_r_iff in Hpow; lia.
Qed.

Lemma pretty_Z_nonneg (z : Z) : 0 <= z -> pretty z = pretty (Z.to_N z).
Proof. by destruct z as [|p|p]; [| |lia]. Qed.

Lemma zero_pad_zeros k : forall s,
  (String.length s <= k)%nat ->
  zero_pad k s = zeros (k - String.length s) +:+ s.
Proof.
  induction k as [|k IH]; intros s Hlen.
  - simpl. by replace (0 - String.length s)%nat with 0%nat by lia.
  - cbn [zero_pad]. destruct (Nat.leb_spec (S k) (String.length s)) as [Hge|Hlt].
    + by replace (S k - String.length s)%nat with 0%nat by lia.
    + rewrite IH by lia.
      by replace (S k - String.length s)%nat with (S (k - String.length s)) by lia.
Qed.

Lemma zeros_digits n :
  all_digits (zeros n) = true /\ String.length (zeros n) = n /\
  forall acc, digits_acc acc (zeros n) = Some (acc * 10 ^ Z.of_nat n).
Proof.
  induction n as [|n (Hd & Hl & Hv)]; simpl.
  - split; [done|]. split; [done|]. intros acc. f_equal. lia.
  - split; [done|]. split; [by rewrite Hl|]. intros acc.
    change (is_digit "0") with true. cbn iota. rewrite Hv. f_equal.
    change (digit_val "0") with 0.
    replace (Z.of_nat (S n)) with (Z.of_nat n + 1) by lia.
    rewrite Z.pow_add_r, Z.pow_1_r by lia. lia.
Qed.

Lemma str_replace_digits old new s :
  is_digit old = false -> all_digits s = true -> str_replace old new s = s.
Proof.
  intros Hold. unfold str_replace.
  induction s as [|c s IH]; simpl; [done|].
  intros [Hc Hs]%andb_true_iff. rewrite IH by done.
  destruct (Ascii.eqb_spec c old) as [->|_]; [congruence|done].
Qed.

Lemma str_replace_app old new s1 s2 :
  str_replace old new (s1 +:+ s2) =
  str_replace old new s1 +:+ str_replace old new s2.
Proof.
  unfold str_replace. induction s1 as [|c s1 IH]; [done|].
  rewrite string_app_cons. simpl. rewrite string_app_cons. by f_equal.
Qed.

Lemma split_on_digits sep s :
  is_digit sep = false -> all_digits s = true -> split_on sep s = [s].
Proof.
  intros Hsep. induction s as [|c s IH]; simpl; [done|].
  intros [Hc Hs]%andb_true_iff. rewrite IH by done.
  destruct (Ascii.eqb_spec c sep) as [->|_]; [congruence|done].
Qed.

Lemma split_on_app_sep sep s1 s2 :
  is_digit sep = false -> all_digits s1 = true -> all_digits s2 = true ->
  split_on sep (s1 +:+ String sep s2) = [s1; s2].
Proof.
  intros Hsep H1 H2. induction s1 as [|c s1 IH].
  - simpl. rewrite Ascii.eqb_refl. by rewrite split_on_digits.
  - rewrite string_app_cons. simpl in *. apply andb_true_iff in H1 as [Hc H1].
    rewrite IH by done.
    destruct (Ascii.eqb_spec c sep) as [->|_]; [congruence|done].
Qed.

Lemma normalize_normal m k : normalized (Float m k) = true -> normalize m k = Float m k.
Proof.
  unfold normalized. cbn [mant scale]. destruct k as [|k]; [done|].
  cbn [Nat.eqb orb normalize]. by intros ->%negb_true_iff.
Qed.

Lemma normalize_is_normal k : forall m, normalized (normalize m k) = true.
Proof.
  induction k as [|k IH]; intros m; [done|].
  cbn [normalize]. destruct (m mod 10 =? 0) eqn:E; [apply IH|].
  unfold normalized. cbn [mant scale]. by rewrite E.
Qed.

Lemma normalized_opp m k : normalized (Float (- m) k) = normalized (Float m k).
Proof.
  unfold normalized. cbn [mant scale]. f_equal. f_equal.
  destruct (Z.eqb_spec (m mod 10) 0) as [H|H].
  - apply Z.eqb_eq. by apply Z.mod_opp_l_z.
  - apply Z.eqb_neq. intros H'. apply H.
    apply Z.mod_opp_l_z in H'; [|done]. by rewrite Z.opp_involutive in H'.
Qed.

Lemma normalized_abs m k : normalized (Float (Z.abs m) k) = normalized (Float m k).
Proof.
  destruct (Z.abs_spec m) as [[_ ->]|[_ ->]]; [done|apply normalized_opp].
Qed.

Lemma parse_number_digit_first c s :
  is_digit c = true -> plain_number (String c s) = parse_unsigned (String c s).
Proof.
  destruct c as [b0 b1 b2 b3 b4 b5 b6 b7].
  by destruct b0, b1, b2, b3, b4, b5, b6, b7.
Qed.

Lemma parse_unsigned_digits s n :
  all_digits s = true -> s <> EmptyString -> digits_acc 0 s = Some n ->
  parse_unsigned s = Some (NumInt n).
Proof.
  intros Hd Hne Hv. unfold parse_unsigned. rewrite split_on_digits by done.
  unfold parse_digits. destruct s; [done|]. by rewrite Hv.
Qed.

(** An int survives [str] and [to_numeric]. *)
Lemma int_round_trip n :
  plain_number (str_replace "," "." (pretty n)) = Some (NumInt n).
Proof.
  destruct n as [|p|p]; [done| |].
  - change (pretty (Z.pos p)) with (pretty (N.pos p)).
    destruct (pretty_N_digits (N.pos p)) as (Hd & Hne & Hv & _).
    rewrite str_replace_digits by done.
    destruct (pretty (N.pos p)) as [|c s] eqn:E; [done|].
    rewrite parse_number_digit_first by (by apply andb_true_iff in Hd as [? _]).
    apply parse_unsigned_digits; try done; rewrite Hv; f_equal; lia.
  - change (pretty (Z.neg p)) with (String "-" (pretty (N.pos p))).
    destruct (pretty_N_digits (N.pos p)) as (Hd & Hne & Hv & _).
    change (str_replace "," "." (String "-" (pretty (N.pos p))))
      with (String "-" (str_replace "," "." (pretty (N.pos p)))).
    rewrite str_replace_digits by done. cbn [plain_number].
    assert (Hu : parse_unsigned (pretty (N.pos p)) = Some (NumInt (Z.pos p)))
      by (apply parse_unsigned_digits; try done; rewrite Hv; f_equal; lia).
    by rewrite Hu.
Qed.

(** The digits after the point in [repr]. *)
Lemma fraction_digits (a : Z) (k : nat) :
  0 <= a ->
  let frac := match k with
              | O => "0"
              | _ => zero_pad k (pretty (a mod 10 ^ Z.of_nat k))
              end in
  all_digits frac = true /\
  forall acc,
    digits_acc acc frac =
    Some (match k with
          | O => acc * 10
          | _ => acc * 10 ^ Z.of_nat k + a mod 10 ^ Z.of_nat k
          end) /\
    String.length frac = match k with O => 1%nat | _ => k end.
Proof.
  intros Ha. destruct k as [|k]; cbv zeta.
  - split; [done|]. intros acc. split; [|done].
    change (Some (10 * acc + 0) = Some (acc * 10)). f_equal. lia.
  - set (p := 10 ^ Z.of_nat (S k)).
    assert (Hp : 0 < p) by (apply Z.pow_pos_nonneg; lia).
    pose proof (Z.mod_pos_bound a p Hp) as Hr.
    rewrite pretty_Z_nonneg by lia.
    destruct (pretty_N_digits (Z.to_N (a mod p))) as (Hd & Hne & Hv & Hlen).
    specialize (Hlen (S k) ltac:(lia)). rewrite Z2N.id in Hlen, Hv by lia.
    specialize (Hlen (proj2 Hr)).
    rewrite zero_pad_zeros by done.
    set (R := pretty (Z.to_N (a mod p))) in *.
    destruct (zeros_digits (S k - String.length R)) as (Hzd & Hzl & Hzv).
    split; [by rewrite all_digits_app, Hzd, Hd|].
    intros acc. split.
    + rewrite digits_acc_app, Hzv. cbn [mbind option_bind]. rewrite Hv. f_equal.
      rewrite <- Z.mul_assoc, <- Z.pow_add_r by lia. unfold p. do 3 f_equal. lia.
    + rewrite string_app_length, Hzl. lia.
Qed.

(** The unsigned part of [repr] reads back as the float it prints. *)
Lemma unsigned_repr_parse (a : Z) (k : nat) :
  0 <= a -> normalized (Float a k) = true ->
  let U := pretty (a / 10 ^ Z.of_nat k) +:+ "." +:+
           match k with
           | O => "0"
           | _ => zero_pad k (pretty (a mod 10 ^ Z.of_nat k))
           end in
  str_replace "," "." U = U /\
  (exists c s, U = String c s /\ is_digit c = true) /\
  parse_unsigned U = Some (NumFloat (Float a k)).
Proof.
  intros Ha Hnorm.
  set (p := 10 ^ Z.of_nat k).
  assert (Hp : 0 < p) by (apply Z.pow_pos_nonneg; lia).
  assert (Hq : 0 <= a / p) by (apply Z.div_pos; lia).
  destruct (fraction_digits a k Ha) as [Hfd Hfv]. cbv zeta in Hfd, Hfv.
  fold p in Hfd, Hfv.
  set (frac := match k with
               | O => "0"
               | _ => zero_pad k (pretty (a mod p))
               end) in *.
  rewrite pretty_Z_nonneg by done.
  destruct (pretty_N_digits (Z.to_N (a / p))) as (Hd & Hne & Hv & _).
  rewrite Z2N.id in Hv by done.
  set (I := pretty (Z.to_N (a / p))) in *.
  cbv zeta. change ("." +:+ frac) with (String "." frac).
  split; [|split].
  - rewrite str_replace_app, str_replace_digits by done. f_equal.
    change (str_replace "," "." (String "." frac))
      with (String "." (str_replace "," "." frac)).
    by rewrite str_replace_digits.
  - destruct I as [|c s]; [done|]. exists c, (s +:+ String "." frac).
    split; [done|]. simpl in Hd. by apply andb_true_iff in Hd as [? _].
  - unfold parse_unsigned. rewrite split_on_app_sep by done.
    assert (Hm : digits_acc 0 (I +:+ frac) =
                 Some (match k with O => a * 10 | _ => a end)).
    { rewrite digits_acc_app, Hv. cbn [mbind option_bind].
      rewrite (proj1 (Hfv _)). f_equal. destruct k.
      - unfold p. simpl. rewrite Z.div_1_r. lia.
      - pose proof (Z.div_mod a p ltac:(lia)). lia. }
    destruct I as [|c s]; [done|]. rewrite Hm. cbn [mbind option_bind].
    rewrite (proj2 (Hfv 0)). do 2 f_equal. destruct k as [|k].
    + cbn [normalize]. rewrite Z.mod_mul by lia. cbn [Z.eqb].
      by rewrite Z.div_mul by lia.
    + by apply normalize_normal.
Qed.

(** A float in normal form survives [str] and [to_numeric]. *)
Lemma float_round_trip f :
  normalized f = true ->
  plain_number (str_replace "," "." (float_repr f)) = Some (NumFloat f).
Proof.
  destruct f as [m k]. intros Hnorm. unfold float_repr. cbn [mant scale].
  rewrite (normalize_normal m k Hnorm). cbn [mant scale].
  pose proof (unsigned_repr_parse (Z.abs m) k (Z.abs_nonneg m)) as HU.
  rewrite normalized_abs in HU. specialize (HU Hnorm). cbv zeta in HU.
  destruct HU as (Hrep & (c & s & HUeq & Hc) & Hparse).
  assert (Hfrac : match k with
                  | O => "0"
                  | S n => zero_pad (S n) (pretty (Z.abs m mod 10 ^ Z.of_nat k))
                  end =
                  match k with
                  | O => "0"
                  | _ => zero_pad k (pretty (Z.abs m mod 10 ^ Z.of_nat k))
                  end) by (by destruct k).
  rewrite Hfrac. clear Hfrac.
  set (U := pretty (Z.abs m / 10 ^ Z.of_nat k) +:+ "." +:+ _) in *.
  destruct (Z.ltb_spec m 0) as [Hneg|Hpos].
  - change ("-" +:+ U) with (String "-" U).
    change (str_replace "," "." (String "-" U))
      with (String "-" (str_replace "," "." U)).
    rewrite Hrep. cbn [plain_number]. rewrite Hparse. cbn [fmap option_fmap option_map numeral_neg mant scale].
    do 3 f_equal. lia.
  - change ("" +:+ U) with U. rewrite Hrep, HUeq.
    rewrite parse_number_digit_first by done. rewrite <- HUeq, Hparse.
    do 3 f_equal. lia.
Qed.

Lemma normalize_idem m k :
  normalize (mant (normalize m k)) (scale (normalize m k)) = normalize m k.
Proof.
  pose proof (normalize_is_normal k m) as H.
  destruct (normalize m k) as [m' k'] eqn:E. by apply normalize_normal.
Qed.

Lemma float_repr_normalize f :
  float_repr (normalize (mant f) (scale f)) = float_repr f.
Proof. unfold float_repr. by rewrite normalize_idem. Qed.

(** Any float reads back as its normal form. *)
Lemma float_read_back f :
  plain_number (str_replace "," "." (float_repr f)) =
  Some (NumFloat (normalize (mant f) (scale f))).
Proof.
  rewrite <- float_repr_normalize. apply float_round_trip, normalize_is_normal.
Qed.

Lemma parse_unsigned_normal s f :
  parse_unsigned s = Some (NumFloat f) -> normalized f = true.
Proof.
  assert (Hbody : forall i fr,
            (m ← digits_acc 0 (i +:+ fr);
             Some (NumFloat (normalize m (String.length fr)))) = Some (NumFloat f) ->
            normalized f = true).
  { intros i fr. destruct (digits_acc 0 (i +:+ fr)) as [m|]; [|done].
    intros [= <-]. apply normalize_is_normal. }
  unfold parse_unsigned. destruct (split_on "." s) as [|i [|fr [|? ?]]]; try done.
  - by destruct (parse_digits i).
  - destruct i, fr; first [done | apply Hbody].
Qed.

Lemma plain_number_normal s f :
  plain_number s = Some (NumFloat f) -> normalized f = true.
Proof.
  assert (Hneg : forall s', numeral_neg <$> parse_unsigned s' = Some (NumFloat f) ->
                            normalized f = true).
  { intros s'. destruct (parse_unsigned s') as [[n|g|b]|] eqn:E; try done.
    intros [= <-]. rewrite normalized_opp. destruct g. by eapply parse_unsigned_normal. }
  unfold plain_number. destruct s as [|c s']; [done|].
  destruct c as [b0 b1 b2 b3 b4 b5 b6 b7].
  destruct b0, b1, b2, b3, b4, b5, b6, b7;
    first [apply Hneg | apply parse_unsigned_normal].
Qed.

(** Every float that is read is in normal form. *)
Lemma parse_number_normal pd s x :
  parse_number pd s = Some x -> normal_cell (numeral_cell x) = true.
Proof.
  unfold parse_number. destruct (plain_number s) as [y|] eqn:E.
  - intros [= <-]. destruct y as [n|f|b]; [done| |done].
    by apply (plain_number_normal s).
  - destruct (infinity_text s); [by intros [= <-]|].
    destruct (null_text s); [done|].
    destruct (read_number pd s) as [[n|f|b]|]; intros [= <-]; try done.
    apply normalize_is_normal.
Qed.

(** The numeral read from the text of a number cell. *)
Lemma cell_read_back pd v :
  parse_number pd (str_replace "," "." (py_str v)) =
  match v with
  | VInt n => Some (NumInt n)
  | VFloat f => Some (NumFloat (normalize (mant f) (scale f)))
  | VInf b => Some (NumInf b)
  | VNaN | VNone | VNaT => None
  | _ => parse_number pd (str_replace "," "." (py_str v))
  end.
Proof.
  destruct v as [| | |n|f|b|x|ts|t]; try done; cbn [py_str].
  - apply parse_number_plain, int_round_trip.
  - apply parse_number_plain, float_read_back.
  - by destruct b.
Qed.

(** *** Coercing twice *)

Lemma coerced_unfold pd s :
  coerced pd s =
  if forallb is_int_numeral (reread pd (cells s))
  then mkSeries int64 (map int_cell (reread pd (cells s)))
  else mkSeries float64 (map float_cell (reread pd (cells s))).
Proof.
  unfold coerced, to_numeric, str_series, astype_str, reread. cbn [cells].
  by rewrite !map_map.
Qed.

Lemma reread_int_cells pd ps :
  forallb is_int_numeral ps = true -> reread pd (map int_cell ps) = ps.
Proof.
  unfold reread. induction ps as [|o ps IH]; simpl; [done|].
  intros [Ho Hps]%andb_true_iff. rewrite IH by done. f_equal.
  destruct o as [[n|f|b]|]; try done. apply (cell_read_back pd (VInt n)).
Qed.

Lemma reread_normal pd l :
  Forall (fun o => forall x, o = Some x -> normal_cell (numeral_cell x) = true)
         (reread pd l).
Proof.
  unfold reread. apply List.Forall_map, Forall_true. intros v x.
  apply parse_number_normal.
Qed.

Lemma float_cell_read_back pd o :
  (forall x, o = Some x -> normal_cell (numeral_cell x) = true) ->
  float_cell (parse_number pd (str_replace "," "." (py_str (float_cell o)))) =
    float_cell o /\
  is_int_numeral (parse_number pd (str_replace "," "." (py_str (float_cell o)))) =
    false.
Proof.
  intros Ho. destruct o as [x|]; [|done]. specialize (Ho x eq_refl).
  cbn [float_cell]. destruct x as [n|f|b]; cbn [numeral_cell] in *.
  - by rewrite (cell_read_back pd (VFloat (float_of_Z n))).
  - rewrite (cell_read_back pd (VFloat f)). cbn [float_cell numeral_cell].
    destruct f as [m k]. cbn [mant scale normal_cell] in *.
    by rewrite normalize_normal.
  - by rewrite (cell_read_back pd (VInf b)).
Qed.

Lemma reread_float_cells pd ps :
  Forall (fun o => forall x, o = Some x -> normal_cell (numeral_cell x) = true) ps ->
  map float_cell (reread pd (map float_cell ps)) = map float_cell ps /\
  (ps <> [] -> forallb is_int_numeral (reread pd (map float_cell ps)) = false).
Proof.
  unfold reread. induction 1 as [|o ps Ho Hps [IH _]]; [done|].
  destruct (float_cell_read_back pd o Ho) as [Hc Hi].
  cbn [map forallb]. rewrite !map_map in *. split.
  - by rewrite Hc, IH.
  - intros _. by rewrite Hi.
Qed.

Lemma coercion_idempotent_cells pd s : coerced pd (coerced pd s) = coerced pd s.
Proof.
  rewrite (coerced_unfold pd s).
  destruct (forallb is_int_numeral (reread pd (cells s))) eqn:E.
  - rewrite coerced_unfold. cbn [cells]. by rewrite reread_int_cells, E.
  - rewrite coerced_unfold. cbn [cells].
    destruct (reread_float_cells pd _ (reread_normal pd (cells s))) as [Hc Hi].
    rewrite Hi, Hc; [done|]. intros Hnil. by rewrite Hnil in E.
Qed.

Lemma exact_float_normal f : exact_float f = true -> normalized f = true.
Proof.
  unfold exact_float. by intros [[[? _]%andb_true_iff _]%andb_true_iff _]%andb_true_iff.
Qed.

(** X5. Numeric coercion is idempotent on the numbers that a decimal
    stands for exactly: a column that the loop over [numeric_columns] has
    produced, holding ints and floats of at most 15 significant digits that
    print without an exponent, infinities and NaN, is left exactly as it is,
    dtype and cells, when the loop runs on it again, because such a number
    prints as a plain literal and reads back as itself, and NaN stays NaN. *)
Theorem coercion_idempotent pd s
    (Hexact : forallb exact_cell (cells (coerced pd s)) = true) :
  coerced pd (coerced pd s) = coerced pd s /\
  (forall n, Z.abs n < 10 ^ 15 ->
     parse_number pd (str_replace "," "." (py_str (VInt n))) = Some (NumInt n)) /\
  (forall f, exact_float f = true ->
     parse_number pd (str_replace "," "." (py_str (VFloat f))) = Some (NumFloat f)) /\
  (forall b,
     parse_number pd (str_replace "," "." (py_str (VInf b))) = Some (NumInf b)) /\
  parse_number pd (str_replace "," "." (py_str VNaN)) = None.
Proof.
  split; [apply coercion_idempotent_cells|].
  split; [intros n _; apply (cell_read_back pd (VInt n))|].
  split; [|split; [intros b; apply (cell_read_back pd (VInf b))|done]].
  intros f Hf. apply parse_number_plain, float_round_trip.
  by apply exact_float_normal.
Qed.

Lemma coercion_idempotent_witness :
  coerced reference_pd
    (coerced reference_pd (mkSeries object [VStr "13,6"; VStr "13,3"; VStr "n/a"])) =
  mkSeries float64 [VFloat (Float 136 1); VFloat (Float 133 1); VNaN].
Proof.
  destruct (coercion_idempotent reference_pd
              (mkSeries object [VStr "13,6"; VStr "13,3"; VStr "n/a"]))
    as [Hidem _]; [reflexivity|].
  rewrite Hidem. reflexivity.
Defined.

(** *** Cleaning what is clean already *)

Lemma map_id_on {A} (f : A -> A) l : Forall (fun x => f x = x) l -> map f l = l.
Proof. induction 1 as [|x l Hx Hl IH]; simpl; [done|]. by rewrite Hx, IH. Qed.

Lemma series_replace_clean s :
  forallb (fun v => negb (eq_num sentinel v)) (cells s) = true ->
  series_replace sentinel s = s.
Proof.
  intros Hfree. apply forallb_Forall_true in Hfree.
  assert (Hno : existsb (eq_num sentinel) (cells s) = false).
  { induction Hfree as [|v l Hv Hl IH]; simpl; [done|].
    apply negb_true_iff in Hv. by rewrite Hv, IH. }
  assert (Hid : map (fun v => if eq_num sentinel v then VNaN else v) (cells s) = cells s).
  { apply map_id_on. eapply Forall_impl; [exact Hfree|]. simpl.
    intros v Hv. apply negb_true_iff in Hv. by rewrite Hv. }
  unfold series_replace. destruct s as [d l]. cbn [dtype_of cells] in *.
  destruct d; rewrite ?Hno, ?Hid; done.
Qed.

Lemma series_replace_free s :
  dtype_of s <> datetime64 ->
  forallb (fun v => negb (eq_num sentinel v)) (cells (series_replace sentinel s)) = true.
Proof.
  intros Hd. unfold series_replace. destruct (dtype_of s) eqn:Ed; try done.
  - destruct (existsb (eq_num sentinel) (cells s)) eqn:Ehit.
    + apply replace_cells_promote.
    + by apply replace_cells_untouched.
  - apply replace_cells_keep.
  - apply replace_cells_keep.
Qed.

Lemma series_replace_idempotent s :
  series_replace sentinel (series_replace sentinel s) = series_replace sentinel s.
Proof.
  destruct (decide (dtype_of s = datetime64)) as [Hd|Hd].
  - unfold series_replace. rewrite Hd. by rewrite Hd.
  - by apply series_replace_clean, series_replace_free.
Qed.

Lemma to_datetime_datetime_cells pd l :
  to_datetime pd (map datetime_cell l) = l.
Proof.
  unfold to_datetime. rewrite map_map. apply map_id_on, Forall_true.
  by intros [ts|].
Qed.

Lemma reclean_Date pd df :
  getitem (clean_frame pd (clean_frame pd df)) "Date" =
  getitem (clean_frame pd df) "Date".
Proof.
  rewrite (getitem_clean_frame_Date pd (clean_frame pd df)).
  rewrite getitem_clean_frame_Date.
  destruct (getitem df "Date") as [s|]; [|done]. cbn [fmap option_fmap option_map].
  f_equal. unfold datetime_series at 2. unfold series_replace. cbn [dtype_of cells].
  by rewrite to_datetime_datetime_cells.
Qed.

(** X6. The Date column is stable under cleaning again, whatever the
    format inference does: the timestamps and the NaT cells that the first
    run left are taken as they are by the second. *)
Theorem date_column_stable pd df :
  getitem (clean_frame pd (clean_frame pd df)) "Date" =
  getitem (clean_frame pd df) "Date" /\
  (forall l, to_datetime pd (map datetime_cell l) = l).
Proof. split; [apply reclean_Date|apply to_datetime_datetime_cells]. Qed.

Lemma number_cell_free pd v :
  number_or_nan v = true -> eq_num sentinel v = false ->
  eq_num sentinel (int_cell (parse_number pd (str_replace "," "." (py_str v)))) = false /\
  eq_num sentinel (float_cell (parse_number pd (str_replace "," "." (py_str v)))) = false.
Proof.
  intros Hn Hv. pose proof (cell_read_back pd v) as Hread.
  destruct v as [| | |n|f|b|x|ts|t]; try done; rewrite Hread.
  - split; [done|]. cbn [float_cell numeral_cell]. rewrite eq_num_float_of_Z.
    exact Hv.
  - split; [done|]. cbn [float_cell numeral_cell eq_num] in *.
    unfold float_eq_Z in *. by rewrite normalize_idem.
  - done.
Qed.

Lemma forallb_map_Forall {A B} (f : A -> B) (p : B -> bool) l :
  Forall (fun x => p (f x) = true) l -> forallb p (map f l) = true.
Proof. induction 1 as [|x l Hx Hl IH]; simpl; [done|]. by rewrite Hx, IH. Qed.

Lemma series_replace_numbers s :
  forallb number_or_nan (cells s) = true ->
  forallb number_or_nan (cells (series_replace sentinel s)) = true.
Proof.
  intros Hn.
  assert (Hkeep : forallb number_or_nan
            (map (fun v => if eq_num sentinel v then VNaN else v) (cells s)) = true).
  { apply forallb_map_Forall. eapply Forall_impl;
      [exact (forallb_Forall_true _ _ Hn)|].
    cbn beta. intros v Hv. by destruct (eq_num sentinel v). }
  assert (Hprom : forallb number_or_nan
            (map (fun v => if eq_num sentinel v then VNaN else int_to_float v)
                 (cells s)) = true).
  { apply forallb_map_Forall. eapply Forall_impl;
      [exact (forallb_Forall_true _ _ Hn)|].
    cbn beta. intros v Hv. destruct (eq_num sentinel v); [done|]. by destruct v. }
  unfold series_replace. by repeat case_match.
Qed.

(** X7. Where the sentinel stage does its work: a measurement column that
    is read as numbers (dtype int64 or float64, cells numbers or NaN) holds
    no -200 after [clean_data]; its sentinels have become NaN and its other
    numbers read back from their own text. *)
Theorem numeric_column_sentinel_free pd df name s
    (Hname : name ∈ numeric_columns)
    (Hcol : getitem df name = Some s)
    (Hdtype : numeric_dtype (dtype_of s) = true)
    (Hcells : forallb number_or_nan (cells s) = true) :
  holds_sentinel (clean_frame pd df) name = false.
Proof.
  unfold holds_sentinel. rewrite getitem_clean_frame_numeric, Hcol by done.
  cbn [fmap option_fmap option_map].
  assert (Hd : dtype_of s <> datetime64) by (by destruct (dtype_of s)).
  pose proof (series_replace_free s Hd) as Hfree.
  pose proof (series_replace_numbers s Hcells) as Hnum.
  rewrite coerced_unfold. unfold reread.
  apply forallb_Forall_true in Hfree. apply forallb_Forall_true in Hnum.
  revert Hfree Hnum. generalize (cells (series_replace sentinel s)). intros l Hfree Hnum.
  assert (Hcell : Forall (fun v =>
            eq_num sentinel (int_cell (parse_number pd (str_replace "," "." (py_str v)))) = false /\
            eq_num sentinel (float_cell (parse_number pd (str_replace "," "." (py_str v)))) = false) l).
  { induction Hfree as [|v l Hv Hl IH]; [constructor|].
    inversion Hnum; subst. constructor; [|by apply IH].
    apply number_cell_free; [done|by apply negb_true_iff]. }
  clear Hfree Hnum.
  assert (Hboth :
    existsb (eq_num sentinel)
      (map (fun v => int_cell (parse_number pd (str_replace "," "." (py_str v)))) l)
      = false /\
    existsb (eq_num sentinel)
      (map (fun v => float_cell (parse_number pd (str_replace "," "." (py_str v)))) l)
      = false).
  { induction Hcell as [|v l [Hi Hf] Hl [IHi IHf]]; cbn [map existsb]; [done|].
    by rewrite Hi, Hf, IHi, IHf. }
  destruct Hboth as [Hint Hflt].
  case_match; cbn [cells]; by rewrite map_map.
Qed.

Lemma numeric_column_sentinel_free_witness :
  holds_sentinel
    (clean_frame reference_pd
       (mkFrame 3 [("RH", mkSeries int64 [VInt 48; VInt (-200); VInt 51])]))
    "RH" = false.
Proof.
  apply (numeric_column_sentinel_free reference_pd _ "RH"
           (mkSeries int64 [VInt 48; VInt (-200); VInt 51]));
    [apply (bool_decide_eq_true_1 (_ ∈ numeric_columns)); by vm_compute
    |reflexivity..].
Defined.

(** A digit is no blank, no dot and no colon. *)
Lemma digit_plain c :
  is_digit c = true ->
  py_isspace c = false /\ Ascii.eqb c "." = false /\ Ascii.eqb c ":" = false.
Proof. destruct c as [[] [] [] [] [] [] [] []]; by vm_compute. Qed.

(** A field below 60 prints as two digits, which read back as the field. *)
Lemma field_table :
  forallb (fun n =>
     match pad_nat 2 n with
     | String a (String b EmptyString) =>
         is_digit a && is_digit b &&
         bool_decide (parse_field 59 (String a (String b EmptyString)) = Some n) &&
         bool_decide (parse_field 61 (String a (String b EmptyString)) = Some n) &&
         ((24 <=? n)%nat ||
          bool_decide (parse_field 23 (String a (String b EmptyString)) = Some n))
     | _ => false
     end) (seq 0 60) = true.
Proof. vm_compute. reflexivity. Qed.

Lemma field_round_trip n :
  (n < 60)%nat ->
  exists a b,
    pad_nat 2 n = String a (String b EmptyString) /\
    is_digit a = true /\ is_digit b = true /\
    parse_field 59 (String a (String b EmptyString)) = Some n /\
    parse_field 61 (String a (String b EmptyString)) = Some n /\
    ((n < 24)%nat -> parse_field 23 (String a (String b EmptyString)) = Some n).
Proof.
  intros Hn. pose proof field_table as Htab.
  rewrite List.forallb_forall in Htab.
  assert (Hin : In n (seq 0 60)) by (apply in_seq; lia).
  specialize (Htab n Hin). cbv beta in Htab.
  destruct (pad_nat 2 n) as [|a [|b [|]]]; try discriminate.
  apply andb_true_iff in Htab
    as [[[[Ha Hb]%andb_true_iff H59]%andb_true_iff H61]%andb_true_iff H23].
  exists a, b. split; [done|]. split; [done|]. split; [done|].
  split; [by apply bool_decide_eq_true_1 in H59|].
  split; [by apply bool_decide_eq_true_1 in H61|].
  intros Hlt. apply orb_true_iff in H23 as [H|H].
  - apply Nat.leb_le in H. lia.
  - by apply bool_decide_eq_true_1 in H.
Qed.

(** The text of a time of day in whole seconds is HH:MM:SS, two digits
    each: it has no blank to strip and no dot to replace, and its three
    fields read back as the hour, the minute and the second. *)
Lemma whole_second_text t :
  whole_second t = true ->
  strip (time_str t) = time_str t /\
  str_replace "." ":" (time_str t) = time_str t /\
  String.length (time_str t) = 8%nat /\
  hms_fields (time_str t) = Some (t_hour t, t_minute t, t_second t).
Proof.
  destruct t as [h m s u]. unfold whole_second. cbn [t_hour t_minute t_second t_micro].
  rewrite !andb_true_iff, !Nat.ltb_lt, Nat.eqb_eq. intros [[[Hh Hm] Hs] ->].
  destruct (field_round_trip h) as (h1 & h2 & Eh & Hh1 & Hh2 & _ & _ & Hph); [lia|].
  destruct (field_round_trip m) as (m1 & m2 & Em & Hm1 & Hm2 & Hpm & _ & _); [lia|].
  destruct (field_round_trip s) as (s1 & s2 & Es & Hs1 & Hs2 & _ & Hps & _); [lia|].
  specialize (Hph Hh).
  unfold time_str. cbn [t_hour t_minute t_second t_micro]. rewrite Eh, Em, Es.
  destruct (digit_plain _ Hh1) as (Wh1 & Dh1 & Ch1).
  destruct (digit_plain _ Hh2) as (Wh2 & Dh2 & Ch2).
  destruct (digit_plain _ Hm1) as (Wm1 & Dm1 & Cm1).
  destruct (digit_plain _ Hm2) as (Wm2 & Dm2 & Cm2).
  destruct (digit_plain _ Hs1) as (Ws1 & Ds1 & Cs1).
  destruct (digit_plain _ Hs2) as (Ws2 & Ds2 & Cs2).
  change (String h1 (String h2 "") +:+ ":" +:+ String m1 (String m2 "") +:+ ":" +:+
          String s1 (String s2 "") +:+ "")
    with (String h1 (String h2 (String ":" (String m1 (String m2 (String ":"
            (String s1 (String s2 "")))))))).
  assert (Hstrip : strip (String h1 (String h2 (String ":" (String m1 (String m2
            (String ":" (String s1 (String s2 "")))))))) =
          String h1 (String h2 (String ":" (String m1 (String m2 (String ":"
            (String s1 (String s2 "")))))))).
  { unfold strip. cbn [lstrip]. rewrite Wh1.
  change (String.rev (String h1 (String h2 (String ":" (String m1 (String m2
            (String ":" (String s1 (String s2 "")))))))))
    with (String s2 (String s1 (String ":" (String m2 (String m1 (String ":"
            (String h2 (String h1 "")))))))).
  cbn [lstrip]. rewrite Ws2.
  change (String.rev (String s2 (String s1 (String ":" (String m2 (String m1
            (String ":" (String h2 (String h1 "")))))))))
    with (String h1 (String h2 (String ":" (String m1 (String m2 (String ":"
            (String s1 (String s2 "")))))))).
    reflexivity. }
  split; [exact Hstrip|]. split; [|split; [reflexivity|]].
  - unfold str_replace. cbn [str_map].
    rewrite Dh1, Dh2, Dm1, Dm2, Ds1, Ds2.
    change (Ascii.eqb ":" ".") with false. cbv iota. reflexivity.
  - unfold hms_fields. cbn [split_on].
    rewrite Ch1, Ch2, Cm1, Cm2, Cs1, Cs2.
    change (Ascii.eqb ":" ":") with true. cbv iota.
    rewrite Hph, Hpm, Hps. reflexivity.
Qed.

(** Every time of day in whole seconds, printed by [str] and stripped, is
    read back by the strict HH:MM:SS parse. *)
Lemma whole_second_round_trip pd t :
  whole_second t = true ->
  strptime_HMS pd (str_replace "." ":" (strip (time_str t))) = Some (strptime_date t).
Proof.
  intros Ht. destruct (whole_second_text t Ht) as (-> & -> & _ & Hf).
  unfold strptime_HMS. rewrite Hf. cbn [mbind option_bind].
  unfold whole_second in Ht. destruct t as [h m s u].
  cbn [t_hour t_minute t_second t_micro] in *.
  apply andb_true_iff in Ht as [[_ Hs]%andb_true_iff Hu].
  rewrite Hs. by apply Nat.eqb_eq in Hu as ->.
Qed.

(** *** The text of the combined timestamp *)

(** A number below [10^w] prints, zero-padded to width [w], as [w] digits
    that spell it. *)
Lemma pad_nat_fixed w n :
  (0 < w)%nat -> Z.of_nat n < 10 ^ Z.of_nat w ->
  String.length (pad_nat w n) = w /\
  all_digits (pad_nat w n) = true /\
  digits_acc 0 (pad_nat w n) = Some (Z.of_nat n).
Proof.
  intros Hw Hn. unfold pad_nat.
  change (pretty n) with (pretty (N.of_nat n)).
  destruct (pretty_N_digits (N.of_nat n)) as (Hd & _ & Hv & Hlen).
  rewrite nat_N_Z in Hv, Hlen. specialize (Hlen w Hw Hn).
  rewrite zero_pad_zeros by exact Hlen.
  destruct (zeros_digits (w - String.length (pretty (N.of_nat n)))) as (Hzd & Hzl & Hzv).
  split; [|split].
  - rewrite string_app_length, Hzl. lia.
  - by rewrite all_digits_app, Hzd, Hd.
  - rewrite digits_acc_app, Hzv. cbn [mbind option_bind]. by rewrite Hv.
Qed.

(** The text handed to the combined parse is [YYYY-MM-DD HH:MM:SS]: four,
    two and two digits that spell the year, the month and the day, a blank,
    and the text of the time. *)
Lemma combined_text_form ts t :
  Z.of_nat (year ts) < 10000 -> Z.of_nat (month ts) < 100 -> Z.of_nat (day ts) < 100 ->
  exists y m d,
    combined_text ts t = y +:+ "-" +:+ m +:+ "-" +:+ d +:+ " " +:+ time_str t /\
    (String.length y = 4 /\ String.length m = 2 /\ String.length d = 2)%nat /\
    digits_acc 0 y = Some (Z.of_nat (year ts)) /\
    digits_acc 0 m = Some (Z.of_nat (month ts)) /\
    digits_acc 0 d = Some (Z.of_nat (day ts)).
Proof.
  intros Hy Hm Hd.
  assert (H4 : Z.of_nat (year ts) < 10 ^ Z.of_nat 4) by exact Hy.
  assert (H2m : Z.of_nat (month ts) < 10 ^ Z.of_nat 2) by exact Hm.
  assert (H2d : Z.of_nat (day ts) < 10 ^ Z.of_nat 2) by exact Hd.
  destruct (pad_nat_fixed 4 (year ts) ltac:(lia) H4) as (Ly & _ & Vy).
  destruct (pad_nat_fixed 2 (month ts) ltac:(lia) H2m) as (Lm & _ & Vm).
  destruct (pad_nat_fixed 2 (day ts) ltac:(lia) H2d) as (Ld & _ & Vd).
  exists (pad_nat 4 (year ts)), (pad_nat 2 (month ts)), (pad_nat 2 (day ts)).
  split; [|done].
  unfold combined_text, strftime_ymd. by rewrite !string_app_assoc.
Qed.

(** C3. For every record the derived Datetime (under either spelling) is
    what the format-inferring parse, called on the column of combined texts,
    makes of the text "YYYY-MM-DD" + " " + time of the record when the
    parsed Date and the parsed Time are both present, absent if that parse
    fails, and absent when either is absent.  So it is present exactly when
    both are present and the combined text parses, and the combined parse is
    handed a text for a record exactly when both are present.  The text is
    the date as four, two and two digits between dashes, a blank, and the
    time as [str] prints it, HH:MM:SS for a time in whole seconds. *)
Theorem datetime_derivation pd df i (Hi : (i < nrows df)%nat) :
  let out := clean_frame pd df in
  let parse := infer_datetime pd (combined_column (parsed_frame pd df)) in
  cell_at out "DateTime" i =
    Some (derived_datetime parse (cell_at out "Date" i) (cell_at out "Time" i)) /\
  cell_at out "Datetime" i = cell_at out "DateTime" i /\
  (if present_at out "Date" i && present_at out "Time" i then True
   else cell_at out "DateTime" i = Some VNaT) /\
  (present_at out "Date" i && present_at out "Time" i = true <->
   exists ts t, cell_at out "Date" i = Some (VTimestamp ts) /\
                cell_at out "Time" i = Some (VTime t)) /\
  (present_at out "DateTime" i = true <->
   exists ts t, cell_at out "Date" i = Some (VTimestamp ts) /\
                cell_at out "Time" i = Some (VTime t) /\
                is_Some (parse (VStr (combined_text ts t)))) /\
  index_lookup i (datetime_requests (parsed_frame pd df)) =
    match cell_at out "Date" i, cell_at out "Time" i with
    | Some (VTimestamp ts), Some (VTime t) => Some (VStr (combined_text ts t))
    | _, _ => None
    end /\
  (forall ts t,
     Z.of_nat (year ts) < 10000 -> Z.of_nat (month ts) < 100 -> Z.of_nat (day ts) < 100 ->
     exists y m d,
       combined_text ts t = y +:+ "-" +:+ m +:+ "-" +:+ d +:+ " " +:+ time_str t /\
       (String.length y = 4 /\ String.length m = 2 /\ String.length d = 2)%nat /\
       digits_acc 0 y = Some (Z.of_nat (year ts)) /\
       digits_acc 0 m = Some (Z.of_nat (month ts)) /\
       digits_acc 0 d = Some (Z.of_nat (day ts))) /\
  (forall t, whole_second t = true ->
     String.length (time_str t) = 8%nat /\
     hms_fields (time_str t) = Some (t_hour t, t_minute t, t_second t)) /\
  combined_text (Timestamp 2004 3 10 (Time 0 0 0 0)) (Time 18 0 0 0) =
    "2004-03-10 18:00:00".
Proof.
  intros out parse.
  assert (HD : cell_at out "Date" i = cell_at (parsed_frame pd df) "Date" i)
    by (apply cell_at_clean_frame_keep; [not_numeric|done..]).
  assert (HT : cell_at out "Time" i = cell_at (parsed_frame pd df) "Time" i)
    by (apply cell_at_clean_frame_keep; [not_numeric|done..]).
  assert (Hshape_d : forall v, cell_at out "Date" i = Some v ->
            v = VNaT \/ exists ts, v = VTimestamp ts).
  { intros v. rewrite HD. apply parsed_Date_shape. }
  assert (Hshape_t : forall v, cell_at out "Time" i = Some v ->
            v = VNaT \/ exists t, v = VTime t).
  { intros v. rewrite HT. apply parsed_Time_shape. }
  assert (Hdt : cell_at out "DateTime" i =
            Some (derived_datetime parse (cell_at out "Date" i) (cell_at out "Time" i))).
  { unfold out at 1. rewrite cell_at_clean_frame_DateTime by exact Hi.
    rewrite <- HD, <- HT. f_equal. by apply row_datetime_derived. }
  assert (Hal : cell_at out "Datetime" i = cell_at out "DateTime" i).
  { unfold cell_at, out.
    by rewrite getitem_clean_frame_alias, getitem_clean_frame_DateTime. }
  assert (Hreq : index_lookup i (datetime_requests (parsed_frame pd df)) =
            match cell_at out "Date" i, cell_at out "Time" i with
            | Some (VTimestamp ts), Some (VTime t) =>
                Some (VStr (combined_text ts t))
            | _, _ => None
            end).
  { rewrite index_lookup_requests, <- HD, <- HT.
    destruct (cell_at out "Date" i) as [d|]; [|done].
    destruct (Hshape_d d eq_refl) as [->|[ts ->]];
      [by destruct (cell_at out "Time" i)|].
    destruct (cell_at out "Time" i) as [t|]; [|done].
    by destruct (Hshape_t t eq_refl) as [->|[tm ->]]. }
  split; [exact Hdt|]. split; [exact Hal|].
  assert (Htext : forall t, whole_second t = true ->
            String.length (time_str t) = 8%nat /\
            hms_fields (time_str t) = Some (t_hour t, t_minute t, t_second t)).
  { intros t Ht. by destruct (whole_second_text t Ht) as (_ & _ & ? & ?). }
  rewrite Hreq. unfold present_at. rewrite Hdt. clear Hdt Hal Hreq HD HT.
  clearbody out parse.
  assert (Hrest : forall P Q R S : Prop, P -> Q -> R -> S ->
            P /\ Q /\ R /\ S) by tauto.
  cut ((if match cell_at out "Date" i with Some v => notna v | None => false end &&
           match cell_at out "Time" i with Some v => notna v | None => false end
        then True
        else Some (derived_datetime parse (cell_at out "Date" i)
                     (cell_at out "Time" i)) = Some VNaT) /\
       (match cell_at out "Date" i with Some v => notna v | None => false end &&
        match cell_at out "Time" i with Some v => notna v | None => false end = true <->
        exists ts t, cell_at out "Date" i = Some (VTimestamp ts) /\
                     cell_at out "Time" i = Some (VTime t)) /\
       (notna (derived_datetime parse (cell_at out "Date" i)
                 (cell_at out "Time" i)) = true <->
        exists ts t, cell_at out "Date" i = Some (VTimestamp ts) /\
                     cell_at out "Time" i = Some (VTime t) /\
                     is_Some (parse (VStr (combined_text ts t))))).
  { intros (H1 & H2 & H3). split; [exact H1|]. split; [exact H2|].
    split; [exact H3|]. split; [reflexivity|].
    split; [apply combined_text_form|]. split; [exact Htext|reflexivity]. }
  destruct (cell_at out "Date" i) as [d|].
  2:{ simpl. absent_case. }
  destruct (Hshape_d d eq_refl) as [->|[ts ->]].
  { simpl. absent_case. }
  destruct (cell_at out "Time" i) as [t|].
  2:{ simpl. absent_case. }
  destruct (Hshape_t t eq_refl) as [->|[tm ->]].
  { simpl. absent_case. }
  simpl. split; [done|]. split; [split; eauto|].
  split.
  - intros Hp. exists ts, tm. split; [done|]. split; [done|].
    destruct (parse (VStr (combined_text ts tm))); [eauto|done].
  - intros (ts' & tm' & [= <-] & [= <-] & [x Hx]). by rewrite Hx.
Qed.

Lemma datetime_derivation_witness :
  cell_at (clean_frame reference_pd dated_frame) "DateTime" 0 =
    Some (VTimestamp (Timestamp 2004 3 10 (Time 18 0 0 0))) /\
  cell_at (clean_frame reference_pd dated_frame) "DateTime" 1 = Some VNaT.
Proof.
  destruct (datetime_derivation reference_pd dated_frame 0) as [H0 _];
    [simpl; lia|].
  destruct (datetime_derivation reference_pd dated_frame 1) as [H1 _];
    [simpl; lia|].
  split; [etrans; [exact H0|reflexivity]|etrans; [exact H1|reflexivity]].
Defined.

Lemma plain_cell_stable pd column v :
  (forall column, infer_datetime pd column (VStr "NaT") = None) ->
  plain_time_cell v = true ->
  time_cell (fallback_chain pd column (strip (py_str v))) = v.
Proof.
  intros Hnat Hv. destruct v as [| | | | | | |ts|t]; try done.
  - change (strip (py_str VNaT)) with "NaT". unfold fallback_chain.
    change (strptime_HMS pd (str_replace "." ":" "NaT")) with (@None timestamp).
    change (strptime_HM (str_replace "." ":" "NaT")) with (@None timestamp).
    by rewrite Hnat.
  - cbn [py_str plain_time_cell] in *. unfold fallback_chain.
    by rewrite whole_second_round_trip.
Qed.

Lemma reclean_Time pd df st :
  (forall column, infer_datetime pd column (VStr "NaT") = None) ->
  getitem (clean_frame pd df) "Time" = Some st ->
  forallb plain_time_cell (cells st) = true ->
  getitem (clean_frame pd (clean_frame pd df)) "Time" = Some st.
Proof.
  intros Hnat Hcol Hplain.
  rewrite (getitem_clean_frame_Time pd (clean_frame pd df)), Hcol.
  cbn [fmap option_fmap option_map]. f_equal.
  assert (Hobj : dtype_of st = object).
  { rewrite getitem_clean_frame_Time in Hcol.
    destruct (getitem df "Time"); [|done]. by injection Hcol as <-. }
  assert (Hfree : forallb (fun v => negb (eq_num sentinel v)) (cells st) = true).
  { apply forallb_Forall_true in Hplain.
    induction Hplain as [|v l Hv Hl IH]; simpl; [done|].
    rewrite IH, andb_true_r. by destruct v. }
  rewrite (series_replace_clean st Hfree).
  rewrite parse_time_strings_chain. unfold dt_time, astype_str.
  rewrite !map_map. destruct st as [d l]. cbn [dtype_of cells] in *. subst d.
  f_equal. apply map_id_on. eapply Forall_impl;
    [exact (forallb_Forall_true _ _ Hplain)|].
  cbn beta. intros v Hv. by apply plain_cell_stable.
Qed.

(** X8. The Time column is stable under cleaning again when its cells are
    times of day in whole seconds or NaT (what the two strict parses
    produce) and the inference takes the text "NaT" for a missing value: a
    time prints as HH:MM:SS, which the first strict parse reads back,
    whatever the inference would make of it. *)
Theorem time_column_stable pd df st
    (Hnat : forall column, infer_datetime pd column (VStr "NaT") = None)
    (Hcol : getitem (clean_frame pd df) "Time" = Some st)
    (Hplain : forallb plain_time_cell (cells st) = true) :
  getitem (clean_frame pd (clean_frame pd df)) "Time" = Some st /\
  (forall column t, whole_second t = true ->
             fallback_chain pd column (strip (time_str t)) = Some (strptime_date t)).
Proof.
  split; [by apply reclean_Time|].
  intros column t Ht. unfold fallback_chain. by rewrite whole_second_round_trip.
Qed.

Lemma time_column_stable_witness :
  getitem (clean_frame reference_pd (clean_frame reference_pd dated_frame))
          "Time" =
  Some (mkSeries object [VTime six_pm; VNaT; VTime (Time 19 0 0 0)]).
Proof.
  apply (time_column_stable reference_pd dated_frame); reflexivity.
Defined.

(** *** Frames with the same columns *)

Lemma columns_eq (cols cols' : list (string * Series)) :
  NoDup cols.*1 -> cols'.*1 = cols.*1 ->
  (forall name, assoc name cols' = assoc name cols) ->
  cols' = cols.
Proof.
  revert cols'. induction cols as [|[n x] r IH]; intros cols' Hnd Hnames Hlook.
  - by destruct cols'.
  - destruct cols' as [|[n' x'] r']; [done|].
    rewrite !fmap_cons in Hnames. cbn [fst] in Hnames.
    injection Hnames as -> Hr. rewrite fmap_cons in Hnd. cbn [fst] in Hnd.
    apply NoDup_cons in Hnd as [Hn Hnd].
    pose proof (Hlook n) as Hx. simpl in Hx. rewrite !decide_True in Hx by done.
    injection Hx as ->. f_equal. apply IH; [done|done|].
    intros name. destruct (decide (n = name)) as [<-|Hne].
    + rewrite (proj2 (assoc_None_names n r) Hn).
      apply assoc_None_names. by rewrite Hr.
    + specialize (Hlook name). simpl in Hlook. by rewrite !decide_False in Hlook.
Qed.

Lemma append_name_in name names : name ∈ names -> append_name name names = names.
Proof. intros H. unfold append_name. by rewrite decide_True. Qed.

Lemma append_name_mono name other names :
  other ∈ names -> other ∈ append_name name names.
Proof.
  intros H. unfold append_name. case_decide; [done|]. apply elem_of_app. by left.
Qed.

Lemma append_name_NoDup name names : NoDup names -> NoDup (append_name name names).
Proof.
  intros H. unfold append_name. case_decide as Hin; [done|].
  apply NoDup_app. split; [done|]. split; [|apply NoDup_singleton].
  intros x Hx ->%list_elem_of_singleton. done.
Qed.

Lemma clean_frame_names pd df :
  (columns (clean_frame pd df)).*1 =
  append_name "Datetime" (append_name "DateTime" (columns df).*1).
Proof.
  unfold clean_frame. rewrite (proj1 (coerce_numeric_names _ _)).
  destruct (derive_datetime_column pd (parsed_frame pd df)) as (s & Hs & _).
  unfold parsed_frame in Hs. erewrite names_alias_datetime by exact Hs.
  rewrite names_derive_datetime. f_equal. f_equal. apply names_parsed_frame.
Qed.

Lemma getitem_clean_frame_other pd df name :
  name ∉ numeric_columns ->
  name ∉ ["Date"; "Time"; "DateTime"; "Datetime"] ->
  getitem (clean_frame pd df) name = series_replace sentinel <$> getitem df name.
Proof.
  intros Hnum Hsp.
  assert (Hne : forall other, other ∈ ["Date"; "Time"; "DateTime"; "Datetime"] ->
                              other <> name) by (by intros other Hin ->).
  rewrite getitem_clean_frame_keep;
    [|done|apply Hne; set_solver|apply Hne; set_solver].
  unfold parsed_frame.
  rewrite getitem_parse_time, decide_False by (apply Hne; set_solver).
  rewrite getitem_parse_date, decide_False by (apply Hne; set_solver).
  apply getitem_df_replace.
Qed.

(** The texts handed to the combined parse depend on the Date and Time
    cells only. *)
Lemma requests_of_cells d :
  datetime_requests d =
  let date := default [] (cells <$> getitem d "Date") in
  let time := default [] (cells <$> getitem d "Time") in
  zip_with (fun d t => (d.1, str_add (str_add (dt_strftime d.2) (VStr " "))
                                     (VStr (py_str t.2))))
    (loc_get (zip_with andb (map notna date) (map notna time)) date)
    (loc_get (zip_with andb (map notna date) (map notna time)) time).
Proof.
  unfold datetime_requests, combined_strings.
  destruct (getitem d "Date") as [date|]; [|done].
  destruct (getitem d "Time") as [time|]; [done|]. cbn.
  by destruct (map notna (cells date)).
Qed.

Lemma cells_of_cell_at d1 d2 name :
  (forall i, cell_at d1 name i = cell_at d2 name i) ->
  default [] (cells <$> getitem d1 name) = default [] (cells <$> getitem d2 name).
Proof.
  intros H. apply list_eq. intros i. specialize (H i). unfold cell_at in H.
  destruct (getitem d1 name), (getitem d2 name); cbn in *;
    rewrite ?lookup_nil; done.
Qed.

Lemma datetime_requests_ext d1 d2 :
  (forall i, cell_at d1 "Date" i = cell_at d2 "Date" i) ->
  (forall i, cell_at d1 "Time" i = cell_at d2 "Time" i) ->
  datetime_requests d1 = datetime_requests d2.
Proof.
  intros Hd Ht. rewrite !requests_of_cells. cbv zeta.
  by rewrite (cells_of_cell_at d1 d2 "Date" Hd), (cells_of_cell_at d1 d2 "Time" Ht).
Qed.

Lemma derive_datetime_ext pd d1 d2 :
  nrows d1 = nrows d2 ->
  (forall i, cell_at d1 "Date" i = cell_at d2 "Date" i) ->
  (forall i, cell_at d1 "Time" i = cell_at d2 "Time" i) ->
  getitem (derive_datetime pd d1) "DateTime" =
  getitem (derive_datetime pd d2) "DateTime".
Proof.
  intros Hn Hd Ht.
  destruct (derive_datetime_column pd d1) as ([t1 l1] & -> & Ht1 & Hl1 & Hr1).
  destruct (derive_datetime_column pd d2) as ([t2 l2] & -> & Ht2 & Hl2 & Hr2).
  cbn [dtype_of cells] in *. subst t1 t2. do 2 f_equal.
  apply list_eq. intros i. destruct (decide (i < nrows d1)%nat) as [Hi|Hi].
  - rewrite Hr1, Hr2 by lia. unfold combined_column.
    by rewrite Hd, Ht, (datetime_requests_ext d1 d2 Hd Ht).
  - rewrite !lookup_ge_None_2; [done|lia|lia].
Qed.

Lemma frame_ext (a b : DataFrame) :
  nrows a = nrows b -> NoDup (columns b).*1 ->
  (columns a).*1 = (columns b).*1 ->
  (forall name, getitem a name = getitem b name) ->
  a = b.
Proof.
  destruct a as [n c], b as [n' c']. unfold getitem. cbn [nrows columns].
  intros -> Hdup Hsame Hlook. f_equal. by apply columns_eq.
Qed.

Lemma no_sentinel_cells l :
  existsb (eq_num sentinel) l = false ->
  forallb (fun v => negb (eq_num sentinel v)) l = true.
Proof.
  induction l as [|v l IH]; cbn [existsb forallb]; [reflexivity|].
  intros H. apply orb_false_iff in H as [-> Hl]. by rewrite IH.
Qed.

(** A frame [X] that stands to [df] as the cleaned frame does: the lemmas
    below use only these facts of it. *)
Section Recleaning.

Variable pd : pandas.
Variables df X : DataFrame.

Hypothesis Hnames : NoDup (columns df).*1.
Hypothesis HnX : (columns X).*1 =
  append_name "Datetime" (append_name "DateTime" (columns df).*1).
Hypothesis Hrows : nrows X = nrows df.
Hypothesis HDate : getitem (clean_frame pd X) "Date" = getitem X "Date".
Hypothesis HTime : getitem (clean_frame pd X) "Time" = getitem X "Time".
Hypothesis Hkeep_Date : forall i,
  cell_at X "Date" i = cell_at (parsed_frame pd df) "Date" i.
Hypothesis Hkeep_Time : forall i,
  cell_at X "Time" i = cell_at (parsed_frame pd df) "Time" i.
Hypothesis Hnum : forall name, name ∈ numeric_columns ->
  getitem X name = coerced pd <$> (series_replace sentinel <$> getitem df name).
Hypothesis HDT : getitem X "DateTime" =
  getitem (derive_datetime pd (parsed_frame pd df)) "DateTime".
Hypothesis Hal : getitem X "Datetime" =
  getitem (derive_datetime pd (parsed_frame pd df)) "DateTime".
Hypothesis Hoth : forall name, name ∉ numeric_columns ->
  name ∉ ["Date"; "Time"; "DateTime"; "Datetime"] ->
  getitem X name = series_replace sentinel <$> getitem df name.
Hypothesis Hfree : sentinel_free X = true.

Lemma reclean_names : (columns (clean_frame pd X)).*1 = (columns X).*1.
Proof.
  rewrite clean_frame_names.
  rewrite (append_name_in "DateTime")
    by (rewrite HnX; apply append_name_mono, append_name_elem).
  rewrite append_name_in; [reflexivity|]. rewrite HnX. apply append_name_elem.
Qed.

Lemma reclean_derived :
  getitem (derive_datetime pd (parsed_frame pd X)) "DateTime" =
  getitem (derive_datetime pd (parsed_frame pd df)) "DateTime".
Proof.
  apply derive_datetime_ext.
  - rewrite !nrows_parsed_frame. exact Hrows.
  - intros i. rewrite <- Hkeep_Date.
    rewrite <- cell_at_clean_frame_keep by (not_numeric || discriminate).
    unfold cell_at. rewrite HDate. reflexivity.
  - intros i. rewrite <- Hkeep_Time.
    rewrite <- cell_at_clean_frame_keep by (not_numeric || discriminate).
    unfold cell_at. rewrite HTime. reflexivity.
Qed.

Lemma reclean_numeric name :
  name ∈ numeric_columns ->
  getitem (clean_frame pd X) name = getitem X name.
Proof.
  intros Hin. rewrite getitem_clean_frame_numeric by exact Hin.
  pose proof (Hnum name Hin) as HX.
  destruct (getitem X name) as [C|] eqn:EC; [|reflexivity].
  cbn [fmap option_fmap option_map]. f_equal.
  assert (Hno : forallb (fun v => negb (eq_num sentinel v)) (cells C) = true).
  { apply no_sentinel_cells.
    unfold sentinel_free in Hfree. rewrite List.forallb_forall in Hfree.
    specialize (Hfree name (proj1 (list_elem_of_In _ _) Hin)).
    unfold holds_sentinel in Hfree. rewrite EC in Hfree.
    by apply negb_true_iff in Hfree. }
  rewrite (series_replace_clean C Hno).
  destruct (getitem df name) as [s|]; [|discriminate].
  cbn [fmap option_fmap option_map] in HX. injection HX as HC.
  rewrite HC. apply coercion_idempotent_cells.
Qed.

Lemma reclean_lookup name :
  getitem (clean_frame pd X) name = getitem X name.
Proof.
  destruct (decide (name ∈ numeric_columns)) as [Hin|Hin];
    [by apply reclean_numeric|].
  destruct (decide (name ∈ ["Date"; "Time"; "DateTime"; "Datetime"])) as [Hsp|Hsp].
  - apply elem_of_cons in Hsp as [->|Hsp]; [exact HDate|].
    apply elem_of_cons in Hsp as [->|Hsp]; [exact HTime|].
    apply elem_of_cons in Hsp as [->|Hsp].
    + rewrite getitem_clean_frame_DateTime, HDT. exact reclean_derived.
    + apply list_elem_of_singleton in Hsp as ->.
      rewrite getitem_clean_frame_alias, Hal. exact reclean_derived.
  - rewrite getitem_clean_frame_other by assumption.
    rewrite (Hoth name) by assumption.
    destruct (getitem df name) as [s|]; [|reflexivity].
    cbn [fmap option_fmap option_map]. by rewrite series_replace_idempotent.
Qed.

Lemma reclean_frame : clean_frame pd X = X.
Proof.
  apply frame_ext.
  - apply nrows_clean_frame.
  - rewrite HnX. do 2 apply append_name_NoDup. exact Hnames.
  - exact reclean_names.
  - exact reclean_lookup.
Qed.

End Recleaning.

Lemma reclean_Time_column pd df :
  (forall column, infer_datetime pd column (VStr "NaT") = None) ->
  plain_times (clean_frame pd df) = true ->
  getitem (clean_frame pd (clean_frame pd df)) "Time" =
  getitem (clean_frame pd df) "Time".
Proof.
  intros Hnat.
  pose proof (fun st => reclean_Time pd df st Hnat) as Hsome.
  pose proof (getitem_clean_frame_Time pd (clean_frame pd df)) as Hnone.
  revert Hsome Hnone. generalize (clean_frame pd df) as X.
  intros X Hsome Hnone Htimes. unfold plain_times in Htimes.
  destruct (getitem X "Time") as [st|].
  - apply Hsome; [reflexivity|exact Htimes].
  - exact Hnone.
Qed.

(** X9. Cleaning a cleaned frame changes nothing, provided the first run
    left no sentinel in a measurement column (which it does when a sentinel
    was held as text), the numbers it left in the measurement columns are
    ones a decimal stands for exactly (at most 15 significant digits,
    printed without an exponent, or an infinity or NaN), the Time cells are
    whole-second times or NaT, the inference takes "NaT" for a missing value
    in every column and the column names are distinct: every column, its
    dtype and each of its cells are the same after the second run. *)
Theorem recleaning_is_identity pd df
    (Hnames : NoDup (columns df).*1)
    (Hnat : forall column, infer_datetime pd column (VStr "NaT") = None)
    (Htimes : plain_times (clean_frame pd df) = true)
    (Hfree : sentinel_free (clean_frame pd df) = true)
    (Hexact : exact_numbers (clean_frame pd df) = true) :
  clean_frame pd (clean_frame pd df) = clean_frame pd df.
Proof.
  apply (reclean_frame pd df).
  - exact Hnames.
  - apply clean_frame_names.
  - apply nrows_clean_frame.
  - apply reclean_Date.
  - by apply reclean_Time_column.
  - intros i. apply cell_at_clean_frame_keep; (not_numeric || discriminate).
  - intros i. apply cell_at_clean_frame_keep; (not_numeric || discriminate).
  - apply getitem_clean_frame_numeric.
  - apply getitem_clean_frame_DateTime.
  - apply getitem_clean_frame_alias.
  - apply getitem_clean_frame_other.
  - exact Hfree.
Qed.

Lemma recleaning_is_identity_witness :
  clean_frame reference_pd (clean_frame reference_pd dated_frame) =
  clean_frame reference_pd dated_frame.
Proof.
  apply (recleaning_is_identity reference_pd dated_frame).
  - apply (bool_decide_eq_true_1 (NoDup _)). vm_compute. reflexivity.
  - reflexivity.
  - vm_compute. reflexivity.
  - vm_compute. reflexivity.
  - vm_compute. reflexivity.
Defined.

(** *** Loading: the columns that survive *)

Lemma all_null_has_value s : negb (forallb isna (cells s)) = has_value s.
Proof.
  unfold has_value. induction (cells s) as [|v l IH]; [done|].
  cbn [forallb existsb]. rewrite negb_andb, IH. done.
Qed.

Lemma dropna_columns_elem d c :
  c ∈ columns (dropna_columns d) <-> c ∈ columns d /\ has_value c.2 = true.
Proof.
  unfold dropna_columns. cbn [columns]. rewrite list_elem_of_filter.
  rewrite all_null_has_value. tauto.
Qed.

Lemma dropna_columns_idempotent d :
  dropna_columns (dropna_columns d) = dropna_columns d.
Proof.
  unfold dropna_columns. cbn [nrows columns]. f_equal.
  by apply list_filter_filter_r.
Qed.

Lemma load_data_some read_csv path w r w' :
  load_data read_csv path w = (Ok (Some r), w') ->
  exists d, read_csv path ";" = Ok d /\ frames w' !! r = Some (dropna_columns d).
Proof.
  destruct (read_csv path ";") as [d|e] eqn:E.
  - rewrite (load_data_ok _ _ _ _ E). intros [= <- <-].
    exists d. split; [done|]. cbn [frames]. apply lookup_insert_eq.
  - destruct (is_Exception e) eqn:He.
    + by rewrite (load_data_error _ _ _ _ E He).
    + assert (is_FileNotFoundError e = false)
        by (unfold is_Exception, is_FileNotFoundError in *; by destruct (exn_cls e)).
      by rewrite (load_data_reraises _ _ _ _ E).
Qed.

(** X10. The frame that [load_data] returns has no empty column: it keeps,
    in their order and with their cells, exactly the columns of the file
    that hold at least one value, so the all-null columns that trailing
    separators produce are gone, and dropping once more would change
    nothing.  The number of rows is that of the file. *)
Theorem loaded_frame_has_no_empty_column read_csv path w r w'
    (Hrun : load_data read_csv path w = (Ok (Some r), w')) :
  exists d d',
    read_csv path ";" = Ok d /\ frames w' !! r = Some d' /\
    nrows d' = nrows d /\
    columns d' `sublist_of` columns d /\
    (forall c, c ∈ columns d' <-> c ∈ columns d /\ has_value c.2 = true) /\
    dropna_columns d' = d'.
Proof.
  apply load_data_some in Hrun as (d & Hread & Hr).
  exists d, (dropna_columns d). split; [done|]. split; [done|].
  split; [done|]. split; [apply sublist_filter|].
  split; [apply dropna_columns_elem|apply dropna_columns_idempotent].
Qed.

Lemma loaded_frame_has_no_empty_column_witness :
  exists r w' d',
    load_data
      (fun _ _ =>
         Ok (mkFrame 2 [("CO(GT)", mkSeries object [VStr "2,6"; VStr "2"]);
                        ("Unnamed: 15", mkSeries float64 [VNaN; VNaN])]))
      "data/AirQualityUCI.csv" (World ∅ []) = (Ok (Some r), w') /\
    frames w' !! r = Some d' /\ dropna_columns d' = d'.
Proof.
  pose proof (load_data_ok
                (fun _ _ =>
                   Ok (mkFrame 2 [("CO(GT)", mkSeries object [VStr "2,6"; VStr "2"]);
                                  ("Unnamed: 15", mkSeries float64 [VNaN; VNaN])]))
                "data/AirQualityUCI.csv" (World ∅ []) _ eq_refl) as Hrun.
  cbv zeta in Hrun.
  destruct (loaded_frame_has_no_empty_column _ _ _ _ _ Hrun)
    as (d & d' & _ & Hr & _ & _ & _ & Hidem).
  eexists _, _, d'. split; [exact Hrun|]. split; [exact Hr|exact Hidem].
Defined.

(** *** The date-range filter: what it raises *)

Lemma keeps_frames_refl w : keeps_frames w w.
Proof. by intros q x. Qed.

Lemma keeps_frames_trans w1 w2 w3 :
  keeps_frames w1 w2 -> keeps_frames w2 w3 -> keeps_frames w1 w3.
Proof. intros H1 H2 q x Hq. by apply H2, H1. Qed.

Lemma allocates_keeps w r d w' : allocates w r d w' -> keeps_frames w w'.
Proof. intros Ha q x Hq. by eapply allocates_old. Qed.

Lemma getitem_ref_run r w df name s :
  frames w !! r = Some df -> getitem df name = Some s ->
  getitem_ref r name w = (Ok s, w).
Proof.
  intros Hr Hs. unfold getitem_ref.
  erewrite bind_run by (unfold deref; by rewrite Hr). by rewrite Hs.
Qed.

Lemma getitem_ref_missing r w df name :
  frames w !! r = Some df -> getitem df name = None ->
  getitem_ref r name w = (Raise (Exn KeyError name), w).
Proof.
  intros Hr Hs. unfold getitem_ref.
  erewrite bind_run by (unfold deref; by rewrite Hr). by rewrite Hs.
Qed.

Lemma filter_rows_missing pd test bound r w df :
  frames w !! r = Some df -> getitem df "Date" = None ->
  filter_rows pd test bound r w = (Raise (Exn KeyError "Date"), w).
Proof.
  intros Hr Hs. unfold filter_rows.
  by erewrite bind_raise by (by eapply getitem_ref_missing).
Qed.

Lemma filter_rows_unparseable pd test bound r w df date :
  frames w !! r = Some df -> getitem df "Date" = Some date ->
  scalar_datetime pd bound = None ->
  exists e, filter_rows pd test bound r w = (Raise e, w) /\
            exn_cls e = ValueError.
Proof.
  intros Hr Hs Hb. unfold filter_rows.
  erewrite bind_run by (by eapply getitem_ref_run).
  erewrite bind_raise by (unfold to_datetime_scalar; rewrite Hb; reflexivity).
  eauto.
Qed.

Lemma filter_rows_text pd test bound r w df date b :
  frames w !! r = Some df -> getitem df "Date" = Some date ->
  scalar_datetime pd bound = Some b ->
  (exists i x, cells date !! i = Some (VStr x)) ->
  exists e, filter_rows pd test bound r w = (Raise e, w) /\
            exn_cls e = TypeError.
Proof.
  intros Hr Hs Hb (i & x & Hi). unfold filter_rows.
  erewrite bind_run by (by eapply getitem_ref_run).
  erewrite bind_run by (unfold to_datetime_scalar; by rewrite Hb).
  assert (Hnone : mapM (compare_cell (test b)) (cells date) = None).
  { apply mapM_None, Exists_exists. exists (VStr x).
    split; [by eapply list_elem_of_lookup_2|done]. }
  erewrite bind_raise by (unfold lift, compare_series; rewrite Hnone; reflexivity).
  eauto.
Qed.

Lemma parsed_bound_None pd s :
  parsed_bound pd s = None ->
  exists x, truthy s = Some x /\ scalar_datetime pd x = None.
Proof.
  unfold parsed_bound. destruct (truthy s) as [x|]; [|done].
  destruct (scalar_datetime pd x) eqn:E; [done|]. eauto.
Qed.

(** X11. The filter needs the Date column only when a bound is given: on a
    frame without that column it returns a copy of the frame if both bounds
    are absent or empty, and raises [KeyError: 'Date'] as soon as one bound
    is given, before that bound is even parsed.  Either way no frame that
    existed is changed. *)
Theorem filter_without_date_column pd w r df start_date end_date
    (Harg : frames w !! r = Some df)
    (Hmissing : getitem df "Date" = None) :
  exists w',
    keeps_frames w w' /\ stdout w' = stdout w /\
    match truthy start_date, truthy end_date with
    | None, None =>
        exists r', filter_by_date_range pd (Some r) start_date end_date w =
                     (Ok (Some r'), w') /\
                   (r' ∉ dom (frames w)) /\ frames w' !! r' = Some df
    | _, _ =>
        filter_by_date_range pd (Some r) start_date end_date w =
          (Raise (Exn KeyError "Date"), w')
    end.
Proof.
  destruct (copy_allocates r w df Harg) as (r1 & w1 & Hcopy & Hw1).
  pose proof (allocates_new _ _ _ _ Hw1) as Hr1.
  exists w1. split; [by eapply allocates_keeps|]. split; [apply Hw1|].
  unfold filter_by_date_range. erewrite bind_run by exact Hcopy.
  destruct (truthy start_date) as [s|].
  - erewrite bind_raise by (by eapply filter_rows_missing).
    by destruct (truthy end_date).
  - erewrite bind_run by reflexivity.
    destruct (truthy end_date) as [s|].
    + by erewrite bind_raise by (by eapply filter_rows_missing).
    + erewrite bind_run by reflexivity.
      exists r1. split; [done|]. split; [apply Hw1|done].
Qed.

Lemma filter_without_date_column_witness :
  exists w',
    filter_by_date_range reference_pd (Some 1%positive) (Some "2004-03-10") None
      (World {[1%positive := comma_frame]} []) = (Raise (Exn KeyError "Date"), w').
Proof.
  destruct (filter_without_date_column reference_pd
              (World {[1%positive := comma_frame]} []) 1%positive comma_frame
              (Some "2004-03-10") None) as (w' & _ & _ & Hrun);
    [reflexivity|reflexivity|].
  exists w'. exact Hrun.
Defined.

(** X12. A bound that is given and cannot be parsed makes the filter raise
    [ValueError], on a frame whose Date column holds timestamps or NaT; the
    frame given, and every other frame that existed, is left as it was. *)
Theorem unparseable_bound_raises pd w r df date start_date end_date
    (Harg : frames w !! r = Some df)
    (Hdate : getitem df "Date" = Some date)
    (Hcells : forallb datetime_like (cells date) = true)
    (Hbad : parsed_bound pd start_date = None \/
            parsed_bound pd end_date = None) :
  exists e w',
    filter_by_date_range pd (Some r) start_date end_date w = (Raise e, w') /\
    exn_cls e = ValueError /\
    keeps_frames w w' /\ stdout w' = stdout w.
Proof.
  apply forallb_Forall_true in Hcells.
  destruct (copy_allocates r w df Harg) as (r1 & w1 & Hcopy & Hw1).
  pose proof (allocates_new _ _ _ _ Hw1) as Hr1.
  pose proof (allocates_keeps _ _ _ _ Hw1) as Hk1.
  unfold filter_by_date_range. erewrite bind_run by exact Hcopy.
  destruct (parsed_bound pd start_date) as [lo|] eqn:Hlo.
  - destruct Hbad as [|Hhi]; [done|].
    apply parsed_bound_None in Hhi as (y & He & Hy). rewrite He.
    destruct (parsed_bound_cases _ _ _ Hlo) as [[Hs ->]|(x & a & Hs & Hx & ->)];
      rewrite Hs.
    + erewrite bind_run by reflexivity.
      destruct (filter_rows_unparseable pd (fun b ts => ts_leb ts b) y r1 w1
                  df date Hr1 Hdate Hy) as (e & Hrun & He').
      erewrite bind_raise by exact Hrun.
      exists e, w1. split; [done|]. split; [done|]. split; [done|apply Hw1].
    + destruct (filter_rows_allocates pd (fun b ts => ts_leb b ts) x r1 w1 df
                  date a Hr1 Hdate Hcells Hx) as (r2 & w2 & Hrun & Hw2).
      erewrite bind_run by exact Hrun.
      pose proof (allocates_new _ _ _ _ Hw2) as Hr2.
      destruct (filter_rows_unparseable pd (fun b ts => ts_leb ts b) y r2 w2
                  _ _ Hr2 ltac:(by rewrite getitem_boolean_index, Hdate) Hy)
        as (e & Hrun2 & He').
      erewrite bind_raise by exact Hrun2.
      exists e, w2. split; [done|]. split; [done|]. split.
      * eapply keeps_frames_trans; [exact Hk1|by eapply allocates_keeps].
      * destruct Hw1 as (_ & _ & <-). apply Hw2.
  - apply parsed_bound_None in Hlo as (x & Hs & Hx). rewrite Hs.
    destruct (filter_rows_unparseable pd (fun b ts => ts_leb b ts) x r1 w1
                df date Hr1 Hdate Hx) as (e & Hrun & He').
    erewrite bind_raise by exact Hrun.
    exists e, w1. split; [done|]. split; [done|]. split; [done|apply Hw1].
Qed.

Lemma unparseable_bound_raises_witness :
  exists e w',
    filter_by_date_range reference_pd (Some 1%positive)
      (Some "2004-03-10") (Some "next week")
      (World {[1%positive := range_frame]} []) = (Raise e, w') /\
    exn_cls e = ValueError.
Proof.
  destruct (unparseable_bound_raises reference_pd
              (World {[1%positive := range_frame]} []) 1%positive range_frame
              (mkSeries datetime64
                 [VTimestamp (march 10); VTimestamp (march 11); VNaT;
                  VTimestamp (march 12)])
              (Some "2004-03-10") (Some "next week"))
    as (e & w' & Hrun & He & _);
    [reflexivity|reflexivity|reflexivity|right; reflexivity|].
  exists e, w'. split; [exact Hrun|exact He].
Defined.

(** X13. The filter does not work on a frame that was not cleaned: when the
    Date column holds a text cell and a bound is given, comparing the column
    with the parsed bound raises [TypeError]; no frame that existed is
    changed and no filtered frame is returned. *)
Theorem filter_on_text_dates_raises pd w r df date start_date end_date lo hi
    (Harg : frames w !! r = Some df)
    (Hdate : getitem df "Date" = Some date)
    (Htext : exists i x, cells date !! i = Some (VStr x))
    (Hlo : parsed_bound pd start_date = Some lo)
    (Hhi : parsed_bound pd end_date = Some hi)
    (Hgiven : lo <> None \/ hi <> None) :
  exists e w',
    filter_by_date_range pd (Some r) start_date end_date w = (Raise e, w') /\
    exn_cls e = TypeError /\
    keeps_frames w w' /\ stdout w' = stdout w.
Proof.
  destruct (copy_allocates r w df Harg) as (r1 & w1 & Hcopy & Hw1).
  pose proof (allocates_new _ _ _ _ Hw1) as Hr1.
  pose proof (allocates_keeps _ _ _ _ Hw1) as Hk1.
  unfold filter_by_date_range. erewrite bind_run by exact Hcopy.
  destruct (parsed_bound_cases _ _ _ Hlo) as [[Hs ->]|(x & a & Hs & Hx & ->)];
    rewrite Hs.
  - erewrite bind_run by reflexivity.
    destruct (parsed_bound_cases _ _ _ Hhi) as [[He ->]|(y & b & He & Hy & ->)];
      [by destruct Hgiven|]. rewrite He.
    destruct (filter_rows_text pd (fun b ts => ts_leb ts b) y r1 w1 df date b
                Hr1 Hdate Hy Htext) as (e & Hrun & He').
    erewrite bind_raise by exact Hrun.
    exists e, w1. split; [done|]. split; [done|]. split; [done|apply Hw1].
  - destruct (filter_rows_text pd (fun b ts => ts_leb b ts) x r1 w1 df date a
                Hr1 Hdate Hx Htext) as (e & Hrun & He').
    erewrite bind_raise by exact Hrun.
    exists e, w1. split; [done|]. split; [done|]. split; [done|apply Hw1].
Qed.

Lemma filter_on_text_dates_raises_witness :
  exists e w',
    filter_by_date_range reference_pd (Some 1%positive)
      (Some "2004-03-10") None
      (World {[1%positive := dated_frame]} []) = (Raise e, w') /\
    exn_cls e = TypeError.
Proof.
  destruct (filter_on_text_dates_raises reference_pd
              (World {[1%positive := dated_frame]} []) 1%positive dated_frame
              (mkSeries object [VStr "3/10/2004"; VStr "3/11/2004"; VStr "bad"])
              (Some "2004-03-10") None (Some (march 10)) None)
    as (e & w' & Hrun & He & _);
    [reflexivity|reflexivity|by exists 0%nat, "3/10/2004"
    |reflexivity|reflexivity|by left|].
  exists e, w'. split; [exact Hrun|exact He].
Defined.

(** *** The summary *)

(** X14. [get_data_summary] needs the Date column: on a frame without it
    the call raises [KeyError: 'Date'], whatever else the frame holds, and
    leaves the store and the output as they were. *)
Theorem summary_needs_date_column series_min series_max percentage w r df
    (Harg : frames w !! r = Some df)
    (Hmissing : getitem df "Date" = None) :
  get_data_summary series_min series_max percentage (Some r) w =
    (Raise (Exn KeyError "Date"), w).
Proof.
  unfold get_data_summary.
  erewrite bind_run by (unfold deref; by rewrite Harg).
  by erewrite bind_raise by (by eapply getitem_ref_missing).
Qed.

Lemma summary_needs_date_column_witness :
  get_data_summary (fun _ => Ok VNaT) (fun _ => Ok VNaT) (fun _ _ => VNaN)
    (Some 1%positive) (World {[1%positive := comma_frame]} []) =
    (Raise (Exn KeyError "Date"), World {[1%positive := comma_frame]} []).
Proof.
  apply (summary_needs_date_column (fun _ => Ok VNaT) (fun _ => Ok VNaT)
           (fun _ _ => VNaN) (World {[1%positive := comma_frame]} [])
           1%positive comma_frame); reflexivity.
Defined.

(** *** Numeric columns, as the summary and the daily averages pick them *)

Lemma assoc_elem name cols s : assoc name cols = Some s -> (name, s) ∈ cols.
Proof.
  induction cols as [|[n x] l IH]; simpl; [done|].
  destruct (decide (n = name)) as [->|].
  - intros [= ->]. apply list_elem_of_here.
  - intros H. apply list_elem_of_further. auto.
Qed.

Lemma elem_assoc name cols s :
  NoDup cols.*1 -> (name, s) ∈ cols -> assoc name cols = Some s.
Proof.
  induction cols as [|[n x] l IH]; simpl; intros Hnd Hin.
  - by apply elem_of_nil in Hin.
  - apply NoDup_cons in Hnd as [Hn Hnd].
    apply elem_of_cons in Hin as [[= <- <-]|Hin].
    + by rewrite decide_True.
    + rewrite decide_False; [auto|].
      intros ->. apply Hn. apply list_elem_of_fmap. by exists (name, s).
Qed.

Lemma getitem_elem d name s : getitem d name = Some s -> (name, s) ∈ columns d.
Proof. apply assoc_elem. Qed.

Lemma elem_getitem d name s :
  NoDup (columns d).*1 -> (name, s) ∈ columns d -> getitem d name = Some s.
Proof. apply elem_assoc. Qed.

Lemma number_columns_elem d name :
  name ∈ number_columns d <->
  exists s, (name, s) ∈ columns d /\ numeric_dtype (dtype_of s) = true.
Proof.
  unfold number_columns. rewrite list_elem_of_omap. split.
  - intros ([n s] & Hin & Hs). cbn [fst snd] in Hs.
    destruct (dtype_of s) eqn:E; try done; injection Hs as ->;
      exists s; by rewrite E.
  - intros (s & Hin & Hs). exists (name, s). split; [done|]. cbn [fst snd].
    by destruct (dtype_of s).
Qed.

Lemma special_column_dtype pd df name s :
  name ∈ ["Date"; "Time"; "DateTime"; "Datetime"] ->
  getitem (clean_frame pd df) name = Some s ->
  numeric_dtype (dtype_of s) = false.
Proof.
  intros Hsp Hcol.
  apply elem_of_cons in Hsp as [->|Hsp];
    [|apply elem_of_cons in Hsp as [->|Hsp];
      [|apply elem_of_cons in Hsp as [->|Hsp];
        [|apply list_elem_of_singleton in Hsp as ->]]].
  - rewrite getitem_clean_frame_Date in Hcol.
    destruct (getitem df "Date"); [|done]. by injection Hcol as <-.
  - rewrite getitem_clean_frame_Time in Hcol.
    destruct (getitem df "Time"); [|done]. by injection Hcol as <-.
  - rewrite getitem_clean_frame_DateTime in Hcol.
    by apply derived_column_schema in Hcol as [-> _].
  - rewrite getitem_clean_frame_alias in Hcol.
    by apply derived_column_schema in Hcol as [-> _].
Qed.

(** X15. What [select_dtypes(include=[np.number])] finds in a cleaned
    frame: every measurement column that the frame has, and none of Date,
    Time, DateTime and Datetime.  So the summary lists, and the daily
    averages are taken over, all the measurements and never a date. *)
Theorem cleaned_numeric_columns pd df
    (Hnames : NoDup (columns df).*1) :
  (forall name, name ∈ numeric_columns -> is_Some (getitem df name) ->
                name ∈ number_columns (clean_frame pd df)) /\
  (forall name, name ∈ number_columns (clean_frame pd df) ->
                name ∉ ["Date"; "Time"; "DateTime"; "Datetime"]).
Proof.
  split.
  - intros name Hin [c Hc]. apply number_columns_elem.
    exists (coerced pd (series_replace sentinel c)). split.
    + apply getitem_elem. rewrite getitem_clean_frame_numeric by exact Hin.
      rewrite Hc. reflexivity.
    + unfold coerced. apply to_numeric_schema.
  - intros name (s & Hin & Hs)%number_columns_elem Hsp.
    apply elem_getitem in Hin.
    + rewrite (special_column_dtype _ _ _ _ Hsp Hin) in Hs. discriminate.
    + rewrite clean_frame_names. do 2 apply append_name_NoDup. exact Hnames.
Qed.

Lemma cleaned_numeric_columns_witness :
  "T" ∈ number_columns (clean_frame reference_pd dated_frame) /\
  "Date" ∉ number_columns (clean_frame reference_pd dated_frame).
Proof.
  destruct (cleaned_numeric_columns reference_pd dated_frame) as [Hin Hout].
  - apply (bool_decide_eq_true_1 (NoDup _)). vm_compute. reflexivity.
  - split.
    + apply Hin; [|by eexists]. apply (bool_decide_eq_true_1 (_ ∈ _)).
      vm_compute. reflexivity.
    + intros Hd. apply (Hout _ Hd). apply list_elem_of_here.
Defined.

(** *** The metrics *)

Lemma has_value_dropna s : has_value s = false <-> cells (dropna s) = [].
Proof.
  unfold has_value, dropna. cbn [cells].
  induction (cells s) as [|v l IH]; [done|].
  cbn [existsb]. destruct (notna v) eqn:E.
  - rewrite filter_cons_True by done. done.
  - rewrite filter_cons_False by (by rewrite E). done.
Qed.

Lemma all_values_dropna s : has_value s = true -> all_values (dropna s) = true.
Proof.
  intros Hv. unfold all_values.
  destruct (cells (dropna s)) as [|v l] eqn:E.
  - apply has_value_dropna in E. congruence.
  - rewrite <- E. unfold dropna. cbn [cells].
    apply forallb_forall. intros x Hx%list_elem_of_In.
    by apply list_elem_of_filter in Hx as [Hx _].
Qed.

Section MetricsLemmas.

Variable stat_mean stat_median stat_max stat_min stat_std : Series -> result value.

Lemma metric_step_spec d m0 col name m1 :
  metric_step stat_mean stat_median stat_max stat_min stat_std d m0 (col, name) = Ok m1 ->
  expected_metric (describe stat_mean stat_median stat_max stat_min stat_std) d col (m0 !! name) (m1 !! name) /\
  (forall n, n <> name -> m1 !! n = m0 !! n).
Proof.
  unfold metric_step, expected_metric. cbn [fst snd].
  destruct (getitem d col) as [s|]; [|by intros [= <-]].
  destruct (has_value s) eqn:Hv.
  - destruct (cells (dropna s)) eqn:E;
      [apply has_value_dropna in E; congruence|].
    destruct (describe stat_mean stat_median stat_max stat_min stat_std) as [m|e]; [|done]. cbn [result_bind]. intros [= <-].
    split; [exists m; by rewrite lookup_insert_eq|].
    intros n Hn. by rewrite lookup_insert_ne.
  - apply has_value_dropna in Hv. rewrite Hv. intros [= <-].
    split; [by rewrite lookup_insert_eq|].
    intros n Hn. by rewrite lookup_insert_ne.
Qed.

Lemma metric_loop_spec d entries : forall m0 m,
  NoDup entries.*2 ->
  metric_loop stat_mean stat_median stat_max stat_min stat_std d entries m0 = Ok m ->
  (forall name, name ∉ entries.*2 -> m !! name = m0 !! name) /\
  (forall col name, (col, name) ∈ entries ->
     expected_metric (describe stat_mean stat_median stat_max stat_min stat_std) d col (m0 !! name) (m !! name)).
Proof.
  induction entries as [|[c n] rest IH]; intros m0 m Hnd Hrun.
  - injection Hrun as <-. split; [done|]. by intros col name Hin%elem_of_nil.
  - cbn [metric_loop] in Hrun. rewrite fmap_cons in Hnd. cbn [snd] in Hnd.
    apply NoDup_cons in Hnd as [Hn Hnd].
    destruct (metric_step stat_mean stat_median stat_max stat_min stat_std d m0 (c, n)) as [m1|e] eqn:Hstep; [|done].
    cbn [result_bind] in Hrun.
    apply metric_step_spec in Hstep as [Hhere Hother].
    destruct (IH m1 m Hnd Hrun) as [Hrest Hentries]. split.
    + intros name Hname. rewrite fmap_cons in Hname. cbn [snd] in Hname.
      apply not_elem_of_cons in Hname as [Hne Hname].
      rewrite Hrest by done. by apply Hother.
    + intros col name [[= -> ->]|Hin]%elem_of_cons.
      * by rewrite Hrest.
      * assert (name <> n).
        { intros ->. apply Hn. apply list_elem_of_fmap. by exists (col, n). }
        specialize (Hentries col name Hin). rewrite Hother in Hentries; done.
Qed.

Lemma metric_loop_returns d entries : forall m0,
  (forall s, all_values s = true -> exists m, (describe stat_mean stat_median stat_max stat_min stat_std) s = Ok m) ->
  exists m, metric_loop stat_mean stat_median stat_max stat_min stat_std d entries m0 = Ok m.
Proof.
  intros m0 Hstats. revert m0.
  induction entries as [|[c n] rest IH]; intros m0; [by eexists|].
  cbn [metric_loop]. unfold metric_step. cbn [fst snd].
  destruct (getitem d c) as [s|]; [|apply IH].
  destruct (cells (dropna s)) eqn:E; [apply IH|].
  destruct (Hstats (dropna s)) as [m ->]; [|apply IH].
  apply all_values_dropna. destruct (has_value s) eqn:Hv; [done|].
  apply has_value_dropna in Hv. congruence.
Qed.


End MetricsLemmas.

Lemma metric_loop_ext_on (P : Series -> bool)
    sm smed smax smin sstd sm' smed' smax' smin' sstd' d entries :
  (forall col name s, (col, name) ∈ entries -> getitem d col = Some s ->
     has_value s = true -> P (dropna s) = true) ->
  (forall s, P s = true ->
     sm s = sm' s /\ smed s = smed' s /\ smax s = smax' s /\
     smin s = smin' s /\ sstd s = sstd' s) ->
  forall m0,
    metric_loop sm smed smax smin sstd d entries m0 =
    metric_loop sm' smed' smax' smin' sstd' d entries m0.
Proof.
  intros HP Hsame. induction entries as [|[c n] rest IH]; intros m0; [done|].
  cbn [metric_loop].
  assert (Hstep : metric_step sm smed smax smin sstd d m0 (c, n) =
                  metric_step sm' smed' smax' smin' sstd' d m0 (c, n)).
  { unfold metric_step. cbn [fst snd].
    destruct (getitem d c) as [s|] eqn:Hcol; [|done].
    destruct (cells (dropna s)) eqn:E; [done|].
    assert (Hv : has_value s = true).
    { destruct (has_value s) eqn:Hv; [done|].
      apply has_value_dropna in Hv. congruence. }
    destruct (Hsame _ (HP c n s ltac:(apply list_elem_of_here) Hcol Hv))
      as (H1 & H2 & H3 & H4 & H5).
    unfold describe. by rewrite H1, H2, H3, H4, H5. }
  rewrite Hstep.
  destruct (metric_step sm' smed' smax' smin' sstd' d m0 (c, n)) as [m1|e];
    [|done].
  apply IH. intros col name s Hin. apply (HP col name).
  by apply list_elem_of_further.
Qed.

Lemma columns_to_check_NoDup : NoDup columns_to_check.*2.
Proof. apply (bool_decide_eq_true_1 (NoDup _)). by vm_compute. Qed.

Lemma metrics_run sm smed smax smin sstd w r d :
  frames w !! r = Some d ->
  calculate_air_quality_metrics sm smed smax smin sstd (Some r) w =
  if df_empty d then (Ok ∅, w)
  else (metric_loop sm smed smax smin sstd d columns_to_check ∅, w).
Proof.
  intros Hr. unfold calculate_air_quality_metrics.
  erewrite bind_run by (unfold deref; by rewrite Hr).
  by destruct (df_empty d).
Qed.

(** X16. What the metrics dict holds when [calculate_air_quality_metrics]
    returns it: nothing at all for a frame without rows or without columns;
    otherwise, for each of CO(GT), T, RH and AH, no entry if the frame has
    no such column, the marker 'No valid data available' if the column has
    no value, and the five statistics of its non-null cells if it has; no
    other key is ever set.  The call changes nothing in the store. *)
Theorem metrics_entries sm smed smax smin sstd w r d m w'
    (Harg : frames w !! r = Some d)
    (Hrun : calculate_air_quality_metrics sm smed smax smin sstd (Some r) w =
            (Ok m, w')) :
  w' = w /\
  if df_empty d then m = ∅
  else
    (forall col name, (col, name) ∈ columns_to_check ->
       expected_metric (describe sm smed smax smin sstd) d col None (m !! name)) /\
    (forall name, is_Some (m !! name) -> name ∈ columns_to_check.*2).
Proof.
  rewrite (metrics_run _ _ _ _ _ _ _ _ Harg) in Hrun.
  destruct (df_empty d); [by injection Hrun as <- <-|].
  injection Hrun as Hloop <-. split; [done|].
  destruct (metric_loop_spec _ _ _ _ _ _ _ _ _ columns_to_check_NoDup Hloop)
    as [Hrest Hentries].
  split.
  - intros col name Hin. specialize (Hentries col name Hin).
    by rewrite lookup_empty in Hentries.
  - intros name Hsome.
    destruct (decide (name ∈ columns_to_check.*2)) as [|Hout]; [done|].
    rewrite (Hrest name Hout), lookup_empty in Hsome. by destruct Hsome.
Qed.


(** X18. The statistics are only ever taken on the non-null cells of a
    column that has some: two families of statistics that agree on every
    column without nulls and with at least one cell give the same result
    (the same dict, or the same exception), so nothing depends on what a
    statistic would do on an empty column or on a null. *)
Theorem statistics_see_only_values
    sm smed smax smin sstd sm' smed' smax' smin' sstd' df w
    (Hsame : forall s, all_values s = true ->
       sm s = sm' s /\ smed s = smed' s /\ smax s = smax' s /\
       smin s = smin' s /\ sstd s = sstd' s) :
  calculate_air_quality_metrics sm smed smax smin sstd df w =
  calculate_air_quality_metrics sm' smed' smax' smin' sstd' df w.
Proof.
  destruct df as [r|]; [|done]. unfold calculate_air_quality_metrics.
  unfold mbind, M_bind, bind. destruct (deref r w) as [[d|e] w1]; [|done].
  destruct (df_empty d); [done|]. unfold lift.
  f_equal. apply (metric_loop_ext_on all_values); [|exact Hsame].
  intros col name s _ _. apply all_values_dropna.
Qed.

Lemma metrics_entries_witness :
  exists m w',
    calculate_air_quality_metrics
      (fun s => Ok (VInt (Z.of_nat (length (cells s)))))
      (fun s => Ok (VInt (Z.of_nat (length (cells s)))))
      (fun s => Ok (VInt (Z.of_nat (length (cells s)))))
      (fun s => Ok (VInt (Z.of_nat (length (cells s)))))
      (fun s => Ok (VInt (Z.of_nat (length (cells s)))))
      (Some 1%positive) (World {[1%positive := range_frame]} []) = (Ok m, w') /\
    w' = World {[1%positive := range_frame]} [].
Proof.
  assert (Harg : frames (World {[1%positive := range_frame]} []) !! 1%positive =
                 Some range_frame) by reflexivity.
  pose proof (metrics_run
                (fun s => Ok (VInt (Z.of_nat (length (cells s)))))
                (fun s => Ok (VInt (Z.of_nat (length (cells s)))))
                (fun s => Ok (VInt (Z.of_nat (length (cells s)))))
                (fun s => Ok (VInt (Z.of_nat (length (cells s)))))
                (fun s => Ok (VInt (Z.of_nat (length (cells s)))))
                _ _ _ Harg) as Hrun.
  change (df_empty range_frame) with false in Hrun. cbv iota in Hrun.
  destruct (metric_loop_returns
              (fun s => Ok (VInt (Z.of_nat (length (cells s)))))
              (fun s => Ok (VInt (Z.of_nat (length (cells s)))))
              (fun s => Ok (VInt (Z.of_nat (length (cells s)))))
              (fun s => Ok (VInt (Z.of_nat (length (cells s)))))
              (fun s => Ok (VInt (Z.of_nat (length (cells s)))))
              range_frame columns_to_check ∅) as [m Hm]; [by eexists|].
  rewrite Hm in Hrun.
  exists m, (World {[1%positive := range_frame]} []). split; [exact Hrun|].
  apply (metrics_entries _ _ _ _ _ _ 1%positive range_frame m _ Harg Hrun).
Defined.


Lemma statistics_see_only_values_witness :
  calculate_air_quality_metrics
    (fun s => Ok (VInt (Z.of_nat (length (cells s)))))
    (fun s => Ok (VInt (Z.of_nat (length (cells s)))))
    (fun s => Ok (VInt (Z.of_nat (length (cells s)))))
    (fun s => Ok (VInt (Z.of_nat (length (cells s)))))
    (fun s => Ok (VInt (Z.of_nat (length (cells s)))))
    (Some 1%positive) (World {[1%positive := range_frame]} []) =
  calculate_air_quality_metrics
    (fun s => if all_values s then Ok (VInt (Z.of_nat (length (cells s))))
              else Raise (Exn ValueError "no values"))
    (fun s => Ok (VInt (Z.of_nat (length (cells s)))))
    (fun s => Ok (VInt (Z.of_nat (length (cells s)))))
    (fun s => Ok (VInt (Z.of_nat (length (cells s)))))
    (fun s => Ok (VInt (Z.of_nat (length (cells s)))))
    (Some 1%positive) (World {[1%positive := range_frame]} []).
Proof.
  apply statistics_see_only_values.
  intros s Hs. rewrite Hs. repeat split.
Defined.

(** *** The frame that the date-range filter returns *)

Lemma select_map_filter {A} (p : A -> bool) l :
  select (map p l) l = filter (fun v => p v = true) l.
Proof.
  induction l as [|v l IH]; [done|]. simpl. destruct (p v) eqn:E.
  - rewrite filter_cons_True by done. by rewrite IH.
  - rewrite filter_cons_False by (by rewrite E). done.
Qed.

Lemma length_select {A B} (mask : list bool) : forall (xs : list A) (ys : list B),
  length xs = length ys -> length (select mask xs) = length (select mask ys).
Proof.
  induction mask as [|b mask IH]; intros [|x xs] [|y ys] Hlen; try done.
  simpl in *. destruct b; simpl; auto.
Qed.

Lemma select_sublist {A} (mask : list bool) : forall l : list A,
  select mask l `sublist_of` l.
Proof.
  induction mask as [|b mask IH]; intros [|x l]; simpl;
    try apply sublist_nil_l.
  destruct b; [by apply sublist_skip|by apply sublist_cons].
Qed.

Lemma select_all {A} (mask : list bool) : forall l : list A,
  Forall (fun b => b = true) mask -> length l = length mask ->
  select mask l = l.
Proof.
  induction mask as [|b mask IH]; intros [|x l] Hall Hlen; try done.
  apply Forall_cons in Hall as [-> Hall]. simpl in *. f_equal. apply IH; [done|lia].
Qed.

Lemma boolean_index_all mask df :
  well_formed df = true -> Forall (fun b => b = true) mask ->
  length mask = nrows df ->
  boolean_index mask df = df.
Proof.
  intros Hwf Hall Hlen. apply well_formed_Forall in Hwf.
  unfold boolean_index. destruct df as [n cols]. cbn [nrows columns] in *.
  f_equal.
  - rewrite select_all; [apply length_replicate|done|].
    by rewrite length_replicate.
  - induction Hwf as [|[name [dt l]] cols Hc Hcols IH]; [done|].
    cbn [map fst snd dtype_of cells] in *. rewrite IH. do 3 f_equal.
    apply select_all; [done|lia].
Qed.

Lemma date_filtered_boolean_index lo hi date df :
  well_formed df = true -> getitem df "Date" = Some date ->
  date_filtered lo hi date df =
  boolean_index (map (in_range lo hi) (cells date)) df.
Proof.
  intros Hwf Hdate. unfold date_filtered.
  destruct lo, hi; try done. symmetry. apply boolean_index_all; [done| |].
  - apply Forall_forall. by intros b (v & -> & _)%list_elem_of_fmap.
  - rewrite length_map. by eapply well_formed_getitem.
Qed.

Lemma names_boolean_index mask df :
  (columns (boolean_index mask df)).*1 = (columns df).*1.
Proof.
  unfold boolean_index. cbn [columns].
  induction (columns df) as [|c l IH]; [done|]. cbn. by rewrite IH.
Qed.

Lemma well_formed_boolean_index mask df :
  well_formed df = true -> well_formed (boolean_index mask df) = true.
Proof.
  rewrite !well_formed_Forall. unfold boolean_index. cbn [nrows columns].
  intros Hwf. apply Forall_forall. intros c' Hin.
  apply list_elem_of_fmap in Hin as (c & -> & Hin). cbn [fst snd cells].
  rewrite Forall_forall in Hwf. apply length_select.
  rewrite length_replicate. by apply Hwf.
Qed.

Lemma filter_by_date_range_run pd w r df date start_date end_date lo hi :
  frames w !! r = Some df ->
  getitem df "Date" = Some date ->
  forallb datetime_like (cells date) = true ->
  parsed_bound pd start_date = Some lo ->
  parsed_bound pd end_date = Some hi ->
  exists r' w',
    filter_by_date_range pd (Some r) start_date end_date w = (Ok (Some r'), w') /\
    frames w' !! r' = Some (date_filtered lo hi date df).
Proof.
  intros Harg Hdate Hcells Hlo Hhi.
  apply forallb_Forall_true in Hcells.
  unfold filter_by_date_range.
  destruct (copy_allocates r w df Harg) as (r1 & w1 & Hcopy & Hw1).
  erewrite bind_run by exact Hcopy.
  pose proof (allocates_new _ _ _ _ Hw1) as Hr1.
  destruct (parsed_bound_cases _ _ _ Hlo) as [[Hs ->]|(x & a & Hs & Hx & ->)];
    rewrite Hs.
  - erewrite bind_run by reflexivity.
    destruct (parsed_bound_cases _ _ _ Hhi) as [[He ->]|(y & b & He & Hy & ->)];
      rewrite He.
    + erewrite bind_run by reflexivity. by exists r1, w1.
    + destruct (filter_rows_allocates pd (fun b ts => ts_leb ts b) y r1 w1 df
                  date b Hr1 Hdate Hcells Hy) as (r2 & w2 & Hrun & Hw2).
      erewrite bind_run by exact Hrun.
      exists r2, w2. split; [done|].
      erewrite allocates_new by exact Hw2. unfold date_filtered. do 2 f_equal.
  - destruct (filter_rows_allocates pd (fun b ts => ts_leb b ts) x r1 w1 df
                date a Hr1 Hdate Hcells Hx) as (r2 & w2 & Hrun & Hw2).
    erewrite bind_run by exact Hrun.
    pose proof (allocates_new _ _ _ _ Hw2) as Hr2.
    destruct (parsed_bound_cases _ _ _ Hhi) as [[He ->]|(y & b & He & Hy & ->)];
      rewrite He.
    + erewrite bind_run by reflexivity.
      exists r2, w2. split; [done|].
      rewrite Hr2. unfold date_filtered. do 2 f_equal.
      apply map_ext. intros v. unfold in_range. simpl. by rewrite andb_true_r.
    + set (m1 := map (within (Some a) (fun b ts => ts_leb b ts)) (cells date)) in *.
      assert (Hdate2 : getitem (boolean_index m1 df) "Date" =
                Some (mkSeries (dtype_of date) (select m1 (cells date))))
        by (by rewrite getitem_boolean_index, Hdate).
      destruct (filter_rows_allocates pd (fun b ts => ts_leb ts b) y r2 w2 _
                  _ b Hr2 Hdate2 (Forall_select _ _ _ Hcells) Hy)
        as (r3 & w3 & Hrun3 & Hw3).
      erewrite bind_run by exact Hrun3.
      exists r3, w3. split; [done|].
      erewrite allocates_new by exact Hw3. f_equal.
      cbn [cells]. unfold m1, date_filtered. apply boolean_index_twice.
Qed.

(** X19. The frame that [filter_by_date_range] returns, on a frame with one
    cell per row in every column: it has the columns of the frame given, in
    the same order and with the same dtypes; each column holds the cells of
    the rows kept, in their order; there is one row per Date cell in range;
    and every Date cell it holds is in range, so that no row without a date
    is left once a bound is given. *)
Theorem filtered_frame_shape pd w r df date start_date end_date lo hi
    (Harg : frames w !! r = Some df)
    (Hdate : getitem df "Date" = Some date)
    (Hcells : forallb datetime_like (cells date) = true)
    (Hlo : parsed_bound pd start_date = Some lo)
    (Hhi : parsed_bound pd end_date = Some hi)
    (Hwf : well_formed df = true) :
  exists r' w' out,
    filter_by_date_range pd (Some r) start_date end_date w = (Ok (Some r'), w') /\
    frames w' !! r' = Some out /\
    (columns out).*1 = (columns df).*1 /\
    (forall name s', getitem out name = Some s' ->
       exists s, getitem df name = Some s /\ dtype_of s' = dtype_of s /\
                 cells s' `sublist_of` cells s) /\
    well_formed out = true /\
    nrows out = count_in_range lo hi date /\
    (forall date', getitem out "Date" = Some date' ->
       forallb (in_range lo hi) (cells date') = true).
Proof.
  destruct (filter_by_date_range_run pd w r df date start_date end_date lo hi
              Harg Hdate Hcells Hlo Hhi) as (r' & w' & Hrun & Hr').
  exists r', w', (date_filtered lo hi date df).
  split; [exact Hrun|]. split; [exact Hr'|].
  rewrite (date_filtered_boolean_index lo hi date df Hwf Hdate).
  set (mask := map (in_range lo hi) (cells date)).
  split; [apply names_boolean_index|]. split.
  { intros name s'. rewrite getitem_boolean_index.
    destruct (getitem df name) as [s|]; [|done]. intros [= <-].
    exists s. split; [done|]. split; [done|]. apply select_sublist. }
  split; [by apply well_formed_boolean_index|]. split.
  { unfold boolean_index, count_in_range. cbn [nrows].
    rewrite <- select_map_filter. apply length_select.
    rewrite length_replicate. symmetry. by eapply well_formed_getitem. }
  intros date'. rewrite getitem_boolean_index, Hdate. intros [= <-].
  cbn [cells]. unfold mask. rewrite select_map_filter.
  apply forallb_forall. intros v Hv%list_elem_of_In.
  by apply list_elem_of_filter in Hv as [Hv _].
Qed.

Lemma filtered_frame_shape_witness :
  exists r' w' out,
    filter_by_date_range reference_pd (Some 1%positive)
      (Some "2004-03-10") (Some "2004-03-11")
      (World {[1%positive := range_frame]} []) = (Ok (Some r'), w') /\
    frames w' !! r' = Some out /\ nrows out = 2%nat.
Proof.
  destruct (filtered_frame_shape reference_pd
           (World {[1%positive := range_frame]} []) 1%positive range_frame
           (mkSeries datetime64
              [VTimestamp (march 10); VTimestamp (march 11); VNaT;
               VTimestamp (march 12)])
           (Some "2004-03-10") (Some "2004-03-11")
           (Some (march 10)) (Some (march 11)))
    as (r' & w' & out & Hrun & Hout & _ & _ & _ & Hrows & _);
    [reflexivity..|].
  exists r', w', out. split; [exact Hrun|]. split; [exact Hout|exact Hrows].
Defined.

(** *** What the analysis functions leave alone *)

Lemma read_only_ret {A} (a : A) : read_only (ret a).
Proof. intros w. split; [apply keeps_frames_refl|done]. Qed.

Lemma read_only_raise {A} (e : exn) : read_only (@raise A e).
Proof. intros w. split; [apply keeps_frames_refl|done]. Qed.

Lemma read_only_lift {A} (r : result A) : read_only (lift r).
Proof. intros w. split; [apply keeps_frames_refl|done]. Qed.

Lemma read_only_deref r : read_only (deref r).
Proof.
  intros w. unfold deref.
  destruct (frames w !! r); (split; [apply keeps_frames_refl|done]).
Qed.

Lemma read_only_alloc d : read_only (alloc d).
Proof.
  intros w. unfold alloc. cbn [snd frames stdout]. split; [|done].
  intros q x Hq. cbn [frames]. rewrite lookup_insert_ne; [done|].
  intros <-. by rewrite fresh_frame in Hq.
Qed.

Lemma read_only_bind {A B} (m : M A) (k : A -> M B) :
  read_only m -> (forall a, read_only (k a)) -> read_only (m ≫= k).
Proof.
  intros Hm Hk w. unfold mbind, M_bind, bind.
  destruct (Hm w) as [Hf Hs]. destruct (m w) as [[a|e] w1]; cbn [snd] in *.
  - destruct (Hk a w1) as [Hf' Hs']. split.
    + by eapply keeps_frames_trans.
    + by rewrite Hs'.
  - done.
Qed.

Lemma read_only_copy r : read_only (copy r).
Proof.
  apply read_only_bind; [apply read_only_deref|]. intros d. apply read_only_alloc.
Qed.

Lemma read_only_method f r : read_only (method f r).
Proof.
  apply read_only_bind; [apply read_only_deref|]. intros d. apply read_only_alloc.
Qed.

Lemma read_only_getitem_ref r name : read_only (getitem_ref r name).
Proof.
  apply read_only_bind; [apply read_only_deref|]. intros d.
  destruct (getitem d name); [apply read_only_ret|apply read_only_raise].
Qed.

Lemma read_only_filter_rows pd test bound r :
  read_only (filter_rows pd test bound r).
Proof.
  apply read_only_bind; [apply read_only_getitem_ref|]. intros date.
  apply read_only_bind.
  { unfold to_datetime_scalar.
    destruct (scalar_datetime pd bound); [apply read_only_ret|apply read_only_raise]. }
  intros b. apply read_only_bind; [apply read_only_lift|]. intros mask.
  apply read_only_method.
Qed.

Lemma read_only_filter_by_date_range pd df start_date end_date :
  read_only (filter_by_date_range pd df start_date end_date).
Proof.
  destruct df as [r|]; [|apply read_only_ret].
  apply read_only_bind; [apply read_only_copy|]. intros r1.
  apply read_only_bind.
  { destruct (truthy start_date);
      [apply read_only_filter_rows|apply read_only_ret]. }
  intros r2. apply read_only_bind.
  { destruct (truthy end_date);
      [apply read_only_filter_rows|apply read_only_ret]. }
  intros r3. apply read_only_ret.
Qed.

(** X20. None of the four analysis functions changes a frame that exists
    or prints anything, whatever it is given and whether it returns or
    raises: [get_data_summary], [calculate_air_quality_metrics],
    [filter_by_date_range] and [get_daily_averages] only read their
    argument and, at most, create new frames. *)
Theorem analysis_is_read_only pd series_min series_max percentage groupby_mean
    sm smed smax smin sstd df start_date end_date :
  read_only (get_data_summary series_min series_max percentage df) /\
  read_only (calculate_air_quality_metrics sm smed smax smin sstd df) /\
  read_only (filter_by_date_range pd df start_date end_date) /\
  read_only (get_daily_averages groupby_mean df).
Proof.
  destruct df as [r|]; [|repeat split; apply read_only_ret].
  split; [|split; [|split]].
  - apply read_only_bind; [apply read_only_deref|]. intros d.
    apply read_only_bind; [apply read_only_getitem_ref|]. intros date.
    apply read_only_bind; [apply read_only_lift|]. intros start.
    apply read_only_bind; [apply read_only_lift|]. intros finish.
    apply read_only_ret.
  - apply read_only_bind; [apply read_only_deref|]. intros d.
    destruct (df_empty d); [apply read_only_ret|apply read_only_lift].
  - apply (read_only_filter_by_date_range pd (Some r)).
  - apply read_only_bind; [apply read_only_deref|]. intros d.
    apply read_only_bind.
    { apply read_only_bind; [apply read_only_lift|]. intros g.
      apply read_only_alloc. }
    intros r1. apply read_only_ret.
Qed.

(** *** Cleaning, then analysing *)




Lemma dropna_numbers s :
  forallb number_or_nan (cells s) = true -> has_value s = true ->
  numbers_only (dropna s) = true.
Proof.
  intros Hnum Hv. unfold numbers_only.
  destruct (cells (dropna s)) as [|v l] eqn:E.
  - apply has_value_dropna in E. congruence.
  - rewrite <- E. unfold dropna. cbn [cells].
    apply forallb_forall. intros x Hx%list_elem_of_In.
    apply list_elem_of_filter in Hx as [Hx Hin].
    rewrite forallb_forall in Hnum. specialize (Hnum x (proj1 (list_elem_of_In _ _) Hin)).
    by destruct x.
Qed.

Lemma checked_columns_numeric col name :
  (col, name) ∈ columns_to_check -> col ∈ numeric_columns.
Proof.
  intros Hin. repeat (apply elem_of_cons in Hin as [[= -> ->]|Hin];
    [apply (bool_decide_eq_true_1 (_ ∈ _)); by vm_compute|]).
  by apply elem_of_nil in Hin.
Qed.

Lemma cleaned_numeric_cells pd df col s :
  col ∈ numeric_columns -> getitem (clean_frame pd df) col = Some s ->
  forallb number_or_nan (cells s) = true.
Proof.
  intros Hin Hcol. rewrite getitem_clean_frame_numeric in Hcol by exact Hin.
  destruct (getitem df col) as [c|]; [|discriminate]. injection Hcol as <-.
  unfold coerced. apply to_numeric_schema.
Qed.

(** X22. On a cleaned frame the statistics are taken over numbers only:
    each of CO(GT), T, RH and AH is numeric after [clean_data], so what
    [calculate_air_quality_metrics] hands to a statistic is a column of
    ints and floats that is not empty, never text and never a null.  Two
    families of statistics that agree on such columns give the same result
    on every cleaned frame. *)
Theorem metrics_of_cleaned_frame_see_numbers pd
    sm smed smax smin sstd sm' smed' smax' smin' sstd' w r df
    (Harg : frames w !! r = Some (clean_frame pd df))
    (Hsame : forall s, numbers_only s = true ->
       sm s = sm' s /\ smed s = smed' s /\ smax s = smax' s /\
       smin s = smin' s /\ sstd s = sstd' s) :
  calculate_air_quality_metrics sm smed smax smin sstd (Some r) w =
  calculate_air_quality_metrics sm' smed' smax' smin' sstd' (Some r) w.
Proof.
  pose proof (cleaned_numeric_cells pd df) as Hnum.
  revert Harg Hnum. generalize (clean_frame pd df) as d. intros d Harg Hnum.
  rewrite !(metrics_run _ _ _ _ _ _ _ _ Harg).
  destruct (df_empty d); [reflexivity|]. f_equal.
  apply (metric_loop_ext_on numbers_only); [|exact Hsame].
  intros col name s Hin Hcol Hv. apply dropna_numbers; [|exact Hv].
  apply (Hnum col); [|exact Hcol]. by eapply checked_columns_numeric.
Qed.

Lemma metrics_of_cleaned_frame_see_numbers_witness :
  calculate_air_quality_metrics
    (fun s => Ok (VInt (Z.of_nat (length (cells s)))))
    (fun s => Ok (VInt (Z.of_nat (length (cells s)))))
    (fun s => Ok (VInt (Z.of_nat (length (cells s)))))
    (fun s => Ok (VInt (Z.of_nat (length (cells s)))))
    (fun s => Ok (VInt (Z.of_nat (length (cells s)))))
    (Some 1%positive)
    (World {[1%positive := clean_frame reference_pd dated_frame]} []) =
  calculate_air_quality_metrics
    (fun s => if numbers_only s then Ok (VInt (Z.of_nat (length (cells s))))
              else Raise (Exn TypeError "could not convert string to float"))
    (fun s => Ok (VInt (Z.of_nat (length (cells s)))))
    (fun s => Ok (VInt (Z.of_nat (length (cells s)))))
    (fun s => Ok (VInt (Z.of_nat (length (cells s)))))
    (fun s => Ok (VInt (Z.of_nat (length (cells s)))))
    (Some 1%positive)
    (World {[1%positive := clean_frame reference_pd dated_frame]} []).
Proof.
  apply (metrics_of_cleaned_frame_see_numbers reference_pd _ _ _ _ _ _ _ _ _ _
           _ 1%positive dated_frame).
  - apply lookup_insert_eq.
  - intros s Hs. rewrite Hs. repeat split.
Defined.
